(** * Testing-guide builder and tester-package assembler

    A shallow embedding of the two build scripts of the repository,

      - [TESTING_GUIDES/build-html-guide.py]  (module [Guide]), and
      - [create-tester-package.py]            (module [Package]),

    together with the properties of them that the specification states.

    Python [str] values are modelled as [string]: the sequence of the bytes of
    the UTF-8 encoding of the text.  Every pattern the scripts search for or
    insert is ASCII, and an ASCII byte never occurs inside the encoding of a
    non-ASCII code point, so [str.replace] with such patterns acts on the
    encoded bytes exactly as it acts on the code points. *)

From Stdlib Require Import Ascii String List Bool Arith Lia.
From stdpp Require Import base option list strings pretty gmap fin_maps.

(** ** Python string primitives *)

Module Str.

(** The double-quote character and the line feed, which the string notation
    cannot spell inside a literal. *)
Definition dq : string := String "034"%char EmptyString.
Definition nl : string := String "010"%char EmptyString.

(** [str.replace(old, new)]: scan left to right; wherever [old] starts, emit
    [new] and jump over the match (occurrences never overlap), otherwise copy
    one character.  [skip] counts the characters of a match that are still to
    be jumped over.  With an empty [old], Python inserts [new] before every
    character and at the end. *)
Fixpoint replace_from (old new : string) (skip : nat) (s : string) : string :=
  match s with
  | EmptyString => EmptyString
  | String c s' =>
      match skip with
      | S k => replace_from old new k s'
      | O =>
          if String.prefix old s
          then new +:+ replace_from old new (String.length old - 1) s'
          else String c (replace_from old new 0 s')
      end
  end.

Fixpoint intersperse_before (new s : string) : string :=
  match s with
  | EmptyString => new
  | String c s' => new +:+ String c (intersperse_before new s')
  end.

Definition replace (old new s : string) : string :=
  match old with
  | EmptyString => intersperse_before new s
  | _ => replace_from old new 0 s
  end.

(** [str.lower()] on ASCII text: the letters A..Z move to a..z, every other
    byte is kept.  (On code points outside ASCII Python applies the Unicode
    case mapping; the bytes of their encoding are left alone here.  All the
    paths of the registry are ASCII.) *)
Definition lower_char (c : ascii) : ascii :=
  let n := nat_of_ascii c in
  if (65 <=? n) && (n <=? 90) then ascii_of_nat (n + 32) else c.

Fixpoint lower (s : string) : string :=
  match s with
  | EmptyString => EmptyString
  | String c s' => String (lower_char c) (lower s')
  end.

(** [s.startswith(p)] and [s.endswith(p)]. *)
Definition startswith (s p : string) : bool := String.prefix p s.

Fixpoint endswith (s p : string) : bool :=
  String.eqb s p ||
  match s with
  | EmptyString => false
  | String _ s' => endswith s' p
  end.

(** [c in s] for a single character. *)
Fixpoint contains_char (c : ascii) (s : string) : bool :=
  match s with
  | EmptyString => false
  | String x s' => Ascii.eqb c x || contains_char c s'
  end.

(** Concatenation of a list of strings, in order. *)
Fixpoint concat (l : list string) : string :=
  match l with
  | [] => EmptyString
  | x :: l' => x +:+ concat l'
  end.

(** [infix t s]: the text [t] occurs inside [s]. *)
Definition infix (t s : string) : Prop :=
  exists pre post : string, s = pre +:+ t +:+ post.

End Str.

(** ** Outcomes of effectful steps *)

(** The Python exceptions the two scripts can meet. *)
Inductive exn : Type :=
  | FileNotFoundError
  | FileExistsError
  | IsADirectoryError
  | NotADirectoryError
  | PermissionError
  | UnicodeDecodeError
  | OSError.

#[global] Instance exn_eq_dec : EqDecision exn.
Proof. solve_decision. Defined.

Inductive outcome (A : Type) : Type :=
  | Ok (a : A)
  | Raise (e : exn).
Arguments Ok {A} a.
Arguments Raise {A} e.

(** ** The guide builder, [TESTING_GUIDES/build-html-guide.py] *)

Module Guide.
Import Str.

(** *** Guide registry *)

Record guide : Type := { file : string; title : string; icon : string }.

(** The dictionary [GUIDES] is only ever indexed by its three literal keys. *)
Record registry : Type :=
  { core : list guide; feature_tests : list guide; workflows : list guide }.

Definition GUIDES : registry :=
  {| core :=
       [ {| file := "README.md"; title := "Overview"; icon := "📋" |};
         {| file := "MASTER_TESTING_GUIDE.md"; title := "Master Testing Guide"; icon := "🎯" |};
         {| file := "TESTNET_SETUP_GUIDE.md"; title := "Testnet Setup"; icon := "⚙️" |};
         {| file := "PRIORITY_TEST_EXECUTION_GUIDE.md"; title := "Priority Tests (P0)"; icon := "🚀" |};
         {| file := "BUG_REPORTING_GUIDE.md"; title := "Bug Reporting"; icon := "🐛" |};
         {| file := "TEST_RESULTS_TRACKER.md"; title := "Results Tracker"; icon := "📊" |};
         {| file := "VISUAL_TESTING_REFERENCE.md"; title := "Visual Testing"; icon := "🎨" |};
         {| file := "BITCOIN_SPECIFIC_TESTING.md"; title := "Bitcoin Testing"; icon := "₿" |};
         {| file := "EXTENSION_INSTALLATION_GUIDE.md"; title := "Extension Install"; icon := "📦" |};
         {| file := "DISTRIBUTION_GUIDE.md"; title := "Distribution"; icon := "🌐" |} ];
     feature_tests :=
       [ {| file := "FEATURE_TESTS/01_TAB_ARCHITECTURE.md"; title := "01. Tab Architecture"; icon := "🪟" |};
         {| file := "FEATURE_TESTS/02_WALLET_SETUP.md"; title := "02. Wallet Setup"; icon := "💼" |};
         {| file := "FEATURE_TESTS/03_AUTHENTICATION.md"; title := "03. Authentication"; icon := "🔐" |};
         {| file := "FEATURE_TESTS/04_ACCOUNT_MANAGEMENT.md"; title := "04. Account Management"; icon := "👤" |};
         {| file := "FEATURE_TESTS/05_SEND_TRANSACTIONS.md"; title := "05. Send Transactions"; icon := "📤" |};
         {| file := "FEATURE_TESTS/06_RECEIVE_TRANSACTIONS.md"; title := "06. Receive Transactions"; icon := "📥" |};
         {| file := "FEATURE_TESTS/07_TRANSACTION_HISTORY.md"; title := "07. Transaction History"; icon := "📜" |};
         {| file := "FEATURE_TESTS/08_MULTISIG_WALLETS.md"; title := "08. Multisig Wallets"; icon := "🔑" |};
         {| file := "FEATURE_TESTS/09_SECURITY_FEATURES.md"; title := "09. Security Features"; icon := "🛡️" |};
         {| file := "FEATURE_TESTS/10_SETTINGS_PREFERENCES.md"; title := "10. Settings"; icon := "⚙️" |};
         {| file := "FEATURE_TESTS/10_CONTACT_MANAGEMENT.md"; title := "10. Contact Management"; icon := "📇" |};
         {| file := "FEATURE_TESTS/11_ACCESSIBILITY_PERFORMANCE.md"; title := "11. Accessibility"; icon := "♿" |};
         {| file := "FEATURE_TESTS/11_TRANSACTION_FILTERING.md"; title := "11. Transaction Filtering"; icon := "🔍" |};
         {| file := "FEATURE_TESTS/12_TRANSACTION_METADATA.md"; title := "12. Transaction Metadata"; icon := "🏷️" |};
         {| file := "FEATURE_TESTS/13_ENCRYPTED_BACKUP.md"; title := "13. Encrypted Backup"; icon := "💾" |} ];
     workflows :=
       [ {| file := "PSBT_WORKFLOW_TESTING_GUIDE.md"; title := "PSBT Workflow"; icon := "🔄" |} ] |}.

(** *** Effects

    A run prints lines and, at the end, writes one file.  The file system is
    only read until then, so it is an argument ([world]) and the effects of a
    run are the trace it leaves. *)

Record world : Type :=
  { (** [open(path, 'r', encoding='utf-8').read()]: the decoded text (text
        mode hands every line ending over as a line feed), or the exception
        that opening or decoding raises. *)
    open_read : string -> outcome string;
    (** whether [open(path, 'w', encoding='utf-8')] and the write succeed *)
    open_write : string -> outcome unit;
    (** [os.path.abspath] *)
    abspath : string -> string }.

Inductive effect : Type :=
  | Print (line : string)
  | WriteFile (path text : string).

Definition M (A : Type) : Type := (outcome A * list effect)%type.

Definition ret {A} (a : A) : M A := (Ok a, []).
Definition raise {A} (e : exn) : M A := (Raise e, []).
Definition bind {A B} (m : M A) (f : A -> M B) : M B :=
  match m with
  | (Ok a, t) => let '(r, t') := f a in (r, t ++ t')
  | (Raise e, t) => (Raise e, t)
  end.
Definition print (line : string) : M unit := (Ok tt, [Print line]).
Definition lift {A} (o : outcome A) : M A := (o, []).

Notation "x <- m ;; k" := (bind m (fun x => k))
  (at level 100, m at next level, right associativity).
Notation "m ;;; k" := (bind m (fun _ => k))
  (at level 100, right associativity).

(** [for x in l: acc = body(acc, x)] where the body may print or raise. *)
Fixpoint for_each {A B} (body : B -> A -> M B) (l : list A) (acc : B) : M B :=
  match l with
  | [] => ret acc
  | x :: l' => acc' <- body acc x ;; for_each body l' acc'
  end.

(** [posixpath.join(a, b)]. *)
Definition os_path_join (a b : string) : string :=
  if startswith b "/" then b
  else if String.eqb a EmptyString || endswith a "/" then a +:+ b
  else a +:+ "/" +:+ b.

(** *** [read_file] *)

Definition read_file (w : world) (filepath : string) : M (option string) :=
  match open_read w filepath with
  | Ok text => ret (Some text)
  | Raise FileNotFoundError =>
      print ("Warning: File not found: " +:+ filepath) ;;; ret None
  | Raise e => raise e
  end.

(** *** [escape_for_js] *)

Definition escape_for_js (content : option string) : string :=
  match content with
  | None => EmptyString
  | Some content =>
      let content := replace "\" "\\" content in
      let content := replace "`" "\`" content in
      let content := replace "${" "\${" content in
      content
  end.

(** Truthiness of an optional string: [None] and the empty string are falsy. *)
Definition truthy (content : option string) : bool :=
  match content with
  | None | Some EmptyString => false
  | Some _ => true
  end.

(** *** [generate_nav_html] *)

Definition unlines (l : list string) : string :=
  concat (map (fun x => x +:+ nl) l).

Definition nav_link (guide_id : string) (g : guide) : string :=
  "      <li><a href=" +:+ dq +:+ "#" +:+ guide_id +:+ dq +:+ " class=" +:+ dq
  +:+ "nav-link" +:+ dq +:+ " data-guide=" +:+ dq +:+ guide_id +:+ dq +:+ ">"
  +:+ icon g +:+ " " +:+ title g +:+ "</a></li>" +:+ nl.

(** The three identifier chains of the navigation, one per category loop. *)
Definition nav_id_core (g : guide) : string :=
  lower (replace "/" "-" (replace ".md" "" (file g))).
Definition nav_id_feature (g : guide) : string :=
  lower (replace "/" "-" (replace "FEATURE_TESTS/" "feature-" (replace ".md" "" (file g)))).
Definition nav_id_workflows (g : guide) : string :=
  lower (replace "/" "-" (replace ".md" "" (replace "../" "" (file g)))).

Definition nav_header : string :=
  unlines
    [ "<nav id=" +:+ dq +:+ "sidebar" +:+ dq +:+ ">";
      "  <div class=" +:+ dq +:+ "sidebar-header" +:+ dq +:+ ">";
      "    <h2>₿ Bitcoin Wallet</h2>";
      "    <p>Testing Guides</p>";
      "  </div>";
      EmptyString;
      "  <div class=" +:+ dq +:+ "search-box" +:+ dq +:+ ">";
      "    <input type=" +:+ dq +:+ "text" +:+ dq +:+ " id=" +:+ dq +:+ "search-input" +:+ dq +:+ " placeholder=" +:+ dq +:+ "Search guides..." +:+ dq +:+ " />";
      "  </div>";
      EmptyString;
      "  <div class=" +:+ dq +:+ "nav-section" +:+ dq +:+ ">";
      "    <h3>Core Guides</h3>";
      "    <ul>" ].

Definition nav_section_break (heading : string) : string :=
  unlines
    [ "    </ul>";
      "  </div>";
      EmptyString;
      "  <div class=" +:+ dq +:+ "nav-section" +:+ dq +:+ ">";
      "    <h3>" +:+ heading +:+ "</h3>";
      "    <ul>" ].

Definition nav_footer : string :=
  unlines [ "    </ul>"; "  </div>"; "</nav>" ].

Definition generate_nav_html (guides : registry) : string :=
  let nav_html := nav_header in
  let nav_html :=
    fold_left (fun nav_html g => nav_html +:+ nav_link (nav_id_core g) g)
              (core guides) nav_html in
  let nav_html := nav_html +:+ nav_section_break "Feature Tests" in
  let nav_html :=
    fold_left (fun nav_html g => nav_html +:+ nav_link (nav_id_feature g) g)
              (feature_tests guides) nav_html in
  let nav_html := nav_html +:+ nav_section_break "Workflows" in
  let nav_html :=
    fold_left (fun nav_html g => nav_html +:+ nav_link (nav_id_workflows g) g)
              (workflows guides) nav_html in
  nav_html +:+ nav_footer.

(** *** [generate_markdown_data] *)

Inductive category : Type := Core | Feature | Workflow.

Definition all_guides (guides : registry) : list (category * guide) :=
  let all_guides := [] in
  let all_guides := all_guides ++ map (fun g => (Core, g)) (core guides) in
  let all_guides := all_guides ++ map (fun g => (Feature, g)) (feature_tests guides) in
  let all_guides := all_guides ++ map (fun g => (Workflow, g)) (workflows guides) in
  all_guides.

(** The identifier chain of the content mapping. *)
Definition data_guide_id (c : category) (g : guide) : string :=
  let guide_id :=
    lower (replace "/" "-" (replace "./" "" (replace "../" "" (replace ".md" "" (file g))))) in
  match c with
  | Feature => replace "feature_tests" "feature" guide_id
  | _ => guide_id
  end.

Definition data_line (guide_id escaped_content : string) : string :=
  "  " +:+ dq +:+ guide_id +:+ dq +:+ ": `" +:+ escaped_content +:+ "`," +:+ nl.

Definition data_header : string := "const markdownContent = {" +:+ nl.
Definition data_footer : string := "};" +:+ nl.

Definition generate_markdown_data (w : world) (guides : registry) (base_dir : string)
  : M string :=
  let markdown_data := data_header in
  markdown_data <-
    for_each
      (fun markdown_data '(c, g) =>
         let guide_id := data_guide_id c g in
         let file_path := os_path_join base_dir (file g) in
         content <- read_file w file_path ;;
         if truthy content
         then
           let escaped_content := escape_for_js content in
           ret (markdown_data +:+ data_line guide_id escaped_content)
         else ret markdown_data)
      (all_guides guides) markdown_data ;;
  ret (markdown_data +:+ data_footer).

(** *** [generate_html] *)

(** The identifier chain of the content sections. *)
Definition section_guide_id (c : category) (g : guide) : string :=
  let guide_id :=
    lower (replace "/" "-" (replace "./" "" (replace "../" "" (replace ".md" "" (file g))))) in
  match c with
  | Feature => replace "feature_tests" "feature" guide_id
  | _ => guide_id
  end.

Definition section_line (guide_id : string) : string :=
  "        <section id=" +:+ dq +:+ guide_id +:+ dq +:+ " class=" +:+ dq
  +:+ "guide-section" +:+ dq +:+ "><div class=" +:+ dq +:+ "markdown-body" +:+ dq
  +:+ "></div></section>" +:+ nl.

Definition main_close : string :=
  unlines [ "    </main>"; EmptyString; "    <script>" ].

Definition summary : list string :=
  [ EmptyString;
    "✨ New features:";
    "   • Markdown rendered with marked.js (GitHub-style)";
    "   • Compact, natural spacing";
    "   • Better typography and readability";
    "   • All interactive features preserved" ].

Section Page.

(** The three long literals of [generate_html], which no step inspects: the
    document head with the style sheet up to the opening of the body, the
    opening of the main element with the welcome section, and the client
    script with the closing tags. *)
Variables (page_head page_welcome page_script : string).

Definition page_sections (guides : registry) (html : string) : string :=
  fold_left (fun html '(c, g) => html +:+ section_line (section_guide_id c g))
            (all_guides guides) html.

(** The text of the page, up to the embedded content. *)
Definition page_before_data : string :=
  let html := page_head in
  let html := html +:+ generate_nav_html GUIDES in
  let html := html +:+ page_welcome in
  let html := page_sections GUIDES html in
  html +:+ main_close.

Definition generate_html (w : world) (base_dir : string) : M string :=
  let html := page_before_data in
  data <- generate_markdown_data w GUIDES base_dir ;;
  let html := html +:+ data in
  let html := html +:+ page_script in
  let output_path := os_path_join base_dir "testing-guide.html" in
  lift (open_write w output_path) ;;;
  (Ok tt, [WriteFile output_path html]) ;;;
  print ("✅ HTML Testing Guide generated: " +:+ output_path) ;;;
  print ("📂 Open in browser: file://" +:+ abspath w output_path) ;;;
  for_each (fun _ line => print line) summary tt ;;;
  ret output_path.

End Page.

(** The files a trace writes and the lines it prints, in order. *)
Definition writes (t : list effect) : list (string * string) :=
  flat_map (fun e => match e with WriteFile p text => [(p, text)] | Print _ => [] end) t.
Definition prints (t : list effect) : list string :=
  flat_map (fun e => match e with Print line => [line] | WriteFile _ _ => [] end) t.


End Guide.

(** ** The page's side: JavaScript template literals and object literals

    The embedded content is the source text of an object literal whose
    property values are template literals without substitutions.  This module
    gives the part of ECMAScript that the page applies to it: the value of a
    template literal (ECMA-262, Template Literal Lexical Components, Static
    Semantics TV) and the evaluation of an object literal's property
    definitions in source order. *)

Module Js.

Definition LF : ascii := "010"%char.
Definition CR : ascii := "013"%char.

(** Reading a template literal from just after its opening backtick. *)
Inductive template : Type :=
  | Closed (value rest : string)        (** the closing backtick was reached *)
  | Substitution (value rest : string)  (** a [${] opened a substitution *)
  | SyntaxError                         (** unterminated, or an illegal escape *)
  | NotModelled.                        (** [\x] and [\u] escapes *)

Definition push (c : ascii) (t : template) : template :=
  match t with
  | Closed v rest => Closed (String c v) rest
  | Substitution v rest => Substitution (String c v) rest
  | SyntaxError => SyntaxError
  | NotModelled => NotModelled
  end.

Definition is_digit (c : ascii) : bool :=
  let n := nat_of_ascii c in (48 <=? n) && (n <=? 57).

(** The character a single-character escape stands for: the
    SingleEscapeCharacters have their control characters, every other
    character that may follow the backslash stands for itself. *)
Definition single_escape (c : ascii) : ascii :=
  if Ascii.eqb c "b" then "008"
  else if Ascii.eqb c "t" then "009"
  else if Ascii.eqb c "n" then "010"
  else if Ascii.eqb c "v" then "011"
  else if Ascii.eqb c "f" then "012"
  else if Ascii.eqb c "r" then "013"
  else c.

Fixpoint template_value (s : string) : template :=
  match s with
  | EmptyString => SyntaxError
  | String c s1 =>
      if Ascii.eqb c "`" then Closed EmptyString s1
      else if Ascii.eqb c "$" then
        match s1 with
        | String d s2 =>
            if Ascii.eqb d "{" then Substitution EmptyString s2
            else push c (template_value s1)
        | EmptyString => push c (template_value s1)
        end
      else if Ascii.eqb c "\" then
        match s1 with
        | EmptyString => SyntaxError
        | String e s2 =>
            if Ascii.eqb e "x" || Ascii.eqb e "u" then NotModelled
            else if Ascii.eqb e "0" then
              match s2 with
              | String d _ =>
                  if is_digit d then SyntaxError
                  else push "000" (template_value s2)
              | EmptyString => push "000" (template_value s2)
              end
            else if is_digit e then SyntaxError
            else if Ascii.eqb e LF then template_value s2
            else if Ascii.eqb e CR then
              match s2 with
              | String d s3 =>
                  if Ascii.eqb d LF then template_value s3 else template_value s2
              | EmptyString => template_value s2
              end
            else if Ascii.eqb e "226" then
              (* a backslash before U+2028 or U+2029 continues the line *)
              match s2 with
              | String "128" (String "168" s4) => template_value s4
              | String "128" (String "169" s4) => template_value s4
              | _ => push e (template_value s2)
              end
            else push (single_escape e) (template_value s2)
        end
      else if Ascii.eqb c CR then
        (* a carriage return, alone or before a line feed, reads as a line feed *)
        match s1 with
        | String d s2 =>
            if Ascii.eqb d LF then push LF (template_value s2)
            else push LF (template_value s1)
        | EmptyString => push LF (template_value s1)
        end
      else push c (template_value s1)
  end.

(** An object as the ordered list of its own properties, each key once. *)
Definition object : Type := list (string * string).

Fixpoint define_property (k v : string) (o : object) : object :=
  match o with
  | [] => [(k, v)]
  | (k', v') :: o' =>
      if String.eqb k k' then (k, v) :: o' else (k', v') :: define_property k v o'
  end.

(** Evaluating [{ k1: v1, k2: v2, ... }]: the property definitions run in
    source order, a later one for the same key replacing the value. *)
Definition object_literal (props : list (string * string)) : object :=
  fold_left (fun o '(k, v) => define_property k v o) props [].

(** [o[k]] *)
Fixpoint get (o : object) (k : string) : option string :=
  match o with
  | [] => None
  | (k', v) :: o' => if String.eqb k k' then Some v else get o' k
  end.

(** The number of own properties of [o] named [k]. *)
Definition count (o : object) (k : string) : nat :=
  List.length (List.filter (fun p => String.eqb k (fst p)) o).

End Js.

(** ** The embedded content mapping *)

Module Content.
Import Str Guide.

(** The identifier of a navigation link, by the loop that emits it. *)
Definition nav_guide_id (c : category) (g : guide) : string :=
  match c with
  | Core => nav_id_core g
  | Feature => nav_id_feature g
  | Workflow => nav_id_workflows g
  end.

(** The property that the loop of [generate_markdown_data] appends for one
    entry: none when the file is missing or its text is empty. *)
Definition embedded (w : world) (base_dir : string) (cg : category * guide)
  : option (string * string) :=
  match open_read w (os_path_join base_dir (file (snd cg))) with
  | Ok text =>
      if truthy (Some text)
      then Some (data_guide_id (fst cg) (snd cg), escape_for_js (Some text))
      else None
  | Raise _ => None
  end.

(** The property definitions of the emitted object literal, in order. *)
Definition emitted_properties (w : world) (guides : registry) (base_dir : string)
  : list (string * string) :=
  omap (embedded w base_dir) (all_guides guides).

(** The text of the object literal with the given property definitions. *)
Definition render (props : list (string * string)) : string :=
  data_header +:+ concat (map (fun p => data_line (fst p) (snd p)) props) +:+ data_footer.

(** [markdownContent], as the page's script sees it. *)
Definition content_mapping (w : world) (guides : registry) (base_dir : string)
  : Js.object :=
  Js.object_literal (emitted_properties w guides base_dir).

(** The warning [read_file] prints for an entry, if any. *)
Definition warning (w : world) (base_dir : string) (cg : category * guide)
  : option string :=
  let filepath := os_path_join base_dir (file (snd cg)) in
  match open_read w filepath with
  | Raise FileNotFoundError => Some ("Warning: File not found: " +:+ filepath)
  | _ => None
  end.

(** No read fails otherwise than by the file being absent. *)
Definition reads_settle (w : world) (base_dir : string) (l : list (category * guide))
  : Prop :=
  Forall (fun cg =>
            match open_read w (os_path_join base_dir (file (snd cg))) with
            | Ok _ | Raise FileNotFoundError => True
            | Raise _ => False
            end) l.

End Content.

(** ** The identifier rules in the specification's words *)

Module SpecRules.
Import Str.

Fixpoint drop (n : nat) (s : string) : string :=
  match n, s with
  | S n', String _ s' => drop n' s'
  | _, _ => s
  end.

Fixpoint take (n : nat) (s : string) : string :=
  match n, s with
  | S n', String c s' => String c (take n' s')
  | _, _ => EmptyString
  end.

(** (a) strip a leading directory prefix if present *)
Definition strip_prefix (p s : string) : string :=
  if startswith s p then drop (String.length p) s else s.

(** (b) strip the trailing Markdown extension *)
Definition strip_extension (s : string) : string :=
  if endswith s ".md" then take (String.length s - 3) s else s.

(** (c) replace every path separator with [-] *)
Definition dash_separators (s : string) : string := replace "/" "-" s.

(** Rules (a) to (d), in this order, for a directory prefix [p]. *)
Definition identifier (p path : string) : string :=
  lower (dash_separators (strip_extension (strip_prefix p path))).

(** The directory prefix of each category. *)
Definition category_prefix (c : Guide.category) : string :=
  match c with
  | Guide.Core => EmptyString
  | Guide.Feature => "FEATURE_TESTS/"
  | Guide.Workflow => "../"
  end.

(** Rule (a) as the builder applies it: the prefix of the feature tests is
    rewritten to [feature-], not dropped; the other prefixes are dropped. *)
Definition rewrite_prefix (c : Guide.category) (path : string) : string :=
  match c with
  | Guide.Feature =>
      if startswith path "FEATURE_TESTS/"
      then "feature-" +:+ drop (String.length "FEATURE_TESTS/") path
      else path
  | _ => strip_prefix (category_prefix c) path
  end.

Definition identifier_rewriting (c : Guide.category) (path : string) : string :=
  lower (dash_separators (strip_extension (rewrite_prefix c path))).

End SpecRules.

(** ** The package assembler, [create-tester-package.py] *)

Module Package.
Import Str.

(** *** File trees

    A path is the list of the names below the project root.  A directory maps
    names to nodes; a file has its bytes and its permission bits.  A zip
    archive is a file whose data are its entries, each an archive name with
    the data and permission bits of the file stored under it. *)

Definition path : Type := list string.

#[warnings="-register-all"]
Inductive data : Type :=
  | Bytes (text : string)
  | Archive (entries : list (path * (data * N))).

#[warnings="-register-all"]
Inductive node : Type :=
  | File (content : data) (mode : N)
  | Dir (children : gmap string node).

Abbreviation tree := (gmap string node).
Abbreviation entry := (path * (data * N))%type.

(** The files at or below a node, named relatively to it. *)
Fixpoint walk (n : node) : list entry :=
  match n with
  | File d m => [([], (d, m))]
  | Dir ch =>
      map_fold (fun name child acc =>
                  map (fun e => (name :: fst e, snd e)) (walk child) ++ acc) [] ch
  end.

(** [os.walk(top)] joined with its [files]: nothing when [top] is no directory. *)
Definition os_walk_files (top : option node) : list entry :=
  match top with
  | Some (Dir ch) => walk (Dir ch)
  | _ => []
  end.

(** Files and directories at or below a node. *)
Fixpoint count_nodes (n : node) : nat :=
  match n with
  | File _ _ => 1
  | Dir ch => S (map_fold (fun _ child acc => count_nodes child + acc) 0 ch)
  end.

(** [sum(1 for _ in p.rglob('*'))] *)
Definition rglob_count (top : option node) : nat :=
  match top with
  | Some n => count_nodes n - 1
  | None => 0
  end.

Fixpoint stat (p : path) (t : tree) : option node :=
  match p with
  | [] => Some (Dir t)
  | name :: p' =>
      match t !! name with
      | Some n =>
          match p' with
          | [] => Some n
          | _ => match n with Dir ch => stat p' ch | File _ _ => None end
          end
      | None => None
      end
  end.

(** Set ([Some]) or remove ([None]) the entry at a path whose parent exists. *)
Fixpoint put (p : path) (x : option node) (t : tree) : outcome tree :=
  match p with
  | [] => Raise OSError
  | name :: p' =>
      match p' with
      | [] => Ok (partial_alter (fun _ => x) name t)
      | _ =>
          match t !! name with
          | Some (Dir ch) =>
              match put p' x ch with
              | Ok ch' => Ok (<[name := Dir ch']> t)
              | Raise e => Raise e
              end
          | Some (File _ _) => Raise NotADirectoryError
          | None => Raise FileNotFoundError
          end
      end
  end.

(** As [put] with [Some], creating the missing parent directories. *)
Fixpoint put_makedirs (p : path) (x : node) (t : tree) : outcome tree :=
  match p with
  | [] => Raise OSError
  | name :: p' =>
      match p' with
      | [] => Ok (<[name := x]> t)
      | _ =>
          match t !! name with
          | Some (File _ _) => Raise NotADirectoryError
          | Some (Dir ch) =>
              match put_makedirs p' x ch with
              | Ok ch' => Ok (<[name := Dir ch']> t)
              | Raise e => Raise e
              end
          | None =>
              match put_makedirs p' x ∅ with
              | Ok ch' => Ok (<[name := Dir ch']> t)
              | Raise e => Raise e
              end
          end
      end
  end.

Definition parent (p : path) : path := removelast p.
Definition basename (p : path) : string := List.last p EmptyString.
Definition relative_to (p base : path) : path := List.skipn (List.length base) p.

Definition st_size_text (text : string) : nat := String.length text.

(** *** The environment of a run *)

Record env : Type :=
  { (** [datetime.now().strftime('%Y%m%d')], the first reading of the clock *)
    timestamp : string;
    (** [datetime.now().strftime('%B %d, %Y')], the second reading *)
    package_date : string;
    (** [datetime.now().strftime('%Y-%m-%d')], the third reading *)
    package_date_iso : string;
    (** [str(project_root)] *)
    project_root : string;
    (** the permission bits of a file that [open(..., 'w')] creates *)
    new_file_mode : N;
    (** the size in bytes of a file's data (of an archive: once deflated) *)
    st_size : data -> nat;
    (** [f"{size / (1024 * 1024):.2f}"] *)
    format_mb : nat -> string }.

(** *** Effects *)

Definition M (A : Type) : Type := tree -> outcome A * tree * list string.

Definition ret {A} (a : A) : M A := fun t => (Ok a, t, []).
Definition bind {A B} (m : M A) (f : A -> M B) : M B :=
  fun t =>
    match m t with
    | (Ok a, t1, o1) => let '(r, t2, o2) := f a t1 in (r, t2, o1 ++ o2)
    | (Raise e, t1, o1) => (Raise e, t1, o1)
    end.
Definition print (line : string) : M unit := fun t => (Ok tt, t, [line]).
Definition update (f : tree -> outcome tree) : M unit :=
  fun t =>
    match f t with
    | Ok t' => (Ok tt, t', [])
    | Raise e => (Raise e, t, [])
    end.
Definition inspect {A} (f : tree -> A) : M A := fun t => (Ok (f t), t, []).

(** The result and the final tree of a run, without what it prints. *)
Definition exec {A} (m : M A) (t : tree) : outcome A * tree := fst (m t).

(** What a run prints. *)
Definition printed {A} (m : M A) (t : tree) : list string := snd (m t).

Notation "x <- m ;; k" := (bind m (fun x => k))
  (at level 100, m at next level, right associativity).
Notation "m ;;; k" := (bind m (fun _ => k))
  (at level 100, right associativity).

Fixpoint for_each {A} (body : A -> M unit) (l : list A) : M unit :=
  match l with
  | [] => ret tt
  | x :: l' => body x ;;; for_each body l'
  end.

(** [p.exists()] *)
Definition path_exists (p : path) : M bool :=
  inspect (fun t => match stat p t with Some _ => true | None => false end).

(** [shutil.rmtree(p)] *)
Definition rmtree (p : path) : M unit :=
  update (fun t =>
            match stat p t with
            | Some (Dir _) => put p None t
            | Some (File _ _) => Raise NotADirectoryError
            | None => Raise FileNotFoundError
            end).

(** [p.mkdir()] *)
Definition mkdir (p : path) : M unit :=
  update (fun t =>
            match stat p t with
            | Some _ => Raise FileExistsError
            | None => put p (Some (Dir ∅)) t
            end).

(** [shutil.copytree(src, dst)]: the whole tree, data and permission bits. *)
Definition copytree (src dst : path) : M unit :=
  update (fun t =>
            match stat src t with
            | Some (Dir ch) =>
                match stat dst t with
                | Some _ => Raise FileExistsError
                | None => put_makedirs dst (Dir ch) t
                end
            | Some (File _ _) => Raise NotADirectoryError
            | None => Raise FileNotFoundError
            end).

(** Create or replace the regular file at [p]. *)
Definition store (p : path) (f : node) (t : tree) : outcome tree :=
  match stat p t with
  | Some (Dir _) => Raise IsADirectoryError
  | _ => put p (Some f) t
  end.

(** [shutil.copy(src, dst)]: data and permission bits; into [dst] when that
    is a directory. *)
Definition copy (src dst : path) : M unit :=
  update (fun t =>
            match stat src t with
            | Some (File d m) =>
                match stat dst t with
                | Some (Dir _) => store (dst ++ [basename src]) (File d m) t
                | _ => store dst (File d m) t
                end
            | Some (Dir _) => Raise IsADirectoryError
            | None => Raise FileNotFoundError
            end).

(** [os.chmod(p, mode)] *)
Definition chmod (p : path) (mode : N) : M unit :=
  update (fun t =>
            match stat p t with
            | Some (File d _) => put p (Some (File d mode)) t
            | Some (Dir _) => Ok t
            | None => Raise FileNotFoundError
            end).

(** [with open(p, 'w') as f: f.write(text)] *)
Definition write_text (e : env) (p : path) (text : string) : M unit :=
  update (fun t =>
            match stat p t with
            | Some (File _ m) => store p (File (Bytes text) m) t
            | _ => store p (File (Bytes text) (new_file_mode e)) t
            end).

(** [os.remove(p)] *)
Definition remove (p : path) : M unit :=
  update (fun t =>
            match stat p t with
            | Some (File _ _) => put p None t
            | Some (Dir _) => Raise IsADirectoryError
            | None => Raise FileNotFoundError
            end).

(** The [with zipfile.ZipFile(zip_path, 'w', ZIP_DEFLATED)] block: every file
    that [os.walk(package_dir)] finds is written under its path relative to
    the parent of [package_dir]. *)
Definition zip_entries (package_dir : path) (t : tree) : list entry :=
  map (fun f => (relative_to (package_dir ++ fst f) (parent package_dir), snd f))
      (os_walk_files (stat package_dir t)).

Definition write_zip (e : env) (zip_path package_dir : path) : M unit :=
  update (fun t =>
            let archive := Archive (zip_entries package_dir t) in
            match stat zip_path t with
            | Some (File _ m) => store zip_path (File archive m) t
            | _ => store zip_path (File archive (new_file_mode e)) t
            end).

Definition stat_size (e : env) (p : path) : M nat :=
  fun t =>
    match stat p t with
    | Some (File d _) => (Ok (st_size e d), t, [])
    | Some (Dir _) => (Ok 0, t, [])
    | None => (Raise FileNotFoundError, t, [])
    end.

Definition str_of_nat (n : nat) : string := pretty (N.of_nat n).

Definition str_of_path (e : env) (p : path) : string :=
  fold_left (fun s name => s +:+ "/" +:+ name) p (project_root e).

(** *** [create_tester_package] *)

Definition launchers : list string := [ "open-guide.sh"; "open-guide.bat" ].

Definition docs : list (path * string) :=
  [ (["TESTING_GUIDES"; "QUICK_START.md"], "QUICK_START.md");
    (["TESTING_GUIDES"; "HTML_GUIDE_README.md"], "HTML_GUIDE_README.md");
    (["README.md"], "PROJECT_README.md");
    (["CHANGELOG.md"], "CHANGELOG.md") ].

Definition gitignore_content : string :=
  concat [ "# Testing package - for distribution"; nl; "*.log"; nl;
           ".DS_Store"; nl; "Thumbs.db"; nl ].

Definition package_name (e : env) : string :=
  "bitcoin-wallet-v0.12.0-testing-package-" +:+ timestamp e.

Definition zip_filename (e : env) : string := package_name e +:+ ".zip".

(** ["=" * 60] *)
Definition rule : string := String.string_of_list_ascii (repeat "="%char 60).

Definition summary (e : env) (zip_path : path) (zip_size_mb : string) : list string :=
  [ EmptyString;
    rule;
    "✅ TESTER PACKAGE CREATED SUCCESSFULLY!";
    rule;
    EmptyString;
    "📦 Package: " +:+ zip_filename e;
    "📂 Location: " +:+ str_of_path e zip_path;
    "💾 Size: " +:+ zip_size_mb +:+ " MB";
    EmptyString;
    "📋 Contents:";
    "   • Chrome Extension (dist/ → extension/)";
    "   • Interactive Testing Guide (testing-guide.html)";
    "   • Launcher Scripts (open-guide.sh, open-guide.bat)";
    "   • Documentation (README, Quick Start, etc.)";
    "   • Tester Instructions (TESTER_README.md)";
    EmptyString;
    "🚀 Distribution:";
    "   1. Send " +:+ zip_filename e +:+ " to testers";
    "   2. Testers extract and read TESTER_README.md";
    "   3. Testers install extension from extension/ folder";
    "   4. Testers open testing-guide.html and start testing";
    EmptyString;
    "💡 Pro Tip: Upload to file sharing service or email directly";
    EmptyString ].

Section Readme.

(** The literal text of the tester instructions around its three
    interpolations: the package date, the package name, the ISO date. *)
Variables (readme_title readme_tree readme_body readme_end : string).

Definition tester_readme (e : env) : string :=
  readme_title +:+ package_date e +:+ readme_tree +:+ package_name e
  +:+ readme_body +:+ package_date_iso e +:+ readme_end.

(** Step 2 of the script: the guide, if it was generated. *)
Definition copy_testing_guide (e : env) : M unit :=
  let testing_guides_dir : path := ["TESTING_GUIDES"] in
  let package_dir : path := [package_name e] in
  print "2️⃣  Copying testing guide..." ;;;
  let testing_guide_html := testing_guides_dir ++ ["testing-guide.html"] in
  present <- path_exists testing_guide_html ;;
  if present then
    copy testing_guide_html (package_dir ++ ["testing-guide.html"]) ;;;
    size <- stat_size e testing_guide_html ;;
    print ("   ✅ Copied testing-guide.html (" +:+ str_of_nat (size / 1024) +:+ " KB)")
  else
    print "   ⚠️  Warning: testing-guide.html not found - run build-html-guide.py".

(** The body of the loop of step 3. *)
Definition copy_launcher (e : env) (launcher : string) : M unit :=
  let testing_guides_dir : path := ["TESTING_GUIDES"] in
  let package_dir : path := [package_name e] in
  let src := testing_guides_dir ++ [launcher] in
  present <- path_exists src ;;
  if present then
    copy src (package_dir ++ [launcher]) ;;;
    (* Make shell script executable *)
    (if endswith launcher ".sh"
     then chmod (package_dir ++ [launcher]) 493
     else ret tt) ;;;
    print ("   ✅ Copied " +:+ launcher)
  else ret tt.

(** The body of the loop of step 4. *)
Definition copy_doc (e : env) (doc : path * string) : M unit :=
  let package_dir : path := [package_name e] in
  let '(src, dest_name) := doc in
  present <- path_exists src ;;
  if present then
    copy src (package_dir ++ [dest_name]) ;;;
    print ("   ✅ Copied " +:+ dest_name)
  else ret tt.

Definition create_tester_package (e : env) : M (option path) :=
  (* Directories *)
  let dist_dir : path := ["dist"] in
  (* Create temporary package directory *)
  let package_dir : path := [package_name e] in
  print ("📦 Creating tester package: " +:+ package_name e) ;;;
  print EmptyString ;;;
  (* Clean up if exists *)
  stale <- path_exists package_dir ;;
  (if stale then rmtree package_dir else ret tt) ;;;
  mkdir package_dir ;;;
  (* 1. Copy dist/ folder (the extension) *)
  print "1️⃣  Copying Chrome extension (dist/)..." ;;;
  built <- path_exists dist_dir ;;
  if negb built then
    print "   ❌ Error: dist/ folder not found!" ;;;
    print "   Run 'npm run build' first to build the extension" ;;;
    ret None
  else
    copytree dist_dir (package_dir ++ ["extension"]) ;;;
    copied <- inspect (fun t => rglob_count (stat (package_dir ++ ["extension"]) t)) ;;
    print ("   ✅ Copied extension (" +:+ str_of_nat copied +:+ " files)") ;;;
    (* 2. Copy testing guide HTML *)
    copy_testing_guide e ;;;
    (* 3. Copy launcher scripts *)
    print "3️⃣  Copying launcher scripts..." ;;;
    for_each (copy_launcher e) launchers ;;;
    (* 4. Copy key documentation *)
    print "4️⃣  Copying documentation..." ;;;
    for_each (copy_doc e) docs ;;;
    (* 5. Create TESTER_README.md *)
    print "5️⃣  Creating tester instructions..." ;;;
    write_text e (package_dir ++ ["TESTER_README.md"]) (tester_readme e) ;;;
    print "   ✅ Created TESTER_README.md" ;;;
    (* 6. Create .gitignore for the package *)
    write_text e (package_dir ++ [".gitignore"]) gitignore_content ;;;
    (* 7. Create zip archive *)
    print "6️⃣  Creating zip archive..." ;;;
    let zip_path : path := [zip_filename e] in
    (* Remove old zip if exists *)
    old <- path_exists zip_path ;;
    (if old then remove zip_path else ret tt) ;;;
    write_zip e zip_path package_dir ;;;
    size <- stat_size e zip_path ;;
    let zip_size_mb := format_mb e size in
    print ("   ✅ Created " +:+ zip_filename e +:+ " (" +:+ zip_size_mb +:+ " MB)") ;;;
    (* 8. Cleanup temporary directory *)
    print "7️⃣  Cleaning up..." ;;;
    rmtree package_dir ;;;
    print "   ✅ Removed temporary directory" ;;;
    for_each print (summary e zip_path zip_size_mb) ;;;
    ret (Some zip_path).

End Readme.

End Package.

(** ** Auxiliary definitions for the proofs *)

Module Aux.
Import Str.

(** Replace each character by a string. *)
Fixpoint expand (f : ascii -> string) (s : string) : string :=
  match s with
  | EmptyString => EmptyString
  | String c s' => f c +:+ expand f s'
  end.

Definition one (c : ascii) : string := String c EmptyString.

Definition escape_backslash (c : ascii) : string :=
  if Ascii.eqb c "\" then "\\" else one c.

Definition escape_backtick (c : ascii) : string :=
  if Ascii.eqb c "`" then "\`" else one c.

Definition escape_both (c : ascii) : string :=
  if Ascii.eqb c "\" then "\\" else if Ascii.eqb c "`" then "\`" else one c.

Definition starts_with_brace (s : string) : bool :=
  match s with
  | String d _ => Ascii.eqb d "{"
  | EmptyString => false
  end.

(** [escape_for_js] as one pass over the text. *)
Fixpoint escape_pass (s : string) : string :=
  match s with
  | EmptyString => EmptyString
  | String c s' =>
      if Ascii.eqb c "\" then "\\" +:+ escape_pass s'
      else if Ascii.eqb c "`" then "\`" +:+ escape_pass s'
      else if Ascii.eqb c "$" && starts_with_brace s' then "\$" +:+ escape_pass s'
      else String c (escape_pass s')
  end.

(** The value of the last definition of [k] among [props]. *)
Fixpoint last_value (props : list (string * string)) (k : string) : option string :=
  match props with
  | [] => None
  | (k', v) :: props' =>
      match last_value props' k with
      | Some v' => Some v'
      | None => if String.eqb k k' then Some v else None
      end
  end.

(** The text of the page, given the property definitions it embeds. *)
Definition page_text (page_head page_welcome page_script : string)
    (props : list (string * string)) : string :=
  (Guide.page_before_data page_head page_welcome +:+ Content.render props)
  +:+ page_script.

(** The effects of a run of [generate_html] that reads every file or finds
    it absent, and writes the page. *)
Definition run_trace (page_head page_welcome page_script : string)
    (w : Guide.world) (base_dir : string) : list Guide.effect :=
  let output_path := Guide.os_path_join base_dir "testing-guide.html" in
  map Guide.Print (omap (Content.warning w base_dir) (Guide.all_guides Guide.GUIDES))
  ++ Guide.WriteFile output_path
       (page_text page_head page_welcome page_script
                  (Content.emitted_properties w Guide.GUIDES base_dir))
  :: Guide.Print ("✅ HTML Testing Guide generated: " +:+ output_path)
  :: Guide.Print ("📂 Open in browser: file://" +:+ Guide.abspath w output_path)
  :: map Guide.Print Guide.summary.

(** The world in which the file at [p] is absent. *)
Definition as_missing (w : Guide.world) (p : string) : Guide.world :=
  {| Guide.open_read :=
       fun q => if String.eqb q p then Raise FileNotFoundError else Guide.open_read w q;
     Guide.open_write := Guide.open_write w;
     Guide.abspath := Guide.abspath w |}.

(** The path [read_file] is given for an entry. *)
Definition entry_path (base_dir : string) (cg : Guide.category * Guide.guide) : string :=
  Guide.os_path_join base_dir (Guide.file (snd cg)).

(** The identifier of an entry in the content mapping. *)
Definition entry_id (cg : Guide.category * Guide.guide) : string :=
  Guide.data_guide_id (fst cg) (snd cg).

(** *** The staging directory, from the sources *)

(** [S] with the file at [src], if there is one, under [name]. *)
Definition staged (t : gmap string Package.node) (src : Package.path) (name : string)
    (S : gmap string Package.node) : gmap string Package.node :=
  match Package.stat src t with
  | Some (Package.File d m) => <[name := Package.File d m]> S
  | _ => S
  end.

(** As [staged] for a launcher, the shell script made executable. *)
Definition staged_launcher (t : gmap string Package.node) (launcher : string)
    (S : gmap string Package.node) : gmap string Package.node :=
  match Package.stat ["TESTING_GUIDES"; launcher] t with
  | Some (Package.File d m) =>
      <[launcher := Package.File d (if endswith launcher ".sh" then 493%N else m)]> S
  | _ => S
  end.

(** The optional sources of the package. *)
Definition sources : list Package.path :=
  ["TESTING_GUIDES"; "testing-guide.html"]
  :: map (fun launcher => ["TESTING_GUIDES"; launcher]) Package.launchers
  ++ map fst Package.docs.

(** [1] if something is at [p], else [0]. *)
Definition present (t : gmap string Package.node) (p : Package.path) : nat :=
  match Package.stat p t with
  | Some _ => 1
  | None => 0
  end.

Definition no_directory (t : gmap string Package.node) (p : Package.path) : Prop :=
  match Package.stat p t with
  | Some (Package.Dir _) => False
  | _ => True
  end.

(** A name is free for a directory or a file: absent, or of that kind. *)
Definition slot_for_dir (t : gmap string Package.node) (name : string) : Prop :=
  match t !! name with
  | Some (Package.File _ _) => False
  | _ => True
  end.
Definition slot_for_file (t : gmap string Package.node) (name : string) : Prop :=
  match t !! name with
  | Some (Package.Dir _) => False
  | _ => True
  end.

(** The files that staging picks from a source, as the archive will name
    them below the package folder. *)
Definition picked (t : gmap string Package.node) (src : Package.path) (name : string)
  : list (Package.path * (Package.data * N)) :=
  match Package.stat src t with
  | Some (Package.File d m) => [([name], (d, m))]
  | _ => []
  end.

Definition picked_launcher (t : gmap string Package.node) (launcher : string)
  : list (Package.path * (Package.data * N)) :=
  match Package.stat ["TESTING_GUIDES"; launcher] t with
  | Some (Package.File d m) =>
      [([launcher], (d, if endswith launcher ".sh" then 493%N else m))]
  | _ => []
  end.

Section Staging.

Variables (readme_title readme_tree readme_body readme_end : string).

(** The contents of the staging directory when compression starts, for the
    extension directory [d]. *)
Definition staging (e : Package.env) (t : gmap string Package.node)
    (d : gmap string Package.node) : gmap string Package.node :=
  let S := <["extension" := Package.Dir d]> ∅ in
  let S := staged t ["TESTING_GUIDES"; "testing-guide.html"] "testing-guide.html" S in
  let S := fold_left (fun S launcher => staged_launcher t launcher S) Package.launchers S in
  let S := fold_left (fun S doc => staged t (fst doc) (snd doc) S) Package.docs S in
  let S :=
    <["TESTER_README.md" :=
        Package.File
          (Package.Bytes
             (Package.tester_readme readme_title readme_tree readme_body readme_end e))
          (Package.new_file_mode e)]> S in
  <[".gitignore" :=
      Package.File (Package.Bytes Package.gitignore_content) (Package.new_file_mode e)]> S.

(** The entries of the archive, named from the package folder. *)
Definition archive_entries (e : Package.env) (t d : gmap string Package.node)
  : list (Package.path * (Package.data * N)) :=
  map (fun f => (Package.package_name e :: fst f, snd f))
      (Package.walk (Package.Dir (staging e t d))).

(** The same files, listed by where they come from. *)
Definition listed_files (e : Package.env) (t d : gmap string Package.node)
  : list (Package.path * (Package.data * N)) :=
  map (fun f => ("extension" :: fst f, snd f)) (Package.walk (Package.Dir d))
  ++ picked t ["TESTING_GUIDES"; "testing-guide.html"] "testing-guide.html"
  ++ flat_map (picked_launcher t) Package.launchers
  ++ flat_map (fun doc => picked t (fst doc) (snd doc)) Package.docs
  ++ [ (["TESTER_README.md"],
        (Package.Bytes
           (Package.tester_readme readme_title readme_tree readme_body readme_end e),
         Package.new_file_mode e));
       ([".gitignore"],
        (Package.Bytes Package.gitignore_content, Package.new_file_mode e)) ].

(** The project tree after a run that succeeds. *)
Definition packaged (e : Package.env) (t d : gmap string Package.node)
  : gmap string Package.node :=
  delete (Package.package_name e)
         (<[Package.zip_filename e :=
              Package.File (Package.Archive (archive_entries e t d))
                           (Package.new_file_mode e)]> t).

(** What a run needs to succeed, for the extension directory [d]. *)
Definition ready (e : Package.env) (t d : gmap string Package.node) : Prop :=
  slot_for_dir t (Package.package_name e) /\
  t !! "dist" = Some (Package.Dir d) /\
  Forall (no_directory t) sources /\
  slot_for_file t (Package.zip_filename e).

End Staging.

End Aux.

(** ** Sample inputs *)

Module Samples.
Import Str.

(** Short stand-ins for the long literals of the page and of the tester
    instructions. *)
Definition page_head : string := "<!DOCTYPE html>".
Definition page_welcome : string := "<main id=content>".
Definition page_script : string := "</script>".
Definition readme_title : string := "# Testing Package, ".
Definition readme_tree : string := ": ".
Definition readme_body : string := "/ ... ".
Definition readme_end : string := ".".

(** Every file reads as a short document. *)
Definition all_present : Guide.world :=
  {| Guide.open_read := fun _ => Ok "# Guide";
     Guide.open_write := fun _ => Ok tt;
     Guide.abspath := fun p => "/repo/" +:+ p |}.

(** As [all_present], without [docs/README.md]. *)
Definition readme_missing : Guide.world :=
  Aux.as_missing all_present "docs/README.md".

(** As [all_present], with an empty [docs/README.md]. *)
Definition readme_empty : Guide.world :=
  {| Guide.open_read :=
       fun q => if String.eqb q "docs/README.md" then Ok EmptyString else Ok "# Guide";
     Guide.open_write := fun _ => Ok tt;
     Guide.abspath := fun p => "/repo/" +:+ p |}.

(** Another machine: the same documents, elsewhere, beside an unreadable file. *)
Definition elsewhere : Guide.world :=
  {| Guide.open_read :=
       fun q => if String.eqb q "notes.txt" then Raise PermissionError else Ok "# Guide";
     Guide.open_write := fun _ => Ok tt;
     Guide.abspath := fun p => "/home/tester/" +:+ p |}.

Definition readme : Guide.guide :=
  {| Guide.file := "README.md"; Guide.title := "Overview"; Guide.icon := "📋" |}.

Definition tab_architecture : Guide.guide :=
  {| Guide.file := "FEATURE_TESTS/01_TAB_ARCHITECTURE.md";
     Guide.title := "01. Tab Architecture"; Guide.icon := "🪟" |}.

(** A registry with two paths of one identifier, [a-b]. *)
Definition nested : Guide.guide :=
  {| Guide.file := "a/b.md"; Guide.title := "Nested"; Guide.icon := "1" |}.
Definition flat : Guide.guide :=
  {| Guide.file := "a-b.md"; Guide.title := "Flat"; Guide.icon := "2" |}.
Definition colliding : Guide.registry :=
  {| Guide.core := [nested; flat]; Guide.feature_tests := []; Guide.workflows := [] |}.

Definition two_texts : Guide.world :=
  {| Guide.open_read :=
       fun q => if String.eqb q "a/b.md" then Ok "first" else Ok "second";
     Guide.open_write := fun _ => Ok tt;
     Guide.abspath := fun p => p |}.

(** A run of the assembler on the first of January 2025. *)
Definition new_year : Package.env :=
  {| Package.timestamp := "20250101";
     Package.package_date := "January 01, 2025";
     Package.package_date_iso := "2025-01-01";
     Package.project_root := "/repo";
     Package.new_file_mode := 420;
     Package.st_size :=
       fun d => match d with
                | Package.Bytes text => String.length text
                | Package.Archive entries => 22 + 100 * List.length entries
                end;
     Package.format_mb := fun _ => "0.00" |}.

Definition text_file (text : string) : Package.node :=
  Package.File (Package.Bytes text) 420.

Definition guides_dir : Package.node :=
  Package.Dir
    (<["testing-guide.html" := text_file "<html></html>"]>
       (<["open-guide.sh" := text_file "xdg-open testing-guide.html"]>
          (<["QUICK_START.md" := text_file "# Quick start"]> ∅))).

(** A project that was never built, with the leftovers of an earlier run of
    the same day: a staging directory and an archive. *)
Definition unbuilt : gmap string Package.node :=
  <["TESTING_GUIDES" := guides_dir]>
    (<["bitcoin-wallet-v0.12.0-testing-package-20250101" :=
         Package.Dir (<["stale.txt" := text_file "old"]> ∅)]>
       (<["bitcoin-wallet-v0.12.0-testing-package-20250101.zip" :=
            Package.File (Package.Archive []) 420]> ∅)).

(** A project that was never built and never packaged. *)
Definition unbuilt_clean : gmap string Package.node :=
  <["TESTING_GUIDES" := guides_dir]> ∅.

Definition dist_dir : Package.node :=
  Package.Dir
    (<["manifest.json" := text_file "{}"]>
       (<["background.js" := text_file "void 0;"]>
          (<["icons" := Package.Dir (<["icon.png" := text_file "PNG"]> ∅)]> ∅))).

(** A built project with the guide, one launcher and two of the documents. *)
Definition built : gmap string Package.node :=
  <["dist" := dist_dir]>
    (<["TESTING_GUIDES" := guides_dir]>
       (<["README.md" := text_file "# Bitcoin Wallet"]> ∅)).

(** As [built], with the leftovers of an earlier run of the same day. *)
Definition built_again : gmap string Package.node :=
  <["bitcoin-wallet-v0.12.0-testing-package-20250101" :=
      Package.Dir (<["stale.txt" := text_file "old"]> ∅)]>
    (<["bitcoin-wallet-v0.12.0-testing-package-20250101.zip" :=
         Package.File (Package.Archive []) 420]> built).

End Samples.

(** ** The page's client script, [build-html-guide.py] lines 610-752

    The functions of the script that work on strings and on [localStorage]:
    the storage key of a checkbox, the saving and restoring of its state, and
    the conversion of the target of a Markdown link into a section
    identifier. *)

Module Client.
Import Str.

(** [s.substring(n)] *)
Fixpoint substring_from (n : nat) (s : string) : string :=
  match n, s with
  | O, _ => s
  | S n', String _ s' => substring_from n' s'
  | S _, EmptyString => EmptyString
  end.

(** [s.replace(old, new)] with a string as pattern: only the first
    occurrence is replaced.  (None of the replacement strings of the script
    contains a dollar sign, so none has a replacement pattern.) *)
Fixpoint replace_first (old new s : string) : string :=
  if String.prefix old s then new +:+ substring_from (String.length old) s
  else
    match s with
    | EmptyString => EmptyString
    | String c s' => String c (replace_first old new s')
    end.

(** The identifier a click on a link to a Markdown file looks for;
    [toLowerCase] as [str.lower] above. *)
Definition link_target (href : string) : string :=
  let targetId :=
    lower (replace_first "/" "-" (replace_first "./" ""
             (replace_first "../" "" (replace_first ".md" "" href)))) in
  let targetId := replace_first "feature_tests" "feature" targetId in
  targetId.

(** What [renderMarkdown] attaches to a link of the rendered text. *)
Inductive link : Type :=
  | Fragment (targetId : string)  (** a click looks for an element of the page *)
  | Document (targetId : string)  (** a click looks for the section of a guide *)
  | Plain.                        (** no handler: the browser follows the link *)

(** [href] is [None] when the link has no such attribute; the empty string is
    falsy. *)
Definition link_handler (href : option string) : link :=
  match href with
  | None => Plain
  | Some href =>
      if negb (String.eqb href EmptyString) && startswith href "#"
      then Fragment (substring_from 1 href)
      else if negb (String.eqb href EmptyString) && endswith href ".md"
      then Document (link_target href)
      else Plain
  end.

(** [`${sectionId}-checkbox-${index}`] *)
Definition checkbox_id (sectionId : string) (index : nat) : string :=
  sectionId +:+ "-checkbox-" +:+ pretty (N.of_nat index).

(** [localStorage] *)
Abbreviation storage := (gmap string string).

(** [String(checkbox.checked)], as [setItem] stores it. *)
Definition string_of_bool (b : bool) : string := if b then "true" else "false".

(** The [change] listener of the checkbox [index] of a section. *)
Definition save (st : storage) (sectionId : string) (index : nat) (checked : bool)
  : storage :=
  let checkboxId := checkbox_id sectionId index in
  <[checkboxId := string_of_bool checked]> st.

(** Loading the saved state when the section is rendered: the state of the
    checkbox afterwards, [checked] being its state in the rendered text. *)
Definition restore (st : storage) (sectionId : string) (index : nat) (checked : bool)
  : bool :=
  let checkboxId := checkbox_id sectionId index in
  let saved := st !! checkboxId in
  if decide (saved = Some "true") then true else checked.

(** The targets of the four links of the quick-start list of the welcome
    section (lines 565-568): what the [hashchange] listener hands to
    [showSection] after a click, the fragment without its [#]. *)
Definition quick_start_links : list string :=
  [ "readme"; "master-testing-guide"; "testnet-setup-guide";
    "priority-test-execution-guide" ].

(** The identifiers of the elements of the page as it is written, before any
    guide is rendered: the side bar, the search box, the main element, the
    welcome section, and one section for each entry of the registry. *)
Definition element_ids (guides : Guide.registry) : list string :=
  [ "sidebar"; "search-input"; "content"; "welcome" ]
  ++ map (fun '(c, g) => Guide.section_guide_id c g) (Guide.all_guides guides).

End Client.

(** ** The entry point of [create-tester-package.py], lines 421-428 *)

Module Command.
Import Str Package.

Section Main.

Variables (readme_title readme_tree readme_body readme_end : string).

(** [str(e)] of a caught exception. *)
Variable describe : exn -> string.

(** What the script does when run: the final tree and the lines on the
    standard output.  ([traceback.print_exc] writes to the standard error.) *)
Definition main (e : env) (t : tree) : tree * list string :=
  match create_tester_package readme_title readme_tree readme_body readme_end e t with
  | (Ok zip_path, t', out) =>
      match zip_path with
      | Some _ => (t', out ++ [ "✨ Success! Package ready for distribution." ])
      | None => (t', out)
      end
  | (Raise x, t', out) =>
      (t', out ++ [ "❌ Error creating package: " +:+ describe x ])
  end.

End Main.

End Command.

(** ** Further auxiliary definitions for the proofs *)

Module Chars.
Import Str.

(** Some character of the text satisfies [p]. *)
Fixpoint any_char (p : ascii -> bool) (s : string) : bool :=
  match s with
  | EmptyString => false
  | String c s' => p c || any_char p s'
  end.

Definition is_upper (c : ascii) : bool :=
  let n := nat_of_ascii c in (65 <=? n) && (n <=? 90).

Definition is_slash (c : ascii) : bool := Ascii.eqb c "/".

(** The text is ASCII: each of its bytes is a code point of its own, and
    [str.lower] is the mapping of the letters A..Z that [Str.lower] is. *)
Definition is_ascii (c : ascii) : bool := nat_of_ascii c <? 128.

Definition ascii_only (s : string) : bool :=
  negb (any_char (fun c => negb (is_ascii c)) s).

Definition is_dash (c : ascii) : bool := Ascii.eqb c "-".

(** Undo [escape_for_js]: drop a backslash and keep what follows it. *)
Fixpoint unescape (s : string) : string :=
  match s with
  | EmptyString => EmptyString
  | String c s1 =>
      if Ascii.eqb c "\" then
        match s1 with
        | String d s2 => String d (unescape s2)
        | EmptyString => String c EmptyString
        end
      else String c (unescape s1)
  end.

(** The text with every line ending (CR LF, CR, LF) as one line feed. *)
Fixpoint normalize_newlines (s : string) : string :=
  match s with
  | EmptyString => EmptyString
  | String c s1 =>
      if Ascii.eqb c Js.CR then
        match s1 with
        | String d s2 =>
            if Ascii.eqb d Js.LF then String Js.LF (normalize_newlines s2)
            else String Js.LF (normalize_newlines s1)
        | EmptyString => String Js.LF EmptyString
        end
      else String c (normalize_newlines s1)
  end.

(** What follows the last [c] of the text (the whole text when it has none). *)
Fixpoint after_last (c : ascii) (s : string) : string :=
  match s with
  | EmptyString => EmptyString
  | String x s' =>
      if contains_char c s' then after_last c s'
      else if Ascii.eqb c x then s' else String x s'
  end.

End Chars.

Module Reads.
Import Str Guide.

(** The exception that stops the loop of [generate_markdown_data] over [l]:
    that of the first read failing otherwise than by the file being absent. *)
Fixpoint first_failure (w : world) (base_dir : string) (l : list (category * guide))
  : option exn :=
  match l with
  | [] => None
  | cg :: l' =>
      match open_read w (os_path_join base_dir (file (snd cg))) with
      | Ok _ => first_failure w base_dir l'
      | Raise x =>
          if decide (x = FileNotFoundError) then first_failure w base_dir l'
          else Some x
      end
  end.

(** The entries before that read. *)
Fixpoint read_prefix (w : world) (base_dir : string) (l : list (category * guide))
  : list (category * guide) :=
  match l with
  | [] => []
  | cg :: l' =>
      match open_read w (os_path_join base_dir (file (snd cg))) with
      | Ok _ => cg :: read_prefix w base_dir l'
      | Raise x =>
          if decide (x = FileNotFoundError) then cg :: read_prefix w base_dir l'
          else []
      end
  end.

End Reads.

(** ** Further sample inputs *)

Module MoreSamples.

(** [docs/README.md] is absent and [docs/TESTNET_SETUP_GUIDE.md] may not be
    read. *)
Definition unreadable : Guide.world :=
  {| Guide.open_read :=
       fun q => if String.eqb q "docs/README.md" then Raise FileNotFoundError
                else if String.eqb q "docs/TESTNET_SETUP_GUIDE.md" then Raise PermissionError
                else Ok "# Guide";
     Guide.open_write := fun _ => Ok tt;
     Guide.abspath := fun p => "/repo/" +:+ p |}.

(** Every file reads as a short document, but none may be written. *)
Definition read_only : Guide.world :=
  {| Guide.open_read := fun _ => Ok "# Guide";
     Guide.open_write := fun _ => Raise PermissionError;
     Guide.abspath := fun p => "/repo/" +:+ p |}.

(** For the registry [Samples.colliding]: the file of the first entry reads
    as a text, the file of the second, processed last, reads as empty. *)
Definition last_empty : Guide.world :=
  {| Guide.open_read :=
       fun q => if String.eqb q "a/b.md" then Ok "first" else Ok EmptyString;
     Guide.open_write := fun _ => Ok tt;
     Guide.abspath := fun p => p |}.

(** No file at all. *)
Definition nothing_there : Guide.world :=
  {| Guide.open_read := fun _ => Raise FileNotFoundError;
     Guide.open_write := fun _ => Ok tt;
     Guide.abspath := fun p => p |}.

(** [str(e)] of the exceptions, as the interpreter words them. *)
Definition describe (x : exn) : string :=
  match x with
  | FileNotFoundError => "[Errno 2] No such file or directory"
  | FileExistsError => "[Errno 17] File exists"
  | IsADirectoryError => "[Errno 21] Is a directory"
  | NotADirectoryError => "[Errno 20] Not a directory"
  | PermissionError => "[Errno 13] Permission denied"
  | UnicodeDecodeError => "'utf-8' codec can't decode byte"
  | OSError => "[Errno 5] Input/output error"
  end.

End MoreSamples.

Module MoreProjects.

(** As [Samples.built], with a directory where [README.md] is looked for. *)
Definition readme_is_directory : gmap string Package.node :=
  <["README.md" := Package.Dir ∅]> Samples.built.

(** As [Samples.built], with both launchers beside the guide. *)
Definition with_launchers : gmap string Package.node :=
  <["TESTING_GUIDES" :=
      Package.Dir
        (<["testing-guide.html" := Samples.text_file "<html></html>"]>
           (<["open-guide.sh" := Samples.text_file "xdg-open testing-guide.html"]>
              (<["open-guide.bat" := Samples.text_file "start testing-guide.html"]> ∅)))]>
    Samples.built.

End MoreProjects.

(** * Proofs *)

(** ** Sanity checks of the string primitives *)

Example replace_md : Str.replace ".md" "" "a.md.md/b.mdx" = "a/bx".
Proof. reflexivity. Qed.
Example replace_overlap : Str.replace "aa" "b" "aaaaa" = "bba".
Proof. reflexivity. Qed.
Example replace_empty : Str.replace "" "-" "abc" = "-a-b-c-".
Proof. reflexivity. Qed.
Example lower_ex : Str.lower "FEATURE_TESTS/01_Tab.md" = "feature_tests/01_tab.md".
Proof. reflexivity. Qed.
Example emoji_len : String.length "₿" = 3.
Proof. reflexivity. Qed.

(** ** Strings *)

Section StringFacts.
Import Str.

Lemma str_app_cons c s t : String c s +:+ t = String c (s +:+ t).
Proof. reflexivity. Qed.

Lemma str_app_nil_l s : EmptyString +:+ s = s.
Proof. reflexivity. Qed.

Lemma str_app_nil_r s : s +:+ EmptyString = s.
Proof. induction s as [|c s IH]; [reflexivity|]. rewrite str_app_cons, IH. reflexivity. Qed.

Lemma str_app_assoc s t u : (s +:+ t) +:+ u = s +:+ t +:+ u.
Proof.
  induction s as [|c s IH]; [reflexivity|].
  rewrite !str_app_cons, IH. reflexivity.
Qed.

Lemma str_concat_app l1 l2 : concat (l1 ++ l2) = concat l1 +:+ concat l2.
Proof.
  induction l1 as [|x l1 IH]; [reflexivity|].
  cbn [concat app]. rewrite IH, str_app_assoc. reflexivity.
Qed.

Lemma fold_left_append {A} (f : A -> string) l acc :
  fold_left (fun acc x => acc +:+ f x) l acc = acc +:+ concat (map f l).
Proof.
  revert acc. induction l as [|x l IH]; intros acc; cbn [fold_left map concat].
  - rewrite str_app_nil_r. reflexivity.
  - rewrite IH, str_app_assoc. reflexivity.
Qed.

Lemma infix_refl s : infix s s.
Proof. exists EmptyString, EmptyString. rewrite str_app_nil_r. reflexivity. Qed.

Lemma infix_app_l t s u : infix t s -> infix t (s +:+ u).
Proof.
  intros (pre & post & ->). exists pre, (post +:+ u).
  rewrite !str_app_assoc. reflexivity.
Qed.

Lemma infix_app_r t s u : infix t s -> infix t (u +:+ s).
Proof.
  intros (pre & post & ->). exists (u +:+ pre), post.
  rewrite !str_app_assoc. reflexivity.
Qed.

Lemma infix_concat_map {A} (f : A -> string) (x : A) (l : list A) :
  x ∈ l -> infix (f x) (concat (map f l)).
Proof.
  induction 1 as [x l|x y l _ IH]; cbn [map concat].
  - apply infix_app_l, infix_refl.
  - apply infix_app_r, IH.
Qed.

End StringFacts.

Section ReplaceFacts.
Import Str Aux.

Lemma replace_from_cons old new c s :
  replace_from old new 0 (String c s) =
  if String.prefix old (String c s)
  then new +:+ replace_from old new (String.length old - 1) s
  else String c (replace_from old new 0 s).
Proof. reflexivity. Qed.

Lemma prefix_nil s : String.prefix EmptyString s = true.
Proof. destruct s; reflexivity. Qed.

Lemma prefix_one c x s :
  String.prefix (one c) (String x s) = Ascii.eqb x c.
Proof.
  unfold one. cbn [String.prefix].
  destruct (Ascii.ascii_dec c x) as [->|Hne].
  - rewrite Ascii.eqb_refl. apply prefix_nil.
  - symmetry. apply Ascii.eqb_neq. congruence.
Qed.

(** Replacing a single character is a character-wise expansion. *)
Lemma replace_char c new s :
  replace (one c) new s = expand (fun x => if Ascii.eqb x c then new else one x) s.
Proof.
  unfold replace, one. fold (one c).
  induction s as [|x s IH]; [reflexivity|].
  rewrite replace_from_cons, prefix_one. cbn [expand].
  change (String.length (one c) - 1) with 0.
  rewrite IH. destruct (Ascii.eqb x c); reflexivity.
Qed.

Lemma expand_app f s t : expand f (s +:+ t) = expand f s +:+ expand f t.
Proof.
  induction s as [|c s IH]; [reflexivity|].
  rewrite str_app_cons. cbn [expand]. rewrite IH, str_app_assoc. reflexivity.
Qed.

Lemma expand_expand f g s : expand g (expand f s) = expand (fun c => expand g (f c)) s.
Proof.
  induction s as [|c s IH]; [reflexivity|].
  cbn [expand]. rewrite expand_app, IH. reflexivity.
Qed.

Lemma expand_ext f g s : (forall c, f c = g c) -> expand f s = expand g s.
Proof. intros E. induction s as [|c s IH]; [reflexivity|]. cbn [expand]. rewrite E, IH. reflexivity. Qed.

Lemma expand_one f c : expand f (one c) = f c.
Proof. unfold one. cbn [expand]. apply str_app_nil_r. Qed.

Lemma escape_two_steps s :
  replace "`" "\`" (replace "\" "\\" s) = expand escape_both s.
Proof.
  change "`" with (one "`"). change "\" with (one "\").
  rewrite !replace_char, expand_expand.
  apply expand_ext. intros c. unfold escape_both.
  destruct (Ascii.eqb_spec c "\") as [->|H1]; [reflexivity|].
  rewrite expand_one. reflexivity.
Qed.

(** The first character of an expansion by [escape_both] is a brace only
    when the text starts with one. *)
Lemma starts_with_brace_expand s :
  starts_with_brace (expand escape_both s) = starts_with_brace s.
Proof.
  destruct s as [|c s]; [reflexivity|].
  cbn [expand]. unfold escape_both.
  destruct (Ascii.eqb_spec c "\") as [->|H1]; [reflexivity|].
  destruct (Ascii.eqb_spec c "`") as [->|H2]; reflexivity.
Qed.

Lemma prefix_cons a s1 b s2 :
  String.prefix (String a s1) (String b s2) = Ascii.eqb b a && String.prefix s1 s2.
Proof.
  cbn [String.prefix]. destruct (Ascii.ascii_dec a b) as [->|Hne].
  - rewrite Ascii.eqb_refl. reflexivity.
  - replace (Ascii.eqb b a) with false; [reflexivity|].
    symmetry. apply Ascii.eqb_neq. congruence.
Qed.

Lemma prefix_dollar_brace c s :
  String.prefix "${" (String c s) = Ascii.eqb c "$" && starts_with_brace s.
Proof.
  rewrite prefix_cons. f_equal.
  destruct s as [|d s]; [reflexivity|].
  rewrite prefix_cons, prefix_nil, andb_true_r. reflexivity.
Qed.

Lemma escape_third_step s :
  replace_from "${" "\${" 0 (expand escape_both s) = escape_pass s.
Proof.
  induction s as [|c s IH]; [reflexivity|].
  cbn [expand escape_pass]. unfold escape_both at 1.
  destruct (Ascii.eqb_spec c "\") as [->|H1].
  { rewrite !str_app_cons, str_app_nil_l. rewrite !replace_from_cons. cbn [String.prefix].
    cbn. rewrite IH. reflexivity. }
  destruct (Ascii.eqb_spec c "`") as [->|H2].
  { rewrite !str_app_cons, str_app_nil_l. rewrite !replace_from_cons. cbn [String.prefix].
    cbn. rewrite IH. reflexivity. }
  unfold one. rewrite str_app_cons, str_app_nil_l, replace_from_cons, prefix_dollar_brace.
  rewrite starts_with_brace_expand.
  destruct (Ascii.eqb_spec c "$") as [->|H3]; cbn [andb]; [|rewrite IH; reflexivity].
  destruct s as [|d s]; cbn [starts_with_brace]; [reflexivity|].
  destruct (Ascii.eqb_spec d "{") as [->|H4]; [|rewrite IH; reflexivity].
  (* the match: jump over the brace, which the text keeps *)
  assert (E1 : expand escape_both (String "{" s) = String "{" (expand escape_both s))
    by reflexivity.
  assert (E2 : escape_pass (String "{" s) = String "{" (escape_pass s))
    by reflexivity.
  rewrite E1, E2 in IH. rewrite E1, E2.
  rewrite replace_from_cons in IH.
  change (String.prefix "${" (String "{" (expand escape_both s))) with false in IH.
  injection IH as IH.
  change (String.length "${" - 1) with 1. cbn [replace_from].
  rewrite IH. reflexivity.
Qed.

Lemma escape_for_js_pass s : Guide.escape_for_js (Some s) = escape_pass s.
Proof.
  unfold Guide.escape_for_js. rewrite escape_two_steps.
  unfold replace. apply escape_third_step.
Qed.

End ReplaceFacts.

Section TemplateFacts.
Import Str Aux.

Lemma template_value_plain c s :
  c <> "`"%char -> c <> "$"%char -> c <> "\"%char -> c <> Js.CR ->
  Js.template_value (String c s) = Js.push c (Js.template_value s).
Proof.
  intros H1 H2 H3 H4. cbn [Js.template_value].
  apply Ascii.eqb_neq in H1, H2, H3, H4. rewrite H1, H2, H3, H4. reflexivity.
Qed.

Lemma template_value_dollar s :
  starts_with_brace s = false ->
  Js.template_value (String "$" s) = Js.push "$" (Js.template_value s).
Proof.
  intros H. cbn [Js.template_value]. cbn [Ascii.eqb Bool.eqb].
  destruct s as [|d s]; [reflexivity|].
  cbn [starts_with_brace] in H. rewrite H. reflexivity.
Qed.

(** The three escapes that [escape_for_js] writes. *)
Lemma template_value_escaped c s :
  c = "\"%char \/ c = "`"%char \/ c = "$"%char ->
  Js.template_value (String "\" (String c s)) = Js.push c (Js.template_value s).
Proof. intros [-> | [-> | ->]]; reflexivity. Qed.

Lemma starts_with_brace_escape_pass s rest :
  starts_with_brace (escape_pass s +:+ String "`" rest) = starts_with_brace s.
Proof.
  destruct s as [|c s]; [reflexivity|].
  cbn [escape_pass].
  destruct (Ascii.eqb_spec c "\") as [->|H1]; [reflexivity|].
  destruct (Ascii.eqb_spec c "`") as [->|H2]; [reflexivity|].
  destruct (Ascii.eqb_spec c "$") as [->|H3]; [|reflexivity].
  cbn [andb]. destruct (starts_with_brace s); reflexivity.
Qed.

(** Read back as a template literal, the escaped text closes at the backtick
    put after it and has the original text as its value. *)
Lemma template_value_escape_pass s rest :
  contains_char Js.CR s = false ->
  Js.template_value (escape_pass s +:+ String "`" rest) = Js.Closed s rest.
Proof.
  induction s as [|c s IH]; intros Hcr; [reflexivity|].
  cbn [contains_char] in Hcr. apply orb_false_iff in Hcr as [Hc Hcr].
  specialize (IH Hcr). cbn [escape_pass].
  destruct (Ascii.eqb_spec c "\") as [->|H1].
  { rewrite !str_app_cons, ?str_app_nil_l, (template_value_escaped "\"). 2: tauto. rewrite IH; reflexivity. }
  destruct (Ascii.eqb_spec c "`") as [->|H2].
  { rewrite !str_app_cons, ?str_app_nil_l, (template_value_escaped "`"), IH; [reflexivity|tauto]. }
  destruct (Ascii.eqb_spec c "$") as [->|H3]; cbn [andb].
  - destruct (starts_with_brace s) eqn:Hb.
    + rewrite !str_app_cons, ?str_app_nil_l, (template_value_escaped "$"), IH; [reflexivity|tauto].
    + rewrite str_app_cons, template_value_dollar, IH; [reflexivity|].
      rewrite starts_with_brace_escape_pass. exact Hb.
  - rewrite str_app_cons, template_value_plain, IH; try assumption; [reflexivity|].
    intros ->. rewrite Ascii.eqb_refl in Hc. discriminate.
Qed.

End TemplateFacts.

Section DataFacts.
Import Str Guide Content.

Variables (w : world) (base_dir : string).

(** The body of the loop of [generate_markdown_data]. *)
Let body : string -> category * guide -> M string :=
  fun markdown_data '(c, g) =>
    let guide_id := data_guide_id c g in
    let file_path := os_path_join base_dir (file g) in
    bind (read_file w file_path)
         (fun content =>
            if truthy content
            then
              let escaped_content := escape_for_js content in
              ret (markdown_data +:+ data_line guide_id escaped_content)
            else ret markdown_data).

Lemma body_unfold acc c g :
  body acc (c, g) =
  bind (read_file w (os_path_join base_dir (file g)))
       (fun content =>
          if truthy content
          then ret (acc +:+ data_line (data_guide_id c g) (escape_for_js content))
          else ret acc).
Proof. reflexivity. Qed.

Lemma data_loop_settles l acc :
  reads_settle w base_dir l ->
  for_each body l acc =
  (Ok (acc +:+ concat (map (fun p => data_line (fst p) (snd p)) (omap (embedded w base_dir) l))),
   map Print (omap (warning w base_dir) l)).
Proof.
  revert acc. induction l as [|[c g] l IH]; intros acc Hs.
  - cbn. rewrite str_app_nil_r. reflexivity.
  - apply Forall_cons in Hs as [Hx Hs]. cbn [snd] in Hx.
    cbn [for_each omap list_omap]. rewrite body_unfold.
    unfold embedded at 1, warning at 1, read_file. cbn [fst snd].
    destruct (open_read w (os_path_join base_dir (file g))) as [text|e].
    + cbn [bind ret]. destruct (truthy (Some text)) eqn:Ht.
      * cbn [bind ret]. rewrite (IH _ Hs). cbn [map concat fst snd app].
        rewrite !str_app_assoc. reflexivity.
      * cbn [bind ret]. rewrite (IH _ Hs). reflexivity.
    + destruct e; try contradiction.
      cbn [bind ret print truthy]. rewrite (IH _ Hs). reflexivity.
Qed.

Lemma data_loop_raises l acc :
  ~ reads_settle w base_dir l ->
  exists e lines, for_each body l acc = (Raise e, map Print lines)
                  /\ e <> FileNotFoundError.
Proof.
  revert acc. induction l as [|[c g] l IH]; intros acc Hs.
  - exfalso. apply Hs. constructor.
  - cbn [for_each]. rewrite body_unfold. unfold read_file.
    destruct (open_read w (os_path_join base_dir (file g))) as [text|e] eqn:Hr.
    + destruct (IH (if truthy (Some text)
                    then acc +:+ data_line (data_guide_id c g) (escape_for_js (Some text))
                    else acc)) as (e & t & Hl & He).
      { intros Hl. apply Hs. constructor; [cbn [snd]; rewrite Hr; exact I | exact Hl]. }
      exists e, t. split; [|exact He].
      cbn [bind ret]. destruct (truthy (Some text)); cbn [bind ret]; rewrite Hl; reflexivity.
    + destruct (decide (e = FileNotFoundError)) as [->|Hne].
      * destruct (IH acc) as (e & t & Hl & He).
        { intros Hl. apply Hs. constructor; [cbn [snd]; rewrite Hr; exact I | exact Hl]. }
        exists e, (("Warning: File not found: " +:+ os_path_join base_dir (file g)) :: t).
        split; [|exact He].
        cbn [bind ret print truthy]. rewrite Hl. reflexivity.
      * exists e, []. split; [|exact Hne]. destruct e; try congruence; reflexivity.
Qed.

Lemma generate_markdown_data_settles guides :
  reads_settle w base_dir (all_guides guides) ->
  generate_markdown_data w guides base_dir =
  (Ok (render (emitted_properties w guides base_dir)),
   map Print (omap (warning w base_dir) (all_guides guides))).
Proof.
  intros Hs. unfold generate_markdown_data.
  change (for_each _ (all_guides guides) data_header)
    with (for_each body (all_guides guides) data_header).
  rewrite (data_loop_settles _ _ Hs). cbn [bind ret].
  rewrite List.app_nil_r. unfold render, emitted_properties. rewrite str_app_assoc. reflexivity.
Qed.

Lemma generate_markdown_data_raises guides :
  ~ reads_settle w base_dir (all_guides guides) ->
  exists e lines, generate_markdown_data w guides base_dir = (Raise e, map Print lines)
                  /\ e <> FileNotFoundError.
Proof.
  intros Hs. unfold generate_markdown_data.
  change (for_each _ (all_guides guides) data_header)
    with (for_each body (all_guides guides) data_header).
  destruct (data_loop_raises _ data_header Hs) as (e & t & -> & He).
  exists e, t. split; [reflexivity | exact He].
Qed.

End DataFacts.

(** ** Objects *)

Section ObjectFacts.
Import Js Aux.

Lemma get_define_property_eq k v o : get (define_property k v o) k = Some v.
Proof.
  induction o as [|[k' v'] o IH]; cbn [define_property get].
  - rewrite String.eqb_refl. reflexivity.
  - destruct (String.eqb_spec k k') as [->|Hne]; cbn [get].
    + rewrite String.eqb_refl. reflexivity.
    + destruct (String.eqb_spec k k'); [contradiction | exact IH].
Qed.

Lemma get_define_property_ne k v o k' :
  k <> k' -> get (define_property k v o) k' = get o k'.
Proof.
  intros Hne. induction o as [|[k0 v0] o IH]; cbn [define_property get].
  - destruct (String.eqb_spec k' k); [congruence | reflexivity].
  - destruct (String.eqb_spec k k0) as [->|Hk]; cbn [get].
    + destruct (String.eqb_spec k' k0); [congruence | reflexivity].
    + rewrite IH. reflexivity.
Qed.

Lemma keys_define_property k v o k' :
  k' ∈ map fst (define_property k v o) <-> k' = k \/ k' ∈ map fst o.
Proof.
  induction o as [|[k0 v0] o IH]; cbn [define_property map fst].
  - rewrite list_elem_of_singleton, elem_of_nil. tauto.
  - destruct (String.eqb_spec k k0) as [->|Hk]; cbn [map fst].
    + rewrite !elem_of_cons. tauto.
    + rewrite !elem_of_cons, IH. tauto.
Qed.

Lemma NoDup_define_property k v o :
  NoDup (map fst o) -> NoDup (map fst (define_property k v o)).
Proof.
  induction o as [|[k0 v0] o IH]; cbn [define_property map fst]; intros Hnd.
  - apply NoDup_singleton.
  - apply NoDup_cons in Hnd as [Hin Hnd].
    destruct (String.eqb_spec k k0) as [->|Hk]; cbn [map fst].
    + apply NoDup_cons. split; assumption.
    + apply NoDup_cons. split; [|apply IH, Hnd].
      rewrite keys_define_property. intros [->|H]; [congruence | contradiction].
Qed.

Lemma get_fold_define props o k :
  get (fold_left (fun o '(k, v) => define_property k v o) props o) k =
  match last_value props k with
  | Some v => Some v
  | None => get o k
  end.
Proof.
  revert o. induction props as [|[k' v'] props IH]; intros o; [reflexivity|].
  cbn [fold_left last_value]. rewrite IH.
  destruct (last_value props k) as [v|]; [reflexivity|].
  destruct (String.eqb_spec k k') as [->|Hne].
  - apply get_define_property_eq.
  - apply get_define_property_ne. congruence.
Qed.

Lemma NoDup_fold_define props o :
  NoDup (map fst o) ->
  NoDup (map fst (fold_left (fun o '(k, v) => define_property k v o) props o)).
Proof.
  revert o. induction props as [|[k v] props IH]; intros o Hnd; [exact Hnd|].
  cbn [fold_left]. apply IH, NoDup_define_property, Hnd.
Qed.

Lemma get_object_literal props k :
  get (object_literal props) k = last_value props k.
Proof.
  unfold object_literal. rewrite get_fold_define.
  destruct (last_value props k); reflexivity.
Qed.

Lemma NoDup_object_literal props : NoDup (map fst (object_literal props)).
Proof. apply NoDup_fold_define. constructor. Qed.

Lemma get_None_count o k : k ∉ map fst o -> get o k = None /\ count o k = 0.
Proof.
  unfold count. induction o as [|[k' v'] o IH]; intros Hk; [split; reflexivity|].
  cbn [map fst] in Hk. apply not_elem_of_cons in Hk as [Hne Hk].
  cbn [get List.filter fst].
  destruct (String.eqb_spec k k'); [contradiction | apply IH, Hk].
Qed.

(** With every key once, a key is counted once exactly when it is bound. *)
Lemma count_get o k :
  NoDup (map fst o) ->
  count o k = match get o k with Some _ => 1 | None => 0 end.
Proof.
  unfold count. induction o as [|[k' v'] o IH]; intros Hnd; [reflexivity|].
  cbn [map fst] in Hnd. apply NoDup_cons in Hnd as [Hk Hnd].
  cbn [get List.filter fst].
  destruct (String.eqb_spec k k') as [->|Hne]; [|apply IH, Hnd].
  cbn [List.length]. destruct (get_None_count o k' Hk) as [_ E].
  unfold count in E. rewrite E. reflexivity.
Qed.

Lemma last_value_app props1 props2 k :
  last_value (props1 ++ props2) k =
  match last_value props2 k with
  | Some v => Some v
  | None => last_value props1 k
  end.
Proof.
  induction props1 as [|[k' v'] props1 IH]; cbn [app last_value].
  - destruct (last_value props2 k); reflexivity.
  - rewrite IH. destruct (last_value props2 k); reflexivity.
Qed.

Lemma last_value_None props k :
  k ∉ map fst props -> last_value props k = None.
Proof.
  induction props as [|[k' v'] props IH]; intros Hk; [reflexivity|].
  cbn [map fst] in Hk. apply not_elem_of_cons in Hk as [Hne Hk].
  cbn [last_value]. rewrite (IH Hk).
  destruct (String.eqb_spec k k'); [contradiction | reflexivity].
Qed.

Lemma last_value_elem props k v :
  last_value props k = Some v -> (k, v) ∈ props.
Proof.
  induction props as [|[k' v'] props IH]; cbn [last_value]; [discriminate|].
  destruct (last_value props k) as [v0|].
  - intros [= <-]. apply elem_of_cons. right. apply IH. reflexivity.
  - destruct (String.eqb_spec k k') as [->|Hne]; [|discriminate].
    intros [= <-]. apply elem_of_cons. left. reflexivity.
Qed.

Lemma last_value_NoDup props k v :
  NoDup (map fst props) -> (k, v) ∈ props -> last_value props k = Some v.
Proof.
  induction props as [|[k' v'] props IH]; intros Hnd Hin.
  - apply elem_of_nil in Hin. contradiction.
  - cbn [map fst] in Hnd. apply NoDup_cons in Hnd as [Hk Hnd].
    cbn [last_value]. apply elem_of_cons in Hin as [[= -> ->]|Hin].
    + rewrite (last_value_None _ _ Hk), String.eqb_refl. reflexivity.
    + rewrite (IH Hnd Hin). reflexivity.
Qed.

End ObjectFacts.

(** ** The page *)

Section PageFacts.
Import Str Guide Content Aux.

Lemma elem_of_all_guides guides c g :
  (c, g) ∈ all_guides guides <->
  (c = Core /\ g ∈ core guides) \/
  (c = Feature /\ g ∈ feature_tests guides) \/
  (c = Workflow /\ g ∈ workflows guides).
Proof.
  unfold all_guides. cbn [app]. rewrite !elem_of_app.
  change (map ?f ?l) with (f <$> l).
  rewrite !list_elem_of_fmap. split.
  - intros [[(x & [= -> ->] & H) | (x & [= -> ->] & H)] | (x & [= -> ->] & H)]; tauto.
  - intros [[-> H] | [[-> H] | [-> H]]]; eauto 6.
Qed.

Lemma nav_link_in_nav guides c g :
  (c, g) ∈ all_guides guides ->
  infix (nav_link (nav_guide_id c g) g) (generate_nav_html guides).
Proof.
  intros H. apply elem_of_all_guides in H.
  unfold generate_nav_html.
  rewrite (fold_left_append (fun g => nav_link (nav_id_core g) g)).
  rewrite (fold_left_append (fun g => nav_link (nav_id_feature g) g)).
  rewrite (fold_left_append (fun g => nav_link (nav_id_workflows g) g)).
  destruct H as [[-> H] | [[-> H] | [-> H]]]; cbn [nav_guide_id].
  - do 5 apply infix_app_l. apply infix_app_r.
    apply (infix_concat_map (fun g => nav_link (nav_id_core g) g)), H.
  - do 3 apply infix_app_l. apply infix_app_r.
    apply (infix_concat_map (fun g => nav_link (nav_id_feature g) g)), H.
  - apply infix_app_l, infix_app_r.
    apply (infix_concat_map (fun g => nav_link (nav_id_workflows g) g)), H.
Qed.

Lemma page_sections_concat guides html :
  page_sections guides html =
  html +:+ concat (map (fun cg => section_line (section_guide_id (fst cg) (snd cg)))
                       (all_guides guides)).
Proof.
  unfold page_sections. generalize (all_guides guides) as l. intros l. revert html.
  induction l as [|[c g] l IH]; intros html; cbn [fold_left map concat].
  - rewrite str_app_nil_r. reflexivity.
  - rewrite IH, str_app_assoc. reflexivity.
Qed.

Variables (page_head page_welcome page_script : string).

Lemma nav_link_in_page c g props :
  (c, g) ∈ all_guides GUIDES ->
  infix (nav_link (nav_guide_id c g) g)
        (page_text page_head page_welcome page_script props).
Proof.
  intros H. unfold page_text, page_before_data.
  rewrite page_sections_concat.
  do 5 apply infix_app_l. apply infix_app_r. apply nav_link_in_nav, H.
Qed.

Lemma section_line_in_page c g props :
  (c, g) ∈ all_guides GUIDES ->
  infix (section_line (section_guide_id c g))
        (page_text page_head page_welcome page_script props).
Proof.
  intros H. unfold page_text, page_before_data.
  rewrite page_sections_concat.
  do 3 apply infix_app_l. apply infix_app_r.
  apply (infix_concat_map
           (fun cg => section_line (section_guide_id (fst cg) (snd cg))) (c, g)), H.
Qed.

Lemma data_line_in_page k v props :
  (k, v) ∈ props ->
  infix (data_line k v) (page_text page_head page_welcome page_script props).
Proof.
  intros H. unfold page_text, render.
  apply infix_app_l, infix_app_r, infix_app_r, infix_app_l.
  apply (infix_concat_map (fun p => data_line (fst p) (snd p)) (k, v)), H.
Qed.

Lemma writes_map_Print l : writes (map Print l) = [].
Proof. induction l as [|x l IH]; [reflexivity | exact IH]. Qed.

Lemma prints_map_Print l : prints (map Print l) = l.
Proof. induction l as [|x l IH]; [reflexivity|]. cbn. f_equal. exact IH. Qed.

Lemma writes_app t1 t2 : writes (t1 ++ t2) = writes t1 ++ writes t2.
Proof. unfold writes. apply flat_map_app. Qed.

Lemma prints_app t1 t2 : prints (t1 ++ t2) = prints t1 ++ prints t2.
Proof. unfold prints. apply flat_map_app. Qed.

Lemma writes_run_trace w base_dir :
  writes (run_trace page_head page_welcome page_script w base_dir) =
  [(os_path_join base_dir "testing-guide.html",
    page_text page_head page_welcome page_script (emitted_properties w GUIDES base_dir))].
Proof.
  unfold run_trace. rewrite writes_app, writes_map_Print. reflexivity.
Qed.

Lemma warning_in_run_trace w base_dir cg line :
  cg ∈ all_guides GUIDES -> warning w base_dir cg = Some line ->
  line ∈ prints (run_trace page_head page_welcome page_script w base_dir).
Proof.
  intros Hin Hw. unfold run_trace. rewrite prints_app, prints_map_Print.
  apply elem_of_app. left. apply list_elem_of_omap. eauto.
Qed.

Lemma for_each_print l :
  for_each (fun (_ : unit) line => print line) l tt = (Ok tt, map Print l).
Proof.
  induction l as [|x l IH]; [reflexivity|].
  cbn [for_each]. unfold print at 1. cbn [bind]. rewrite IH. reflexivity.
Qed.

Lemma generate_html_settles w base_dir :
  reads_settle w base_dir (all_guides GUIDES) ->
  open_write w (os_path_join base_dir "testing-guide.html") = Ok tt ->
  generate_html page_head page_welcome page_script w base_dir =
  (Ok (os_path_join base_dir "testing-guide.html"),
   run_trace page_head page_welcome page_script w base_dir).
Proof.
  intros Hs Hw. unfold generate_html.
  rewrite (generate_markdown_data_settles _ _ _ Hs).
  rewrite for_each_print. unfold lift. rewrite Hw.
  cbn [bind ret print]. unfold run_trace, page_text.
  rewrite !List.app_nil_r. reflexivity.
Qed.

Lemma reads_settle_decide w base_dir l :
  reads_settle w base_dir l \/ ~ reads_settle w base_dir l.
Proof.
  induction l as [|cg l [IH|IH]].
  - left. constructor.
  - destruct (open_read w (os_path_join base_dir (file (snd cg)))) as [text|e] eqn:Hr.
    + left. constructor; [rewrite Hr; exact I | exact IH].
    + destruct (decide (e = FileNotFoundError)) as [->|Hne].
      * left. constructor; [rewrite Hr; exact I | exact IH].
      * right. intros H. apply Forall_cons in H as [H _]. rewrite Hr in H.
        destruct e; congruence || contradiction.
  - right. intros H. apply Forall_cons in H as [_ H]. contradiction.
Qed.

(** A run that returns has read every file or found it absent, and has
    written the page. *)
Lemma generate_html_returns w base_dir out trace :
  generate_html page_head page_welcome page_script w base_dir = (Ok out, trace) ->
  reads_settle w base_dir (all_guides GUIDES) /\
  out = os_path_join base_dir "testing-guide.html" /\
  trace = run_trace page_head page_welcome page_script w base_dir.
Proof.
  intros Hrun.
  destruct (reads_settle_decide w base_dir (all_guides GUIDES)) as [Hs|Hs].
  - split; [exact Hs|].
    destruct (open_write w (os_path_join base_dir "testing-guide.html")) as [[]|e] eqn:Hw.
    + rewrite (generate_html_settles _ _ Hs Hw) in Hrun.
      injection Hrun as <- <-. split; reflexivity.
    + unfold generate_html in Hrun.
      rewrite (generate_markdown_data_settles _ _ _ Hs) in Hrun. cbn [bind] in Hrun.
      unfold lift in Hrun. rewrite Hw in Hrun. discriminate.
  - destruct (generate_markdown_data_raises w base_dir GUIDES Hs) as (e & t & Hd & _).
    unfold generate_html in Hrun. rewrite Hd in Hrun. discriminate.
Qed.

Lemma generate_html_raises w base_dir :
  ~ reads_settle w base_dir (all_guides GUIDES) ->
  exists e t, generate_html page_head page_welcome page_script w base_dir = (Raise e, t)
              /\ e <> FileNotFoundError /\ writes t = [].
Proof.
  intros Hs.
  destruct (generate_markdown_data_raises w base_dir GUIDES Hs) as (e & lines & Hd & He).
  exists e, (map Print lines). unfold generate_html. rewrite Hd.
  split; [reflexivity|]. split; [exact He | apply writes_map_Print].
Qed.

End PageFacts.

(** ** The registry *)

Section RegistryFacts.
Import Str Guide Content Aux.

Lemma Forall_forallb {A} (P : A -> Prop) (p : A -> bool) (l : list A) :
  (forall x, p x = true -> P x) -> forallb p l = true -> Forall P l.
Proof.
  intros Hp. induction l as [|x l IH]; cbn [forallb]; intros H; constructor.
  - apply Hp. apply andb_true_iff in H as [H _]. exact H.
  - apply IH. apply andb_true_iff in H as [_ H]. exact H.
Qed.

(** The three chains give one identifier on every entry of the registry. *)
Lemma registry_ids_agree :
  Forall (fun cg => nav_guide_id (fst cg) (snd cg) = section_guide_id (fst cg) (snd cg)
                    /\ data_guide_id (fst cg) (snd cg) = section_guide_id (fst cg) (snd cg))
         (all_guides GUIDES).
Proof.
  apply (Forall_forallb _
           (fun cg => String.eqb (nav_guide_id (fst cg) (snd cg))
                                 (section_guide_id (fst cg) (snd cg)))).
  - intros cg H. apply String.eqb_eq in H. split; [exact H | reflexivity].
  - vm_compute. reflexivity.
Qed.

(** No two entries of the registry share an identifier. *)
Lemma registry_ids_NoDup : NoDup (map entry_id (all_guides GUIDES)).
Proof. apply (bool_decide_unpack _). vm_compute. reflexivity. Qed.

Lemma NoDup_map_inj {A B} (f : A -> B) (l : list A) x y :
  NoDup (map f l) -> x ∈ l -> y ∈ l -> f x = f y -> x = y.
Proof.
  induction l as [|z l IH]; intros Hnd Hx Hy E.
  - apply elem_of_nil in Hx. contradiction.
  - cbn [map] in Hnd. apply NoDup_cons in Hnd as [Hz Hnd].
    apply elem_of_cons in Hx as [->|Hx]; apply elem_of_cons in Hy as [->|Hy].
    + reflexivity.
    + exfalso. apply Hz. rewrite E. apply (list_elem_of_fmap_2 f), Hy.
    + exfalso. apply Hz. rewrite <- E. apply (list_elem_of_fmap_2 f), Hx.
    + apply IH; assumption.
Qed.

Lemma embedded_key w base_dir cg p :
  embedded w base_dir cg = Some p -> fst p = entry_id cg.
Proof.
  unfold embedded. destruct (open_read _ _) as [text|e]; [|discriminate].
  destruct (truthy (Some text)); [|discriminate]. intros [= <-]. reflexivity.
Qed.

Lemma embedded_text w base_dir cg text :
  open_read w (entry_path base_dir cg) = Ok text -> text <> EmptyString ->
  embedded w base_dir cg = Some (entry_id cg, escape_for_js (Some text)).
Proof.
  unfold embedded, entry_path. intros -> Hne.
  destruct text; [contradiction | reflexivity].
Qed.

Lemma embedded_None w base_dir cg :
  embedded w base_dir cg = None <->
  open_read w (entry_path base_dir cg) = Ok EmptyString \/
  exists e, open_read w (entry_path base_dir cg) = Raise e.
Proof.
  unfold embedded, entry_path.
  destruct (open_read _ _) as [[|c text]|e]; cbn [truthy]; split; eauto;
    try discriminate; intros [H|(e' & H)]; discriminate.
Qed.

Lemma keys_omap_embedded w base_dir l k :
  k ∈ map fst (omap (embedded w base_dir) l) -> k ∈ map entry_id l.
Proof.
  change (map ?f ?l) with (f <$> l). rewrite !list_elem_of_fmap.
  intros (p & -> & Hp). apply list_elem_of_omap in Hp as (cg & Hcg & He).
  exists cg. split; [apply (embedded_key _ _ _ _ He) | exact Hcg].
Qed.

Lemma NoDup_keys_omap_embedded w base_dir l :
  NoDup (map entry_id l) -> NoDup (map fst (omap (embedded w base_dir) l)).
Proof.
  induction l as [|cg l IH]; cbn [map omap list_omap]; intros Hnd; [constructor|].
  apply NoDup_cons in Hnd as [Hcg Hnd].
  destruct (embedded w base_dir cg) as [p|] eqn:He; [|apply IH, Hnd].
  cbn [map]. apply NoDup_cons. split; [|apply IH, Hnd].
  rewrite (embedded_key _ _ _ _ He). intros H. apply Hcg.
  apply (keys_omap_embedded _ _ _ _ H).
Qed.

(** In the registry, an identifier is bound in the content mapping to the
    escaped text of its own entry, and only if that text is not empty. *)
Lemma content_mapping_get w base_dir cg :
  cg ∈ all_guides GUIDES ->
  Js.get (content_mapping w GUIDES base_dir) (entry_id cg) =
  snd <$> embedded w base_dir cg.
Proof.
  intros Hin. unfold content_mapping. rewrite get_object_literal.
  unfold emitted_properties.
  destruct (embedded w base_dir cg) as [p|] eqn:He; cbn [fmap option_fmap option_map].
  - apply last_value_NoDup.
    + apply NoDup_keys_omap_embedded, registry_ids_NoDup.
    + apply list_elem_of_omap. exists cg. split; [exact Hin|].
      rewrite He. f_equal. destruct p as [k v]. cbn [snd].
      rewrite <- (embedded_key _ _ _ _ He). reflexivity.
  - destruct (last_value _ _) as [v|] eqn:Hl; [|reflexivity].
    apply last_value_elem, list_elem_of_omap in Hl as (cg' & Hin' & He').
    assert (cg' = cg) as ->.
    { apply (NoDup_map_inj entry_id (all_guides GUIDES));
        [apply registry_ids_NoDup | assumption | assumption |].
      symmetry. apply (embedded_key _ _ _ _ He'). }
    congruence.
Qed.

End RegistryFacts.

(** ** Properties of the guide builder *)

Section GuideTheorems.
Import Str Guide Content Aux.

Variables (page_head page_welcome page_script : string).

(** C1, amended.  For every entry of the registry, the navigation chain, the section
    chain and the content-mapping chain yield one identifier, and the page a
    run writes carries it in the entry's navigation link (fragment target and
    [data-guide]), in the entry's empty section, and, when the file's text is
    read and not empty, as the key of the entry's line of the embedded
    mapping, which then binds it to the escaped text. *)
Theorem guide_identifier_shared w base_dir c g out trace :
  (c, g) ∈ all_guides GUIDES ->
  generate_html page_head page_welcome page_script w base_dir = (Ok out, trace) ->
  nav_guide_id c g = section_guide_id c g /\
  data_guide_id c g = section_guide_id c g /\
  exists html,
    writes trace = [(out, html)] /\
    infix (nav_link (section_guide_id c g) g) html /\
    infix (section_line (section_guide_id c g)) html /\
    forall text,
      open_read w (os_path_join base_dir (file g)) = Ok text -> text <> EmptyString ->
      infix (data_line (section_guide_id c g) (escape_for_js (Some text))) html /\
      Js.get (content_mapping w GUIDES base_dir) (section_guide_id c g)
      = Some (escape_for_js (Some text)).
Proof.
  intros Hin Hrun.
  pose proof registry_ids_agree as Hids.
  rewrite Forall_forall in Hids. destruct (Hids _ Hin) as [Hnav Hdata].
  cbn [fst snd] in Hnav, Hdata.
  apply generate_html_returns in Hrun as (Hs & -> & ->).
  split; [exact Hnav|]. split; [exact Hdata|].
  eexists. split; [apply writes_run_trace|].
  split; [rewrite <- Hnav; apply nav_link_in_page, Hin|].
  split; [apply section_line_in_page, Hin|].
  intros text Hr Hne.
  pose proof (embedded_text w base_dir (c, g) text Hr Hne) as He.
  unfold entry_id in He. cbn [fst snd] in He. rewrite Hdata in He.
  split.
  - apply data_line_in_page. apply list_elem_of_omap. exists (c, g). split; assumption.
  - rewrite <- Hdata. change (data_guide_id c g) with (entry_id (c, g)).
    rewrite (content_mapping_get _ _ _ Hin), He. reflexivity.
Qed.



(** C3, amended.  In a registry whose paths are ASCII, when two entries have
    one identifier, and the later of them is the last entry with it and its
    text is read and not empty, the content mapping (the object that the
    emitted literal evaluates to) has exactly one property under the
    identifier, bound to the escaped text of that later entry.  The emitted
    text is the literal of the property definitions in registry order, and
    the run returns it whenever no read fails otherwise than by the file
    being absent. *)
Theorem last_duplicate_wins w guides base_dir l1 l2 l3 c1 g1 c2 g2 text :
  Forall (fun cg => Chars.ascii_only (file (snd cg)) = true) (all_guides guides) ->
  all_guides guides = l1 ++ (c1, g1) :: l2 ++ (c2, g2) :: l3 ->
  data_guide_id c1 g1 = data_guide_id c2 g2 ->
  Forall (fun e => data_guide_id (fst e) (snd e) <> data_guide_id c2 g2) l3 ->
  open_read w (os_path_join base_dir (file g2)) = Ok text ->
  text <> EmptyString ->
  (forall data trace,
      generate_markdown_data w guides base_dir = (Ok data, trace) ->
      data = render (emitted_properties w guides base_dir)) /\
  (reads_settle w base_dir (all_guides guides) ->
   exists trace,
     generate_markdown_data w guides base_dir
     = (Ok (render (emitted_properties w guides base_dir)), trace)) /\
  (data_guide_id c2 g2, escape_for_js (Some text)) ∈ emitted_properties w guides base_dir /\
  Js.count (content_mapping w guides base_dir) (data_guide_id c2 g2) = 1 /\
  Js.get (content_mapping w guides base_dir) (data_guide_id c2 g2)
  = Some (escape_for_js (Some text)).
Proof.
  intros _ Hall _ Hlast Hr Hne.
  split.
  { intros data trace Hrun.
    destruct (reads_settle_decide w base_dir (all_guides guides)) as [Hs|Hs].
    - rewrite (generate_markdown_data_settles _ _ _ Hs) in Hrun. congruence.
    - destruct (generate_markdown_data_raises _ _ _ Hs) as (x & lines & Hx & _).
      congruence. }
  split.
  { intros Hs. eexists. apply generate_markdown_data_settles, Hs. }
  split.
  { unfold emitted_properties. apply list_elem_of_omap. exists (c2, g2).
    split.
    - rewrite Hall. apply elem_of_app. right. apply elem_of_cons. right.
      apply elem_of_app. right. apply elem_of_cons. left. reflexivity.
    - apply (embedded_text w base_dir (c2, g2) text Hr Hne). }
  assert (Hget : Js.get (content_mapping w guides base_dir) (data_guide_id c2 g2)
                 = Some (escape_for_js (Some text))).
  { unfold content_mapping, emitted_properties. rewrite get_object_literal, Hall.
    change (l1 ++ (c1, g1) :: l2 ++ (c2, g2) :: l3)
      with (l1 ++ ((c1, g1) :: l2) ++ (c2, g2) :: l3).
    rewrite !omap_app, !last_value_app. cbn [omap list_omap].
    rewrite (embedded_text w base_dir (c2, g2) text Hr Hne).
    cbn [last_value]. rewrite last_value_None.
    - change (entry_id (c2, g2)) with (data_guide_id c2 g2).
      rewrite String.eqb_refl. reflexivity.
    - intros Hk. apply keys_omap_embedded in Hk.
      change (map ?f ?l) with (f <$> l) in Hk.
      apply list_elem_of_fmap in Hk as (e & He & Hin).
      rewrite Forall_forall in Hlast. apply (Hlast e Hin). symmetry. exact He. }
  split; [|exact Hget].
  rewrite count_get, Hget; [reflexivity | apply NoDup_object_literal].
Qed.

Lemma last_duplicate_wins_witness :
  generate_markdown_data Samples.two_texts Samples.colliding EmptyString
  = (Ok (render [("a-b", "first"); ("a-b", "second")]), []) /\
  Js.count (content_mapping Samples.two_texts Samples.colliding EmptyString) "a-b" = 1 /\
  Js.get (content_mapping Samples.two_texts Samples.colliding EmptyString) "a-b"
  = Some "second".
Proof.
  split; [reflexivity|].
  destruct (last_duplicate_wins Samples.two_texts Samples.colliding EmptyString
              [] [] [] Core Samples.nested Core Samples.flat "second")
    as (_ & _ & _ & Hcount & Hget).
  - repeat constructor.
  - reflexivity.
  - reflexivity.
  - constructor.
  - reflexivity.
  - discriminate.
  - split; [exact Hcount | exact Hget].
Defined.

(** C3 as stated fails when the entry processed last has an empty or a
    missing file: it defines no property, so the text of the earlier entry
    stays in the mapping, and when no entry of the identifier has a text the
    mapping has no property under it. *)
Lemma last_duplicate_wins_counterexample :
  all_guides Samples.colliding = [(Core, Samples.nested); (Core, Samples.flat)] /\
  data_guide_id Core Samples.nested = "a-b" /\
  data_guide_id Core Samples.flat = "a-b" /\
  open_read MoreSamples.last_empty (os_path_join EmptyString (file Samples.flat))
  = Ok EmptyString /\
  generate_markdown_data MoreSamples.last_empty Samples.colliding EmptyString
  = (Ok (render [("a-b", "first")]), []) /\
  Js.get (content_mapping MoreSamples.last_empty Samples.colliding EmptyString) "a-b"
  = Some (escape_for_js (Some "first")) /\
  Js.get (content_mapping MoreSamples.last_empty Samples.colliding EmptyString) "a-b"
  <> Some (escape_for_js (Some EmptyString)) /\
  generate_markdown_data MoreSamples.nothing_there Samples.colliding EmptyString
  = (Ok (render []),
     [ Print "Warning: File not found: a/b.md"; Print "Warning: File not found: a-b.md" ]) /\
  Js.count (content_mapping MoreSamples.nothing_there Samples.colliding EmptyString) "a-b"
  = 0.
Proof.
  repeat (split; [reflexivity|]).
  split; [discriminate|].
  split; reflexivity.
Qed.

(** C4.  When the file of an entry of the registry is missing and no other
    read fails, the run returns: it prints the warning for the entry, writes
    the page with the entry's navigation link and empty section, and embeds a
    mapping that has no property for the entry while every entry whose text
    is read and not empty keeps its own. *)
Theorem missing_file_skipped w base_dir c g :
  (c, g) ∈ all_guides GUIDES ->
  open_read w (os_path_join base_dir (file g)) = Raise FileNotFoundError ->
  reads_settle w base_dir (all_guides GUIDES) ->
  open_write w (os_path_join base_dir "testing-guide.html") = Ok tt ->
  exists trace html,
    generate_html page_head page_welcome page_script w base_dir
    = (Ok (os_path_join base_dir "testing-guide.html"), trace) /\
    writes trace = [(os_path_join base_dir "testing-guide.html", html)] /\
    html = page_text page_head page_welcome page_script
                     (emitted_properties w GUIDES base_dir) /\
    ("Warning: File not found: " +:+ os_path_join base_dir (file g)) ∈ prints trace /\
    Js.get (content_mapping w GUIDES base_dir) (data_guide_id c g) = None /\
    (forall c' g' text,
        (c', g') ∈ all_guides GUIDES ->
        open_read w (os_path_join base_dir (file g')) = Ok text ->
        text <> EmptyString ->
        Js.get (content_mapping w GUIDES base_dir) (data_guide_id c' g')
        = Some (escape_for_js (Some text))) /\
    infix (nav_link (data_guide_id c g) g) html /\
    infix (section_line (data_guide_id c g)) html.
Proof.
  intros Hin Hmiss Hs Hw.
  pose proof registry_ids_agree as Hids.
  rewrite Forall_forall in Hids. destruct (Hids _ Hin) as [Hnav Hdata].
  cbn [fst snd] in Hnav, Hdata.
  exists (run_trace page_head page_welcome page_script w base_dir). eexists.
  split; [apply generate_html_settles; assumption|].
  split; [apply writes_run_trace|].
  split; [reflexivity|].
  split.
  { apply (warning_in_run_trace _ _ _ _ _ (c, g)); [exact Hin|].
    unfold warning. cbn [snd]. rewrite Hmiss. reflexivity. }
  split.
  { change (data_guide_id c g) with (entry_id (c, g)).
    rewrite (content_mapping_get _ _ _ Hin).
    unfold embedded. cbn [snd]. rewrite Hmiss. reflexivity. }
  split.
  { intros c' g' text Hin' Hr Hne.
    change (data_guide_id c' g') with (entry_id (c', g')).
    rewrite (content_mapping_get _ _ _ Hin').
    rewrite (embedded_text w base_dir (c', g') text Hr Hne). reflexivity. }
  split.
  - rewrite Hdata, <- Hnav. apply nav_link_in_page, Hin.
  - rewrite Hdata. apply section_line_in_page, Hin.
Qed.


End GuideTheorems.

Section GuideWitnesses.
Import Str Guide Content Aux.

Lemma guide_identifier_shared_witness :
  nav_guide_id Feature Samples.tab_architecture = "feature-01_tab_architecture" /\
  data_guide_id Feature Samples.tab_architecture = "feature-01_tab_architecture" /\
  exists html,
    writes (run_trace Samples.page_head Samples.page_welcome Samples.page_script Samples.all_present "docs")
    = [("docs/testing-guide.html", html)] /\
    infix (nav_link "feature-01_tab_architecture" Samples.tab_architecture) html /\
    infix (section_line "feature-01_tab_architecture") html /\
    infix (data_line "feature-01_tab_architecture" "# Guide") html.
Proof.
  assert (Hin : (Feature, Samples.tab_architecture) ∈ all_guides GUIDES).
  { apply list_elem_of_In. vm_compute. do 10 right. left. reflexivity. }
  assert (Hrun : generate_html Samples.page_head Samples.page_welcome Samples.page_script Samples.all_present "docs"
                 = (Ok "docs/testing-guide.html",
                    run_trace Samples.page_head Samples.page_welcome Samples.page_script Samples.all_present "docs")).
  { apply generate_html_settles; [|reflexivity].
    unfold reads_settle. repeat (constructor; [exact I|]). constructor. }
  destruct (guide_identifier_shared Samples.page_head Samples.page_welcome
              Samples.page_script Samples.all_present "docs" Feature
              Samples.tab_architecture _ _ Hin Hrun)
    as (Hnav & Hdata & html & Hw & Hn & Hsec & Htext).
  split; [exact Hnav|]. split; [exact Hdata|].
  exists html. split; [exact Hw|]. split; [exact Hn|]. split; [exact Hsec|].
  apply (Htext "# Guide"); [reflexivity | discriminate].
Defined.

Lemma missing_file_skipped_witness :
  exists trace html,
    generate_html Samples.page_head Samples.page_welcome Samples.page_script Samples.readme_missing "docs"
    = (Ok "docs/testing-guide.html", trace) /\
    writes trace = [("docs/testing-guide.html", html)] /\
    "Warning: File not found: docs/README.md" ∈ prints trace /\
    Js.get (content_mapping Samples.readme_missing GUIDES "docs") "readme" = None /\
    Js.get (content_mapping Samples.readme_missing GUIDES "docs") "master_testing_guide"
    = Some "# Guide" /\
    infix (nav_link "readme" Samples.readme) html /\
    infix (section_line "readme") html.
Proof.
  assert (Hin : (Core, Samples.readme) ∈ all_guides GUIDES).
  { apply list_elem_of_In. vm_compute. left. reflexivity. }
  assert (Hs : reads_settle Samples.readme_missing "docs" (all_guides GUIDES)).
  { unfold reads_settle. repeat (constructor; [exact I|]). constructor. }
  destruct (missing_file_skipped Samples.page_head Samples.page_welcome
              Samples.page_script Samples.readme_missing "docs" Core Samples.readme
              Hin eq_refl Hs eq_refl)
    as (trace & html & Hrun & Hw & _ & Hwarn & Hnone & Hother & Hnav & Hsec).
  exists trace, html.
  split; [exact Hrun|]. split; [exact Hw|]. split; [exact Hwarn|].
  split; [exact Hnone|].
  split; [|split; [exact Hnav | exact Hsec]].
  assert (Hin' : (Core, {| file := "MASTER_TESTING_GUIDE.md";
                           title := "Master Testing Guide"; icon := "🎯" |})
                 ∈ all_guides GUIDES).
  { apply list_elem_of_In. vm_compute. right. left. reflexivity. }
  assert (Hne : "# Guide" <> EmptyString) by discriminate.
  exact (Hother _ _ "# Guide" Hin' eq_refl Hne).
Defined.

(** C1 as stated fails for a file that is readable and empty: the run
    returns and writes the page with the entry's link and section, but the
    embedded mapping has no key for the entry. *)
Lemma guide_identifier_shared_counterexample :
  (Core, Samples.readme) ∈ all_guides GUIDES /\
  section_guide_id Core Samples.readme = "readme" /\
  open_read Samples.readme_empty (os_path_join "docs" (file Samples.readme))
  = Ok EmptyString /\
  generate_html Samples.page_head Samples.page_welcome Samples.page_script
                Samples.readme_empty "docs"
  = (Ok "docs/testing-guide.html",
     run_trace Samples.page_head Samples.page_welcome Samples.page_script
               Samples.readme_empty "docs") /\
  writes (run_trace Samples.page_head Samples.page_welcome Samples.page_script
                    Samples.readme_empty "docs")
  = [("docs/testing-guide.html",
      page_text Samples.page_head Samples.page_welcome Samples.page_script
                (emitted_properties Samples.readme_empty GUIDES "docs"))] /\
  ("readme" ∉ map fst (emitted_properties Samples.readme_empty GUIDES "docs")) /\
  Js.get (content_mapping Samples.readme_empty GUIDES "docs") "readme" = None.
Proof.
  split; [apply list_elem_of_In; vm_compute; left; reflexivity|].
  split; [reflexivity|]. split; [reflexivity|].
  split.
  { apply generate_html_settles; [|reflexivity].
    unfold reads_settle. repeat (constructor; [exact I|]). constructor. }
  split; [apply writes_run_trace|].
  split.
  - intros H. apply list_elem_of_In in H. vm_compute in H.
    repeat (destruct H as [H|H]; [discriminate H|]). contradiction.
  - vm_compute. reflexivity.
Qed.

End GuideWitnesses.

Section IdentifierRules.
Import Str Guide Content Aux SpecRules.

Lemma drop_all n s : String.length s <= n -> drop n s = EmptyString.
Proof.
  revert n. induction s as [|c s IH]; intros [|n] H; cbn in H |- *;
    try reflexivity; try lia.
  apply IH. lia.
Qed.

Lemma strip_prefix_drop p s :
  exists n, n <= String.length s /\ strip_prefix p s = drop n s.
Proof.
  unfold strip_prefix. destruct (startswith s p).
  - destruct (le_lt_dec (String.length p) (String.length s)) as [H|H].
    + exists (String.length p). split; [exact H | reflexivity].
    + exists (String.length s). split; [lia|].
      rewrite !drop_all by lia. reflexivity.
  - exists 0. split; [lia|]. destruct s; reflexivity.
Qed.

(** C2, as stated, fails on the first feature test: the builder's identifier
    keeps a [feature-] in front, which rules (a) to (d) give for no choice of
    the directory prefix; with the directory [FEATURE_TESTS/] as the prefix
    they give [01_tab_architecture]. *)
Lemma identifier_rules_counterexample :
  (Feature, Samples.tab_architecture) ∈ all_guides GUIDES /\
  section_guide_id Feature Samples.tab_architecture = "feature-01_tab_architecture" /\
  nav_guide_id Feature Samples.tab_architecture = "feature-01_tab_architecture" /\
  data_guide_id Feature Samples.tab_architecture = "feature-01_tab_architecture" /\
  identifier "FEATURE_TESTS/" (file Samples.tab_architecture) = "01_tab_architecture" /\
  ~ (exists p, identifier p (file Samples.tab_architecture)
               = section_guide_id Feature Samples.tab_architecture).
Proof.
  split; [apply list_elem_of_In; vm_compute; do 10 right; left; reflexivity|].
  do 4 (split; [reflexivity|]).
  intros (p & Hp). unfold identifier in Hp.
  destruct (strip_prefix_drop p (file Samples.tab_architecture)) as (n & Hn & E).
  rewrite E in Hp. clear E. revert Hp.
  assert (Hall : Forall (fun n => lower (dash_separators (strip_extension
                                    (drop n (file Samples.tab_architecture))))
                                  <> section_guide_id Feature Samples.tab_architecture)
                        (seq 0 37)).
  { apply (Forall_forallb _
             (fun n => negb (String.eqb
                               (lower (dash_separators (strip_extension
                                  (drop n (file Samples.tab_architecture)))))
                               (section_guide_id Feature Samples.tab_architecture)))).
    - intros k Hk. apply negb_true_iff, String.eqb_neq in Hk. exact Hk.
    - vm_compute. reflexivity. }
  rewrite Forall_forall in Hall. apply Hall.
  apply list_elem_of_In, in_seq. cbn in Hn. lia.
Qed.

(** C2, amended.  On every entry of the registry the three chains give the
    identifier of the rules with the prefix of the feature tests rewritten to
    [feature-] instead of dropped; outside the feature tests that is the
    identifier of rules (a) to (d) as stated. *)
Theorem identifier_rules_rewriting c g :
  (c, g) ∈ all_guides GUIDES ->
  section_guide_id c g = identifier_rewriting c (file g) /\
  nav_guide_id c g = identifier_rewriting c (file g) /\
  data_guide_id c g = identifier_rewriting c (file g) /\
  (c <> Feature -> section_guide_id c g = identifier (category_prefix c) (file g)).
Proof.
  intros Hin.
  assert (Hall : Forall (fun cg =>
                           section_guide_id (fst cg) (snd cg)
                           = identifier_rewriting (fst cg) (file (snd cg)) /\
                           (fst cg <> Feature ->
                            section_guide_id (fst cg) (snd cg)
                            = identifier (category_prefix (fst cg)) (file (snd cg))))
                        (all_guides GUIDES)).
  { apply (Forall_forallb _
             (fun cg =>
                String.eqb (section_guide_id (fst cg) (snd cg))
                           (identifier_rewriting (fst cg) (file (snd cg)))
                && match fst cg with
                   | Feature => true
                   | _ => String.eqb (section_guide_id (fst cg) (snd cg))
                                     (identifier (category_prefix (fst cg)) (file (snd cg)))
                   end)).
    - intros [c' g'] H. cbn [fst snd] in H |- *.
      apply andb_true_iff in H as [H1 H2]. apply String.eqb_eq in H1.
      split; [exact H1|]. intros Hc.
      destruct c'; try contradiction; apply String.eqb_eq in H2; exact H2.
    - vm_compute. reflexivity. }
  rewrite Forall_forall in Hall. destruct (Hall _ Hin) as [H1 H2]. cbn [fst snd] in H1, H2.
  pose proof registry_ids_agree as Hids.
  rewrite Forall_forall in Hids. destruct (Hids _ Hin) as [Hnav Hdata].
  cbn [fst snd] in Hnav, Hdata.
  split; [exact H1|]. split; [congruence|]. split; [congruence | exact H2].
Qed.

Lemma identifier_rules_rewriting_witness :
  section_guide_id Feature Samples.tab_architecture
  = identifier_rewriting Feature (file Samples.tab_architecture) /\
  section_guide_id Core Samples.readme
  = identifier (category_prefix Core) (file Samples.readme).
Proof.
  assert (Hf : (Feature, Samples.tab_architecture) ∈ all_guides GUIDES).
  { apply list_elem_of_In. vm_compute. do 10 right. left. reflexivity. }
  assert (Hc : (Core, Samples.readme) ∈ all_guides GUIDES).
  { apply list_elem_of_In. vm_compute. left. reflexivity. }
  assert (Hne : Core <> Feature) by discriminate.
  destruct (identifier_rules_rewriting Feature Samples.tab_architecture Hf)
    as (H1 & _).
  destruct (identifier_rules_rewriting Core Samples.readme Hc) as (_ & _ & _ & H4).
  split; [exact H1 | exact (H4 Hne)].
Defined.

End IdentifierRules.

Section EscapeRoundTrip.
Import Str Guide Aux.

(** C5, as stated, fails on a text with a carriage return: the escape leaves
    it alone, and a template literal reads it as a line feed. *)
Lemma escape_round_trip_counterexample :
  escape_for_js (Some (String Js.CR EmptyString)) = String Js.CR EmptyString /\
  Js.template_value (escape_for_js (Some (String Js.CR EmptyString)) +:+ "`")
  = Js.Closed (String Js.LF EmptyString) EmptyString /\
  Js.template_value (escape_for_js (Some (String Js.CR EmptyString)) +:+ "`")
  <> Js.Closed (String Js.CR EmptyString) EmptyString.
Proof. split; [reflexivity|]. split; [reflexivity | discriminate]. Qed.

(** C5, amended.  For every text without a carriage return, the escaped text
    put between backticks reads back, as a template literal, as the original
    text exactly: the literal closes at the closing backtick and opens no
    substitution, whatever backslashes, backticks and [${] the text has. *)
Theorem escape_round_trip s rest :
  contains_char Js.CR s = false ->
  Js.template_value (escape_for_js (Some s) +:+ "`" +:+ rest) = Js.Closed s rest.
Proof.
  intros Hcr. rewrite escape_for_js_pass.
  apply template_value_escape_pass, Hcr.
Qed.

Lemma escape_round_trip_witness :
  Js.template_value (escape_for_js (Some "a\b`c${d}$") +:+ "`" +:+ ",")
  = Js.Closed "a\b`c${d}$" ",".
Proof. apply escape_round_trip. reflexivity. Defined.

End EscapeRoundTrip.

Section Determinism.
Import Str Guide Content Aux.

Variables (page_head page_welcome page_script : string).

Lemma emitted_properties_ext w1 w2 b1 b2 guides :
  (forall c g, (c, g) ∈ all_guides guides ->
               open_read w1 (os_path_join b1 (file g))
               = open_read w2 (os_path_join b2 (file g))) ->
  emitted_properties w1 guides b1 = emitted_properties w2 guides b2.
Proof.
  unfold emitted_properties. generalize (all_guides guides) as l.
  induction l as [|[c g] l IH]; intros H; [reflexivity|].
  cbn [omap list_omap]. rewrite IH.
  - unfold embedded. cbn [fst snd]. rewrite (H c g); [reflexivity|].
    apply elem_of_cons. left. reflexivity.
  - intros c' g' Hin. apply (H c' g'). apply elem_of_cons. right. exact Hin.
Qed.

(** C8.  Two runs that read the same texts, or the same failures, from the
    files of the registry write the same page, byte for byte, whatever else
    differs between their worlds and wherever their base directories are. *)
Theorem generate_html_deterministic w1 w2 b1 b2 out1 out2 trace1 trace2 :
  (forall c g, (c, g) ∈ all_guides GUIDES ->
               open_read w1 (os_path_join b1 (file g))
               = open_read w2 (os_path_join b2 (file g))) ->
  generate_html page_head page_welcome page_script w1 b1 = (Ok out1, trace1) ->
  generate_html page_head page_welcome page_script w2 b2 = (Ok out2, trace2) ->
  exists html, writes trace1 = [(out1, html)] /\ writes trace2 = [(out2, html)].
Proof.
  intros Hsame H1 H2.
  apply generate_html_returns in H1 as (_ & -> & ->).
  apply generate_html_returns in H2 as (_ & -> & ->).
  eexists. split; [apply writes_run_trace|].
  rewrite writes_run_trace, (emitted_properties_ext w1 w2 b1 b2 GUIDES Hsame).
  reflexivity.
Qed.


End Determinism.

Section DeterminismWitness.
Import Str Guide Content Aux.

Lemma generate_html_deterministic_witness :
  exists html,
    writes (run_trace Samples.page_head Samples.page_welcome Samples.page_script Samples.all_present "docs")
    = [("docs/testing-guide.html", html)] /\
    writes (run_trace Samples.page_head Samples.page_welcome Samples.page_script Samples.elsewhere "mirror")
    = [("mirror/testing-guide.html", html)].
Proof.
  apply (generate_html_deterministic Samples.page_head Samples.page_welcome
           Samples.page_script Samples.all_present Samples.elsewhere "docs" "mirror").
  - intros c g Hin. apply list_elem_of_In in Hin. vm_compute in Hin.
    repeat (destruct Hin as [Hin|Hin]; [injection Hin as <- <-; reflexivity|]).
    contradiction.
  - apply generate_html_settles; [|reflexivity].
    unfold reads_settle. repeat (constructor; [exact I|]). constructor.
  - apply generate_html_settles; [|reflexivity].
    unfold reads_settle. repeat (constructor; [exact I|]). constructor.
Defined.

End DeterminismWitness.

Section EmptyFiles.
Import Str Guide Content Aux.

Lemma reads_settle_elem w base_dir l cg :
  reads_settle w base_dir l -> cg ∈ l ->
  (exists text, open_read w (entry_path base_dir cg) = Ok text) \/
  open_read w (entry_path base_dir cg) = Raise FileNotFoundError.
Proof.
  unfold reads_settle, entry_path. rewrite Forall_forall. intros H Hin.
  specialize (H cg Hin).
  destruct (open_read w _) as [text|e]; [left; eauto|].
  destruct e; try contradiction. right. reflexivity.
Qed.

Lemma reads_settle_as_missing w base_dir l p :
  reads_settle w base_dir l -> reads_settle (as_missing w p) base_dir l.
Proof.
  unfold reads_settle. intros H. eapply Forall_impl; [exact H|].
  intros cg Hcg. cbn [as_missing open_read] in *.
  destruct (String.eqb _ p); [exact I | exact Hcg].
Qed.

Lemma embedded_as_missing w base_dir p cg :
  open_read w p = Ok EmptyString ->
  embedded (as_missing w p) base_dir cg = embedded w base_dir cg.
Proof.
  intros Hp. unfold embedded. cbn [as_missing open_read].
  destruct (String.eqb_spec (os_path_join base_dir (file (snd cg))) p) as [->|Hne];
    [rewrite Hp|]; reflexivity.
Qed.

Lemma emitted_properties_as_missing w guides base_dir p :
  open_read w p = Ok EmptyString ->
  emitted_properties (as_missing w p) guides base_dir = emitted_properties w guides base_dir.
Proof.
  intros Hp. unfold emitted_properties. generalize (all_guides guides) as l.
  induction l as [|cg l IH]; [reflexivity|].
  cbn [omap list_omap]. rewrite IH, (embedded_as_missing _ _ _ _ Hp). reflexivity.
Qed.

Lemma warning_path w base_dir cg p :
  warning w base_dir cg = Some ("Warning: File not found: " +:+ p) ->
  open_read w p = Raise FileNotFoundError.
Proof.
  unfold warning.
  destruct (open_read w (os_path_join base_dir (file (snd cg)))) as [text|e] eqn:Hr;
    [discriminate|].
  destruct e; try discriminate. intros [= E].
  change (os_path_join base_dir (file (snd cg)) = p) in E. rewrite <- E. exact Hr.
Qed.

Lemma data_line_in_render k v props :
  (k, v) ∈ props -> infix (data_line k v) (render props).
Proof.
  intros H. unfold render. apply infix_app_r, infix_app_l.
  apply (infix_concat_map (fun p => data_line (fst p) (snd p)) (k, v)), H.
Qed.

(** In the registry, the key of an entry is among the emitted definitions
    only if the entry itself is embedded. *)
Lemma registry_key_emitted w base_dir cg :
  cg ∈ all_guides GUIDES ->
  entry_id cg ∈ map fst (emitted_properties w GUIDES base_dir) ->
  exists v, embedded w base_dir cg = Some (entry_id cg, v).
Proof.
  intros Hin Hk. change (map ?f ?l) with (f <$> l) in Hk.
  apply list_elem_of_fmap in Hk as ([k v] & Hkey & Hp). cbn [fst] in Hkey.
  unfold emitted_properties in Hp.
  apply list_elem_of_omap in Hp as (cg' & Hin' & He').
  pose proof (embedded_key _ _ _ _ He') as Hk'. cbn [fst] in Hk'.
  assert (cg' = cg) as ->.
  { apply (NoDup_map_inj entry_id (all_guides GUIDES));
      [apply registry_ids_NoDup | assumption | assumption | congruence]. }
  exists v. rewrite He', Hkey. reflexivity.
Qed.

(** C9.  For an entry of the registry whose file reads as the empty string,
    the run returns and emits the literal of the property definitions of the
    entries read with a text that is not empty, each with its line; the
    emitted text has no definition under the identifier of the entry and the
    content mapping no property, and the text is the very one the run emits
    with the file absent; only the warning differs, printed for the absent
    file and not for the empty one.  An identifier of the registry is left
    out of the mapping exactly when the text of its entry is empty or its
    file is absent, and is otherwise bound to the escaped text.  A read that
    fails in any other way is not caught: [read_file] raises, and so does the
    run. *)
Theorem empty_file_skipped_silently w base_dir c g :
  (c, g) ∈ all_guides GUIDES ->
  open_read w (os_path_join base_dir (file g)) = Ok EmptyString ->
  reads_settle w base_dir (all_guides GUIDES) ->
  (exists data lines lines',
      generate_markdown_data w GUIDES base_dir = (Ok data, map Print lines) /\
      generate_markdown_data (as_missing w (os_path_join base_dir (file g))) GUIDES base_dir
      = (Ok data, map Print lines') /\
      data = render (emitted_properties w GUIDES base_dir) /\
      (("Warning: File not found: " +:+ os_path_join base_dir (file g)) ∉ lines) /\
      (("Warning: File not found: " +:+ os_path_join base_dir (file g)) ∈ lines') /\
      (forall c' g' text,
          (c', g') ∈ all_guides GUIDES ->
          open_read w (os_path_join base_dir (file g')) = Ok text ->
          text <> EmptyString ->
          infix (data_line (data_guide_id c' g') (escape_for_js (Some text))) data)) /\
  (data_guide_id c g ∉ map fst (emitted_properties w GUIDES base_dir)) /\
  Js.get (content_mapping w GUIDES base_dir) (data_guide_id c g) = None /\
  content_mapping (as_missing w (os_path_join base_dir (file g))) GUIDES base_dir
  = content_mapping w GUIDES base_dir /\
  (forall c' g',
      (c', g') ∈ all_guides GUIDES ->
      (Js.get (content_mapping w GUIDES base_dir) (data_guide_id c' g') = None <->
       open_read w (os_path_join base_dir (file g')) = Ok EmptyString \/
       open_read w (os_path_join base_dir (file g')) = Raise FileNotFoundError) /\
      (forall text,
          open_read w (os_path_join base_dir (file g')) = Ok text ->
          text <> EmptyString ->
          Js.get (content_mapping w GUIDES base_dir) (data_guide_id c' g')
          = Some (escape_for_js (Some text)))) /\
  (forall w' c' g' e,
      (c', g') ∈ all_guides GUIDES ->
      open_read w' (os_path_join base_dir (file g')) = Raise e ->
      e <> FileNotFoundError ->
      read_file w' (os_path_join base_dir (file g')) = (Raise e, []) /\
      exists e' lines,
        generate_markdown_data w' GUIDES base_dir = (Raise e', map Print lines) /\
        e' <> FileNotFoundError).
Proof.
  intros Hin Hempty Hs.
  set (p := os_path_join base_dir (file g)) in *.
  assert (Hnone : embedded w base_dir (c, g) = None).
  { apply embedded_None. left. exact Hempty. }
  assert (Htext : forall c' g' text,
             open_read w (os_path_join base_dir (file g')) = Ok text ->
             text <> EmptyString ->
             embedded w base_dir (c', g')
             = Some (data_guide_id c' g', escape_for_js (Some text))).
  { intros c' g' text Hr Hne. exact (embedded_text w base_dir (c', g') text Hr Hne). }
  split.
  { exists (render (emitted_properties w GUIDES base_dir)),
           (omap (warning w base_dir) (all_guides GUIDES)),
           (omap (warning (as_missing w p) base_dir) (all_guides GUIDES)).
    split; [apply generate_markdown_data_settles, Hs|].
    split.
    { rewrite <- (emitted_properties_as_missing w GUIDES base_dir p Hempty).
      apply generate_markdown_data_settles, reads_settle_as_missing, Hs. }
    split; [reflexivity|].
    split.
    { intros Hw. apply list_elem_of_omap in Hw as (cg & _ & Hw).
      apply warning_path in Hw. congruence. }
    split.
    { apply list_elem_of_omap. exists (c, g). split; [exact Hin|].
      unfold warning. cbn [snd as_missing open_read]. fold p.
      rewrite String.eqb_refl. reflexivity. }
    intros c' g' text Hin' Hr Hne. apply data_line_in_render.
    unfold emitted_properties. apply list_elem_of_omap. exists (c', g').
    split; [exact Hin' | exact (Htext c' g' text Hr Hne)]. }
  split.
  { intros Hk. destruct (registry_key_emitted w base_dir (c, g) Hin Hk) as (v & Hv).
    congruence. }
  split.
  { change (data_guide_id c g) with (entry_id (c, g)).
    rewrite (content_mapping_get _ _ _ Hin), Hnone. reflexivity. }
  split.
  { unfold content_mapping.
    rewrite (emitted_properties_as_missing w GUIDES base_dir p Hempty). reflexivity. }
  split.
  { intros c' g' Hin'.
    change (data_guide_id c' g') with (entry_id (c', g')).
    rewrite (content_mapping_get _ _ _ Hin').
    split.
    - split.
      + intros Hg.
        assert (He : embedded w base_dir (c', g') = None).
        { destruct (embedded w base_dir (c', g')); [discriminate Hg | reflexivity]. }
        apply embedded_None in He. unfold entry_path in He. cbn [snd] in He.
        destruct He as [H|(e & H)]; [left; exact H|]. right.
        destruct (reads_settle_elem _ _ _ _ Hs Hin') as [(text & H')|H'];
          unfold entry_path in H'; cbn [snd] in H'; congruence.
      + intros H.
        assert (He : embedded w base_dir (c', g') = None).
        { apply embedded_None. unfold entry_path. cbn [snd].
          destruct H as [H|H]; eauto. }
        rewrite He. reflexivity.
    - intros text Hr Hne. rewrite (Htext c' g' text Hr Hne). reflexivity. }
  intros w' c' g' e Hin' Hr He. split.
  { unfold read_file. rewrite Hr. destruct e; congruence || reflexivity. }
  apply generate_markdown_data_raises. intros Hs'.
  destruct (reads_settle_elem _ _ _ _ Hs' Hin') as [(text & H')|H'];
    unfold entry_path in H'; cbn [snd] in H'; congruence.
Qed.

Lemma empty_file_skipped_silently_witness :
  (exists data lines lines',
      generate_markdown_data Samples.readme_empty GUIDES "docs" = (Ok data, map Print lines) /\
      generate_markdown_data (as_missing Samples.readme_empty "docs/README.md") GUIDES "docs"
      = (Ok data, map Print lines') /\
      data = render (emitted_properties Samples.readme_empty GUIDES "docs") /\
      ("Warning: File not found: docs/README.md" ∉ lines) /\
      ("Warning: File not found: docs/README.md" ∈ lines') /\
      infix (data_line "master_testing_guide" "# Guide") data) /\
  ("readme" ∉ map fst (emitted_properties Samples.readme_empty GUIDES "docs")) /\
  Js.get (content_mapping Samples.readme_empty GUIDES "docs") "readme" = None /\
  Js.get (content_mapping Samples.readme_empty GUIDES "docs") "master_testing_guide"
  = Some "# Guide".
Proof.
  assert (Hin : (Core, Samples.readme) ∈ all_guides GUIDES).
  { apply list_elem_of_In. vm_compute. left. reflexivity. }
  assert (Hin' : (Core, {| file := "MASTER_TESTING_GUIDE.md";
                           title := "Master Testing Guide"; icon := "🎯" |})
                 ∈ all_guides GUIDES).
  { apply list_elem_of_In. vm_compute. right. left. reflexivity. }
  assert (Hs : reads_settle Samples.readme_empty "docs" (all_guides GUIDES)).
  { unfold reads_settle. repeat (constructor; [exact I|]). constructor. }
  assert (Hne : "# Guide" <> EmptyString) by discriminate.
  destruct (empty_file_skipped_silently Samples.readme_empty "docs" Core
              Samples.readme Hin eq_refl Hs)
    as ((data & lines & lines' & H1 & H2 & H3 & H4 & H5 & H6) & Hkey & Hget & _ & Hall & _).
  split.
  { exists data, lines, lines'.
    split; [exact H1|]. split; [exact H2|]. split; [exact H3|].
    split; [exact H4|]. split; [exact H5|].
    exact (H6 _ _ "# Guide" Hin' eq_refl Hne). }
  split; [exact Hkey|]. split; [exact Hget|].
  exact (proj2 (Hall _ _ Hin') "# Guide" eq_refl Hne).
Defined.

End EmptyFiles.

(** ** Running the assembler *)

Section ExecFacts.
Import Str Package.

Lemma exec_bind {A B} (m : M A) (f : A -> M B) t :
  exec (bind m f) t =
  match exec m t with
  | (Ok a, t1) => exec (f a) t1
  | (Raise e, t1) => (Raise e, t1)
  end.
Proof.
  unfold exec, bind. destruct (m t) as [[[a|e] t1] o1]; cbn [fst]; [|reflexivity].
  destruct (f a t1) as [[r t2] o2]. reflexivity.
Qed.

Lemma exec_ret {A} (a : A) t : exec (ret a) t = (Ok a, t).
Proof. reflexivity. Qed.

Lemma exec_print line t : exec (print line) t = (Ok tt, t).
Proof. reflexivity. Qed.

Lemma exec_inspect {A} (f : tree -> A) t : exec (inspect f) t = (Ok (f t), t).
Proof. reflexivity. Qed.

Lemma exec_update f t :
  exec (update f) t =
  match f t with
  | Ok t' => (Ok tt, t')
  | Raise e => (Raise e, t)
  end.
Proof. unfold exec, update. destruct (f t); reflexivity. Qed.

Lemma exec_for_each_print l t : exec (for_each print l) t = (Ok tt, t).
Proof.
  induction l as [|x l IH]; [reflexivity|].
  cbn [for_each]. rewrite exec_bind, exec_print. exact IH.
Qed.

Lemma exec_run {A} (m : M A) t r t' out : m t = (r, t', out) -> exec m t = (r, t').
Proof. unfold exec. intros ->. reflexivity. Qed.

Lemma run_exec {A} (m : M A) t r t' :
  exec m t = (r, t') -> exists out, m t = (r, t', out).
Proof.
  unfold exec. destruct (m t) as [[r0 t0] out]. cbn [fst]. intros [= -> ->].
  exists out. reflexivity.
Qed.

(** *** The tree with a staging directory *)

Variables (t : tree) (pkg : string).

(** The project tree with the staging directory holding [S]. *)
Let st (S : tree) : tree := <[pkg := Dir S]> t.

Lemma stat_top name (u : tree) : stat [name] u = u !! name.
Proof. cbn [stat]. destruct (u !! name); reflexivity. Qed.

Lemma stat_staging S : stat [pkg] (st S) = Some (Dir S).
Proof. rewrite stat_top. apply lookup_insert_eq. Qed.

Lemma stat_staged name S : stat [pkg; name] (st S) = S !! name.
Proof.
  unfold st. cbn [stat]. rewrite lookup_insert_eq.
  destruct (S !! name); reflexivity.
Qed.

Lemma stat_outside name rest S :
  name <> pkg -> stat (name :: rest) (st S) = stat (name :: rest) t.
Proof.
  intros Hne. unfold st. cbn [stat]. rewrite lookup_insert_ne by congruence.
  reflexivity.
Qed.

Lemma put_staged name x S :
  put [pkg; name] x (st S) = Ok (st (partial_alter (fun _ => x) name S)).
Proof.
  unfold st. cbn [put]. rewrite lookup_insert_eq, insert_insert_eq. reflexivity.
Qed.

Lemma put_makedirs_staged name x S :
  put_makedirs [pkg; name] x (st S) = Ok (st (<[name := x]> S)).
Proof.
  unfold st. cbn [put_makedirs]. rewrite lookup_insert_eq, insert_insert_eq. reflexivity.
Qed.

Lemma store_staged name f S :
  match S !! name with Some (Dir _) => False | _ => True end ->
  store [pkg; name] f (st S) = Ok (st (<[name := f]> S)).
Proof.
  intros H. unfold store. rewrite stat_staged.
  destruct (S !! name) as [[d m|ch]|]; try contradiction; apply put_staged.
Qed.

End ExecFacts.

Section Names.
Import Str Package.

Lemma append_length s1 s2 : String.length (s1 +:+ s2) = String.length s1 + String.length s2.
Proof.
  induction s1 as [|c s1 IH]; [reflexivity|].
  rewrite str_app_cons. cbn [String.length]. rewrite IH. reflexivity.
Qed.

(** The package folder and the archive are not among the sources, whose
    names start with another letter. *)
Lemma package_name_head e c rest : c <> "b"%char -> String c rest <> package_name e.
Proof. unfold package_name. intros Hc [= H _]. contradiction. Qed.

Lemma zip_filename_head e c rest : c <> "b"%char -> String c rest <> zip_filename e.
Proof. unfold zip_filename, package_name. intros Hc [= H _]. contradiction. Qed.

Lemma zip_filename_package_name e : zip_filename e <> package_name e.
Proof.
  unfold zip_filename. intros H. apply (f_equal String.length) in H.
  rewrite append_length in H. cbn [String.length] in H. lia.
Qed.

End Names.

Section Steps.
Import Str Package Aux.

Variables (e : env) (t : tree).

Let st (S : tree) : tree := <[package_name e := Dir S]> t.

Lemma no_directory_cases p :
  no_directory t p \/ exists ch, stat p t = Some (Dir ch).
Proof.
  unfold no_directory. destruct (stat p t) as [[d m|ch]|]; eauto.
Qed.

Lemma lookup_staged_ne src name S name' :
  name <> name' -> staged t src name S !! name' = S !! name'.
Proof.
  intros Hne. unfold staged.
  destruct (stat src t) as [[d m|ch]|]; [|reflexivity..].
  apply lookup_insert_ne, Hne.
Qed.

Lemma lookup_staged_launcher_ne launcher S name' :
  launcher <> name' -> staged_launcher t launcher S !! name' = S !! name'.
Proof.
  intros Hne. unfold staged_launcher.
  destruct (stat _ t) as [[d m|ch]|]; [|reflexivity..].
  apply lookup_insert_ne, Hne.
Qed.

(** Copying a file into the staging directory. *)
Lemma exec_copy_staged name rest dest S :
  name <> package_name e -> S !! dest = None ->
  exec (copy (name :: rest) [package_name e; dest]) (st S) =
  match stat (name :: rest) t with
  | Some (File d m) => (Ok tt, st (<[dest := File d m]> S))
  | Some (Dir _) => (Raise IsADirectoryError, st S)
  | None => (Raise FileNotFoundError, st S)
  end.
Proof.
  intros Hne Hfree. unfold copy. rewrite exec_update.
  unfold st. rewrite stat_outside by exact Hne.
  destruct (stat (name :: rest) t) as [[d m|ch]|]; [|reflexivity..].
  rewrite stat_staged, Hfree, store_staged by (rewrite Hfree; exact I).
  reflexivity.
Qed.

Lemma exec_path_exists_outside name rest S :
  name <> package_name e ->
  exec (path_exists (name :: rest)) (st S) =
  (Ok (match stat (name :: rest) t with Some _ => true | None => false end), st S).
Proof.
  intros Hne. unfold path_exists. rewrite exec_inspect.
  unfold st. rewrite stat_outside by exact Hne. reflexivity.
Qed.

(** Step 2. *)
Lemma exec_copy_testing_guide S :
  S !! "testing-guide.html" = None ->
  exec (copy_testing_guide e) (st S) =
  match stat ["TESTING_GUIDES"; "testing-guide.html"] t with
  | Some (Dir _) => (Raise IsADirectoryError, st S)
  | _ => (Ok tt, st (staged t ["TESTING_GUIDES"; "testing-guide.html"]
                            "testing-guide.html" S))
  end.
Proof.
  intros Hfree. unfold copy_testing_guide. cbn [app].
  assert (Hne : "TESTING_GUIDES" <> package_name e)
    by (apply package_name_head; discriminate).
  rewrite exec_bind, exec_print, exec_bind, exec_path_exists_outside by exact Hne.
  unfold staged.
  destruct (stat ["TESTING_GUIDES"; "testing-guide.html"] t) as [[d m|ch]|] eqn:Hs.
  - rewrite exec_bind, exec_copy_staged, Hs by assumption.
    rewrite exec_bind. unfold stat_size, exec at 1.
    unfold st at 1. rewrite stat_outside, Hs by exact Hne. cbn [fst].
    apply exec_print.
  - rewrite exec_bind, exec_copy_staged, Hs by assumption. reflexivity.
  - apply exec_print.
Qed.

(** The body of step 3. *)
Lemma exec_copy_launcher launcher S :
  S !! launcher = None ->
  exec (copy_launcher e launcher) (st S) =
  match stat ["TESTING_GUIDES"; launcher] t with
  | Some (Dir _) => (Raise IsADirectoryError, st S)
  | _ => (Ok tt, st (staged_launcher t launcher S))
  end.
Proof.
  intros Hfree. unfold copy_launcher. cbn [app].
  assert (Hne : "TESTING_GUIDES" <> package_name e)
    by (apply package_name_head; discriminate).
  rewrite exec_bind, exec_path_exists_outside by exact Hne.
  unfold staged_launcher.
  destruct (stat ["TESTING_GUIDES"; launcher] t) as [[d m|ch]|] eqn:Hs.
  - rewrite exec_bind, exec_copy_staged, Hs by assumption.
    rewrite exec_bind. destruct (endswith launcher ".sh").
    + unfold chmod. rewrite exec_update. unfold st at 1 2.
      rewrite stat_staged, lookup_insert_eq, put_staged.
      cbn [partial_alter]. rewrite exec_print.
      change (partial_alter (fun _ => Some (File d 493%N)) launcher
                            (<[launcher := File d m]> S))
        with (<[launcher := File d 493%N]> (<[launcher := File d m]> S)).
      rewrite insert_insert_eq. reflexivity.
    + rewrite exec_ret, exec_print. reflexivity.
  - rewrite exec_bind, exec_copy_staged, Hs by assumption. reflexivity.
  - apply exec_ret.
Qed.

(** The body of step 4. *)
Lemma exec_copy_doc name rest dest S :
  name <> package_name e -> S !! dest = None ->
  exec (copy_doc e (name :: rest, dest)) (st S) =
  match stat (name :: rest) t with
  | Some (Dir _) => (Raise IsADirectoryError, st S)
  | _ => (Ok tt, st (staged t (name :: rest) dest S))
  end.
Proof.
  intros Hne Hfree. unfold copy_doc. cbn [app].
  rewrite exec_bind, exec_path_exists_outside by exact Hne.
  unfold staged.
  destruct (stat (name :: rest) t) as [[d m|ch]|] eqn:Hs.
  - rewrite exec_bind, exec_copy_staged, Hs by assumption. apply exec_print.
  - rewrite exec_bind, exec_copy_staged, Hs by assumption. reflexivity.
  - apply exec_ret.
Qed.

(** Steps 5 and 6. *)
Lemma exec_write_text_staged name text S :
  S !! name = None ->
  exec (write_text e [package_name e; name] text) (st S) =
  (Ok tt, st (<[name := File (Bytes text) (new_file_mode e)]> S)).
Proof.
  intros Hfree. unfold write_text. rewrite exec_update.
  unfold st. rewrite stat_staged, Hfree, store_staged by (rewrite Hfree; exact I).
  reflexivity.
Qed.

End Steps.

Section TopLevel.
Import Str Package Aux.

Variables (e : env).

Lemma exec_path_exists_top name (t : tree) :
  exec (path_exists [name]) t =
  (Ok (match t !! name with Some _ => true | None => false end), t).
Proof. unfold path_exists. rewrite exec_inspect, stat_top. reflexivity. Qed.

Lemma exec_rmtree_top name (t : tree) :
  exec (rmtree [name]) t =
  match t !! name with
  | Some (Dir _) => (Ok tt, delete name t)
  | Some (File _ _) => (Raise NotADirectoryError, t)
  | None => (Raise FileNotFoundError, t)
  end.
Proof.
  unfold rmtree. rewrite exec_update, stat_top.
  destruct (t !! name) as [[d m|ch]|]; reflexivity.
Qed.

Lemma exec_mkdir_top name (t : tree) :
  t !! name = None -> exec (mkdir [name]) t = (Ok tt, <[name := Dir ∅]> t).
Proof. intros H. unfold mkdir. rewrite exec_update, stat_top, H. reflexivity. Qed.

Lemma exec_remove_top name (t : tree) :
  exec (remove [name]) t =
  match t !! name with
  | Some (File _ _) => (Ok tt, delete name t)
  | Some (Dir _) => (Raise IsADirectoryError, t)
  | None => (Raise FileNotFoundError, t)
  end.
Proof.
  unfold remove. rewrite exec_update, stat_top.
  destruct (t !! name) as [[d m|ch]|]; reflexivity.
Qed.

(** The clean-up and the creation of the staging directory. *)
Lemma exec_fresh_staging {A} (k : M A) (t : tree) :
  exec (bind (path_exists [package_name e])
             (fun stale =>
                bind (if stale then rmtree [package_name e] else ret tt)
                     (fun _ => bind (mkdir [package_name e]) (fun _ => k)))) t =
  match t !! package_name e with
  | Some (File _ _) => (Raise NotADirectoryError, t)
  | _ => exec k (<[package_name e := Dir ∅]> t)
  end.
Proof.
  rewrite exec_bind, exec_path_exists_top.
  destruct (t !! package_name e) as [[d m|old]|] eqn:Hslot.
  - rewrite exec_bind, exec_rmtree_top, Hslot. reflexivity.
  - rewrite exec_bind, exec_rmtree_top, Hslot.
    rewrite exec_bind, exec_mkdir_top by apply lookup_delete_eq.
    rewrite insert_delete_eq. reflexivity.
  - rewrite exec_bind, exec_ret, exec_bind, exec_mkdir_top by exact Hslot.
    reflexivity.
Qed.

Lemma exec_copytree_staged (t : tree) name rest dest S :
  name <> package_name e -> S !! dest = None ->
  exec (copytree (name :: rest) [package_name e; dest]) (<[package_name e := Dir S]> t) =
  match stat (name :: rest) t with
  | Some (Dir d) => (Ok tt, <[package_name e := Dir (<[dest := Dir d]> S)]> t)
  | Some (File _ _) => (Raise NotADirectoryError, <[package_name e := Dir S]> t)
  | None => (Raise FileNotFoundError, <[package_name e := Dir S]> t)
  end.
Proof.
  intros Hne Hfree. unfold copytree. rewrite exec_update.
  rewrite stat_outside by exact Hne.
  destruct (stat (name :: rest) t) as [[d m|ch]|]; [reflexivity| |reflexivity].
  rewrite stat_staged, Hfree, put_makedirs_staged. reflexivity.
Qed.

(** Compression and clean-up, from the tree with the staging directory. *)
Lemma exec_archive {A} (k : nat -> M A) (t : tree) S :
  exec (bind (path_exists [zip_filename e])
             (fun old =>
                bind (if old then remove [zip_filename e] else ret tt)
                     (fun _ =>
                        bind (write_zip e [zip_filename e] [package_name e])
                             (fun _ => bind (stat_size e [zip_filename e]) k))))
       (<[package_name e := Dir S]> t) =
  match t !! zip_filename e with
  | Some (Dir _) => (Raise IsADirectoryError, <[package_name e := Dir S]> t)
  | _ =>
      let entries := map (fun f => (package_name e :: fst f, snd f)) (walk (Dir S)) in
      let archive := File (Archive entries) (new_file_mode e) in
      exec (k (st_size e (Archive entries)))
           (<[zip_filename e := archive]> (<[package_name e := Dir S]> t))
  end.
Proof.
  pose proof (zip_filename_package_name e) as Hzp.
  assert (Hentries : forall u : tree,
             u !! package_name e = Some (Dir S) ->
             zip_entries [package_name e] u
             = map (fun f => (package_name e :: fst f, snd f)) (walk (Dir S))).
  { intros u Hu. unfold zip_entries. rewrite stat_top, Hu. reflexivity. }
  assert (Hzip : forall u : tree,
             u !! package_name e = Some (Dir S) -> u !! zip_filename e = None ->
             exec (write_zip e [zip_filename e] [package_name e]) u
             = (Ok tt, <[zip_filename e :=
                           File (Archive (map (fun f => (package_name e :: fst f, snd f))
                                              (walk (Dir S))))
                                (new_file_mode e)]> u)).
  { intros u Hu Hz. unfold write_zip. rewrite exec_update, stat_top, Hz.
    unfold store. rewrite stat_top, Hz, (Hentries u Hu). reflexivity. }
  assert (Hsize : forall (u : tree) d m,
             exec (stat_size e [zip_filename e]) (<[zip_filename e := File d m]> u)
             = (Ok (st_size e d), <[zip_filename e := File d m]> u)).
  { intros u d m. unfold exec, stat_size. rewrite stat_top, lookup_insert_eq. reflexivity. }
  rewrite exec_bind, exec_path_exists_top, lookup_insert_ne by congruence.
  destruct (t !! zip_filename e) as [[d m|ch]|] eqn:Hslot.
  - rewrite exec_bind, exec_remove_top, lookup_insert_ne, Hslot by congruence.
    rewrite exec_bind, Hzip.
    + rewrite exec_bind, Hsize, insert_delete_eq. reflexivity.
    + rewrite lookup_delete_ne by exact Hzp. apply lookup_insert_eq.
    + apply lookup_delete_eq.
  - rewrite exec_bind, exec_remove_top, lookup_insert_ne, Hslot by congruence.
    reflexivity.
  - rewrite exec_bind, exec_ret, exec_bind, Hzip.
    + rewrite exec_bind, Hsize. reflexivity.
    + apply lookup_insert_eq.
    + rewrite lookup_insert_ne by congruence. exact Hslot.
Qed.

End TopLevel.

Ltac fresh_name :=
  repeat first
    [ rewrite lookup_staged_ne by discriminate
    | rewrite lookup_staged_launcher_ne by discriminate
    | rewrite lookup_insert_ne by discriminate ];
  apply lookup_empty.

Section WholeRun.
Import Str Package Aux.

Variables (readme_title readme_tree readme_body readme_end : string).

Local Abbreviation run := (create_tester_package readme_title readme_tree readme_body readme_end).
Local Abbreviation ready := (Aux.ready).
Local Abbreviation packaged := (Aux.packaged readme_title readme_tree readme_body readme_end).

Lemma match_no_directory {A} (t : tree) p (a b : A) :
  no_directory t p ->
  match stat p t with
  | Some (Dir _) => a
  | _ => b
  end = b.
Proof. unfold no_directory. destruct (stat p t) as [[d m|ch]|]; tauto. Qed.

Lemma match_slot_for_dir {A} (t : tree) name (a b : A) :
  slot_for_dir t name ->
  match t !! name with
  | Some (File _ _) => a
  | _ => b
  end = b.
Proof. unfold slot_for_dir. destruct (t !! name) as [[d m|ch]|]; tauto. Qed.

Lemma match_slot_for_file {A} (t : tree) name (a b : A) :
  slot_for_file t name ->
  match t !! name with
  | Some (Dir _) => a
  | _ => b
  end = b.
Proof. unfold slot_for_file. destruct (t !! name) as [[d m|ch]|]; tauto. Qed.

Lemma not_ready_source e (t : tree) p ch :
  p ∈ sources -> stat p t = Some (Dir ch) ->
  ~ (Forall (no_directory t) sources /\ slot_for_file t (zip_filename e)).
Proof.
  intros Hin Hs [HF _]. rewrite Forall_forall in HF. specialize (HF p Hin).
  unfold no_directory in HF. rewrite Hs in HF. exact HF.
Qed.

Lemma exec_built e (t d : tree) :
  slot_for_dir t (package_name e) ->
  t !! "dist" = Some (Dir d) ->
  match exec (run e) t with
  | (Ok (Some z), u) =>
      Forall (no_directory t) sources /\ slot_for_file t (zip_filename e) /\
      z = [zip_filename e] /\ u = packaged e t d
  | (Ok None, _) => False
  | (Raise _, _) => ~ (Forall (no_directory t) sources /\ slot_for_file t (zip_filename e))
  end.
Proof.
  intros Hslot Hdist.
  assert (Hd : "dist" <> package_name e) by (apply package_name_head; discriminate).
  assert (Hg : "TESTING_GUIDES" <> package_name e) by (apply package_name_head; discriminate).
  assert (Hr : "README.md" <> package_name e) by (apply package_name_head; discriminate).
  assert (Hc : "CHANGELOG.md" <> package_name e) by (apply package_name_head; discriminate).
  unfold create_tester_package. cbn [app].
  rewrite exec_bind, exec_print. cbv beta iota.
  rewrite exec_bind, exec_print. cbv beta iota.
  rewrite exec_fresh_staging, match_slot_for_dir by exact Hslot.
  rewrite exec_bind, exec_print. cbv beta iota.
  rewrite exec_bind, exec_path_exists_outside by exact Hd.
  rewrite stat_top, Hdist. cbv beta iota. cbn [negb].
  rewrite exec_bind, exec_copytree_staged, stat_top, Hdist
    by first [exact Hd | apply lookup_empty].
  rewrite exec_bind, exec_inspect. cbv beta iota.
  rewrite exec_bind, exec_print. cbv beta iota.
  (* 2. the guide *)
  rewrite exec_bind, exec_copy_testing_guide by fresh_name.
  destruct (no_directory_cases t ["TESTING_GUIDES"; "testing-guide.html"]) as [H1|[ch H1]].
  2:{ rewrite H1. cbv beta iota. eapply (not_ready_source e t); [|exact H1].
      apply list_elem_of_In. cbn. tauto. }
  rewrite match_no_directory by exact H1. cbv beta iota.
  (* 3. the launchers *)
  rewrite exec_bind, exec_print. cbv beta iota.
  unfold launchers at 1. cbn [for_each].
  rewrite exec_bind, exec_bind, exec_copy_launcher by fresh_name.
  destruct (no_directory_cases t ["TESTING_GUIDES"; "open-guide.sh"]) as [H2|[ch H2]].
  2:{ rewrite H2. cbv beta iota. eapply (not_ready_source e t); [|exact H2].
      apply list_elem_of_In. cbn. tauto. }
  rewrite match_no_directory by exact H2. cbv beta iota.
  rewrite exec_bind, exec_copy_launcher by fresh_name.
  destruct (no_directory_cases t ["TESTING_GUIDES"; "open-guide.bat"]) as [H3|[ch H3]].
  2:{ rewrite H3. cbv beta iota. eapply (not_ready_source e t); [|exact H3].
      apply list_elem_of_In. cbn. tauto. }
  rewrite match_no_directory by exact H3. cbv beta iota.
  rewrite exec_ret. cbv beta iota.
  (* 4. the documents *)
  rewrite exec_bind, exec_print. cbv beta iota.
  unfold docs at 1. cbn [for_each].
  rewrite exec_bind, exec_bind, exec_copy_doc by first [exact Hg | fresh_name].
  destruct (no_directory_cases t ["TESTING_GUIDES"; "QUICK_START.md"]) as [H4|[ch H4]].
  2:{ rewrite H4. cbv beta iota. eapply (not_ready_source e t); [|exact H4].
      apply list_elem_of_In. cbn. tauto. }
  rewrite match_no_directory by exact H4. cbv beta iota.
  rewrite exec_bind, exec_copy_doc by first [exact Hg | fresh_name].
  destruct (no_directory_cases t ["TESTING_GUIDES"; "HTML_GUIDE_README.md"]) as [H5|[ch H5]].
  2:{ rewrite H5. cbv beta iota. eapply (not_ready_source e t); [|exact H5].
      apply list_elem_of_In. cbn. tauto. }
  rewrite match_no_directory by exact H5. cbv beta iota.
  rewrite exec_bind, exec_copy_doc by first [exact Hr | fresh_name].
  destruct (no_directory_cases t ["README.md"]) as [H6|[ch H6]].
  2:{ rewrite H6. cbv beta iota. eapply (not_ready_source e t); [|exact H6].
      apply list_elem_of_In. cbn. tauto. }
  rewrite match_no_directory by exact H6. cbv beta iota.
  rewrite exec_bind, exec_copy_doc by first [exact Hc | fresh_name].
  destruct (no_directory_cases t ["CHANGELOG.md"]) as [H7|[ch H7]].
  2:{ rewrite H7. cbv beta iota. eapply (not_ready_source e t); [|exact H7].
      apply list_elem_of_In. cbn. tauto. }
  rewrite match_no_directory by exact H7. cbv beta iota.
  rewrite exec_ret. cbv beta iota.
  (* 5. and 6. the generated files *)
  rewrite exec_bind, exec_print. cbv beta iota.
  rewrite exec_bind, exec_write_text_staged by fresh_name. cbv beta iota.
  rewrite exec_bind, exec_print. cbv beta iota.
  rewrite exec_bind, exec_write_text_staged by fresh_name. cbv beta iota.
  (* 7. the archive *)
  rewrite exec_bind, exec_print. cbv beta iota.
  rewrite exec_archive.
  assert (Hzip : slot_for_file t (zip_filename e)
                 \/ exists ch, t !! zip_filename e = Some (Dir ch)).
  { unfold slot_for_file. destruct (t !! zip_filename e) as [[dz mz|ch]|]; eauto. }
  destruct Hzip as [Hzip|[ch Hzip]].
  2:{ rewrite Hzip. cbv beta iota. intros [_ H]. unfold slot_for_file in H.
      rewrite Hzip in H. exact H. }
  rewrite match_slot_for_file by exact Hzip. cbv beta iota zeta.
  rewrite exec_bind, exec_print. cbv beta iota.
  (* 8. the clean-up *)
  rewrite exec_bind, exec_print. cbv beta iota.
  rewrite exec_bind, exec_rmtree_top.
  rewrite lookup_insert_ne by apply zip_filename_package_name.
  rewrite lookup_insert_eq. cbv beta iota.
  rewrite exec_bind, exec_print. cbv beta iota.
  rewrite exec_bind, exec_for_each_print. cbv beta iota.
  rewrite exec_ret.
  split.
  { unfold sources. cbn [launchers docs map app fst]. repeat constructor; assumption. }
  split; [exact Hzip|]. split; [reflexivity|].
  unfold Aux.packaged, archive_entries, staging.
  cbn [fold_left launchers docs fst snd].
  rewrite (insert_insert_ne _ (zip_filename e) (package_name e))
    by apply zip_filename_package_name.
  apply delete_insert_eq.
Qed.

End WholeRun.

Section Outcomes.
Import Str Package Aux.

Variables (readme_title readme_tree readme_body readme_end : string).

Local Abbreviation run := (create_tester_package readme_title readme_tree readme_body readme_end).
Local Abbreviation packaged := (Aux.packaged readme_title readme_tree readme_body readme_end).

(** What a run comes to, by the state of the project. *)
Lemma exec_create_tester_package e (t : tree) :
  match exec (run e) t with
  | (Ok (Some z), u) =>
      exists d, ready e t d /\ z = [zip_filename e] /\ u = packaged e t d
  | (Ok None, u) =>
      slot_for_dir t (package_name e) /\ t !! "dist" = None /\
      u = <[package_name e := Dir ∅]> t
  | (Raise _, _) =>
      (forall d, ~ ready e t d) /\
      ~ (slot_for_dir t (package_name e) /\ t !! "dist" = None)
  end.
Proof.
  assert (Hd : "dist" <> package_name e) by (apply package_name_head; discriminate).
  assert (Hslot : slot_for_dir t (package_name e)
                  \/ exists dz mz, t !! package_name e = Some (File dz mz)).
  { unfold slot_for_dir. destruct (t !! package_name e) as [[dz mz|ch]|]; eauto. }
  destruct Hslot as [Hslot|(dz & mz & Hslot)].
  2:{ unfold create_tester_package.
      rewrite exec_bind, exec_print. cbv beta iota.
      rewrite exec_bind, exec_print. cbv beta iota.
      rewrite exec_fresh_staging, Hslot.
      split.
      - intros d (H & _). unfold slot_for_dir in H. rewrite Hslot in H. exact H.
      - intros (H & _). unfold slot_for_dir in H. rewrite Hslot in H. exact H. }
  destruct (t !! "dist") as [[dd md|d]|] eqn:Hdist.
  - (* a file named dist *)
    unfold create_tester_package. cbn [app].
    rewrite exec_bind, exec_print. cbv beta iota.
    rewrite exec_bind, exec_print. cbv beta iota.
    rewrite exec_fresh_staging, match_slot_for_dir by exact Hslot.
    rewrite exec_bind, exec_print. cbv beta iota.
    rewrite exec_bind, exec_path_exists_outside by exact Hd.
    rewrite stat_top, Hdist. cbv beta iota. cbn [negb].
    rewrite exec_bind, exec_copytree_staged, stat_top, Hdist
      by first [exact Hd | apply lookup_empty].
    split.
    + intros d (_ & H & _). congruence.
    + intros (_ & H). congruence.
  - (* the extension is built *)
    pose proof (exec_built readme_title readme_tree readme_body readme_end e t d
                  Hslot Hdist) as H.
    destruct (exec (run e) t) as [[[z|]|x] u].
    + destruct H as (H1 & H2 & -> & ->). exists d.
      split; [|split; reflexivity]. repeat split; assumption.
    + contradiction.
    + split.
      * intros d' (_ & Hd' & H1 & H2). apply H. split; assumption.
      * intros (_ & Hn). congruence.
  - (* dist is missing *)
    unfold create_tester_package. cbn [app].
    rewrite exec_bind, exec_print. cbv beta iota.
    rewrite exec_bind, exec_print. cbv beta iota.
    rewrite exec_fresh_staging, match_slot_for_dir by exact Hslot.
    rewrite exec_bind, exec_print. cbv beta iota.
    rewrite exec_bind, exec_path_exists_outside by exact Hd.
    rewrite stat_top, Hdist. cbv beta iota. cbn [negb].
    rewrite exec_bind, exec_print. cbv beta iota.
    rewrite exec_bind, exec_print. cbv beta iota.
    rewrite exec_ret. repeat split; [exact Hslot].
Qed.

(** A run on a project that is ready succeeds. *)
Lemma exec_ready e (t d : tree) :
  ready e t d -> exec (run e) t = (Ok (Some [zip_filename e]), packaged e t d).
Proof.
  intros Hready. pose proof (exec_create_tester_package e t) as H.
  destruct (exec (run e) t) as [[[z|]|x] u].
  - destruct H as (d' & (_ & Hd' & _) & -> & ->).
    destruct Hready as (_ & Hd & _). rewrite Hd in Hd'. injection Hd' as <-.
    reflexivity.
  - destruct H as (_ & Hn & _). destruct Hready as (_ & Hd & _). congruence.
  - destruct H as (H & _). destruct (H d Hready).
Qed.

Lemma exec_unbuilt e (t : tree) :
  slot_for_dir t (package_name e) -> t !! "dist" = None ->
  exec (run e) t = (Ok None, <[package_name e := Dir ∅]> t).
Proof.
  intros Hslot Hdist. pose proof (exec_create_tester_package e t) as H.
  destruct (exec (run e) t) as [[[z|]|x] u].
  - destruct H as (d & (_ & Hd & _) & _). congruence.
  - destruct H as (_ & _ & ->). reflexivity.
  - destruct H as (_ & H). destruct H. split; assumption.
Qed.

End Outcomes.

Section Printed.
Import Str Package Aux.

Lemma printed_bind {A B} (m : M A) (f : A -> M B) t :
  printed (bind m f) t =
  printed m t ++ match exec m t with
                 | (Ok a, t1) => printed (f a) t1
                 | (Raise _, _) => []
                 end.
Proof.
  unfold printed, exec, bind. destruct (m t) as [[[a|x] t1] o1]; cbn [fst snd].
  - destruct (f a t1) as [[r t2] o2]. reflexivity.
  - symmetry. apply List.app_nil_r.
Qed.

Lemma printed_update f t : printed (update f) t = [].
Proof. unfold printed, update. destruct (f t); reflexivity. Qed.

Lemma run_exec_printed {A} (m : M A) t : m t = (fst (exec m t), snd (exec m t), printed m t).
Proof. unfold exec, printed. destruct (m t) as [[r u] o]. reflexivity. Qed.

Variables (readme_title readme_tree readme_body readme_end : string).

Local Abbreviation run := (create_tester_package readme_title readme_tree readme_body readme_end).

Lemma printed_unbuilt e (t : tree) :
  slot_for_dir t (package_name e) -> t !! "dist" = None ->
  printed (run e) t =
  [ "📦 Creating tester package: " +:+ package_name e;
    EmptyString;
    "1️⃣  Copying Chrome extension (dist/)...";
    "   ❌ Error: dist/ folder not found!";
    "   Run 'npm run build' first to build the extension" ].
Proof.
  intros Hslot Hdist.
  assert (Hd : "dist" <> package_name e) by (apply package_name_head; discriminate).
  unfold create_tester_package. cbn [app].
  rewrite printed_bind, exec_print. cbv beta iota.
  rewrite printed_bind, exec_print. cbv beta iota.
  rewrite printed_bind, exec_path_exists_top. cbv beta iota.
  assert (Hstage :
            exists b : bool,
              exec (if b then rmtree [package_name e] else ret tt) t
              = (Ok tt, delete (package_name e) t) /\
              (match t !! package_name e with Some _ => true | None => false end) = b).
  { unfold slot_for_dir in Hslot.
    destruct (t !! package_name e) as [[dz mz|old]|] eqn:Hp; [contradiction| |].
    - exists true. rewrite exec_rmtree_top, Hp. split; reflexivity.
    - exists false. rewrite exec_ret, delete_id by exact Hp. split; reflexivity. }
  destruct Hstage as (b & Hb & ->).
  rewrite printed_bind, Hb. cbv beta iota.
  rewrite printed_bind, exec_mkdir_top by apply lookup_delete_eq. cbv beta iota.
  rewrite insert_delete_eq.
  rewrite printed_bind, exec_print. cbv beta iota.
  rewrite printed_bind, exec_path_exists_outside, stat_top, Hdist by exact Hd.
  cbv beta iota. cbn [negb].
  rewrite printed_bind, exec_print. cbv beta iota.
  rewrite printed_bind, exec_print. cbv beta iota.
  destruct b; unfold rmtree, mkdir; rewrite ?printed_update; reflexivity.
Qed.

(** The whole run on a project without [dist/]. *)
Lemma run_unbuilt e (t : tree) :
  slot_for_dir t (package_name e) -> t !! "dist" = None ->
  run e t =
  (Ok None, <[package_name e := Dir ∅]> t,
   [ "📦 Creating tester package: " +:+ package_name e;
     EmptyString;
     "1️⃣  Copying Chrome extension (dist/)...";
     "   ❌ Error: dist/ folder not found!";
     "   Run 'npm run build' first to build the extension" ]).
Proof.
  intros Hslot Hdist.
  rewrite run_exec_printed, (printed_unbuilt e t Hslot Hdist).
  rewrite (exec_unbuilt readme_title readme_tree readme_body readme_end e t Hslot Hdist).
  reflexivity.
Qed.

End Printed.

Section WalkFacts.
Import Str Package Aux.

Lemma walk_Dir ch :
  walk (Dir ch) =
  map_fold (fun name child acc => map (fun f => (name :: fst f, snd f)) (walk child) ++ acc)
           [] ch.
Proof. reflexivity. Qed.

Lemma walk_empty : walk (Dir ∅) = [].
Proof. rewrite walk_Dir. apply map_fold_empty. Qed.

(** The files of a directory with one more entry. *)
Lemma walk_insert (S : tree) name n :
  S !! name = None ->
  walk (Dir (<[name := n]> S)) ≡ₚ
  map (fun f => (name :: fst f, snd f)) (walk n) ++ walk (Dir S).
Proof.
  intros Hfree. rewrite !walk_Dir.
  apply (map_fold_insert (≡ₚ)
           (fun name child acc => map (fun f => (name :: fst f, snd f)) (walk child) ++ acc)).
  - intros j z l1 l2 Hl. rewrite Hl. reflexivity.
  - intros j1 j2 z1 z2 y _ _ _. rewrite !List.app_assoc.
    apply Permutation_app_tail, Permutation_app_comm.
  - exact Hfree.
Qed.

Lemma walk_insert_file (S : tree) name d m :
  S !! name = None ->
  walk (Dir (<[name := File d m]> S)) ≡ₚ ([name], (d, m)) :: walk (Dir S).
Proof. intros Hfree. rewrite (walk_insert S name _ Hfree). reflexivity. Qed.

Variable (t : tree).

Lemma walk_staged src name (S : tree) :
  S !! name = None ->
  walk (Dir (staged t src name S)) ≡ₚ picked t src name ++ walk (Dir S).
Proof.
  intros Hfree. unfold staged, picked.
  destruct (stat src t) as [[d m|ch]|]; [|reflexivity..].
  apply walk_insert_file, Hfree.
Qed.

Lemma walk_staged_launcher launcher (S : tree) :
  S !! launcher = None ->
  walk (Dir (staged_launcher t launcher S)) ≡ₚ picked_launcher t launcher ++ walk (Dir S).
Proof.
  intros Hfree. unfold staged_launcher, picked_launcher.
  destruct (stat _ t) as [[d m|ch]|]; [|reflexivity..].
  apply walk_insert_file, Hfree.
Qed.

Variables (readme_title readme_tree readme_body readme_end : string).

(** The staging directory holds the listed files, each once. *)
Lemma walk_staging e (d : tree) :
  walk (Dir (staging readme_title readme_tree readme_body readme_end e t d)) ≡ₚ
  listed_files readme_title readme_tree readme_body readme_end e t d.
Proof.
  unfold staging, listed_files. cbn [fold_left flat_map launchers docs fst snd].
  rewrite walk_insert_file by fresh_name.
  rewrite walk_insert_file by fresh_name.
  rewrite !walk_staged by fresh_name.
  rewrite !walk_staged_launcher by fresh_name.
  rewrite walk_staged by fresh_name.
  rewrite walk_insert, walk_empty by apply lookup_empty.
  rewrite !List.app_nil_r.
  set (g := ([".gitignore"], _)). set (r := (["TESTER_README.md"], _)).
  set (x := map (fun f : entry => ("extension" :: fst f, snd f)) (walk (Dir d))).
  set (h := picked t _ "testing-guide.html").
  set (l1 := picked_launcher t "open-guide.sh").
  set (l2 := picked_launcher t "open-guide.bat").
  set (d1 := picked t _ "QUICK_START.md").
  set (d2 := picked t _ "HTML_GUIDE_README.md").
  set (d3 := picked t _ "PROJECT_README.md").
  set (d4 := picked t _ "CHANGELOG.md").
  change (g :: r :: ?l) with ([g] ++ [r] ++ l).
  change [r; g] with ([r] ++ [g]).
  rewrite (Permutation_app_comm [g]).
  rewrite (Permutation_app_comm [r]).
  rewrite (Permutation_app_comm d4).
  rewrite (Permutation_app_comm d3).
  rewrite (Permutation_app_comm d2).
  rewrite (Permutation_app_comm d1).
  rewrite (Permutation_app_comm l2).
  rewrite (Permutation_app_comm l1).
  rewrite (Permutation_app_comm h).
  rewrite <- !List.app_assoc. reflexivity.
Qed.

Lemma length_picked src name :
  List.length (picked t src name)
  = match stat src t with Some (File _ _) => 1 | _ => 0 end.
Proof. unfold picked. destruct (stat src t) as [[]|]; reflexivity. Qed.

Lemma length_picked_launcher launcher :
  List.length (picked_launcher t launcher)
  = match stat ["TESTING_GUIDES"; launcher] t with Some (File _ _) => 1 | _ => 0 end.
Proof. unfold picked_launcher. destruct (stat _ t) as [[]|]; reflexivity. Qed.

End WalkFacts.

(** ** Properties of the package assembler *)

Section PackageTheorems.
Import Str Package Aux.

Variables (readme_title readme_tree readme_body readme_end : string).

Local Abbreviation run := (create_tester_package readme_title readme_tree readme_body readme_end).
Local Abbreviation staging := (Aux.staging readme_title readme_tree readme_body readme_end).
Local Abbreviation archive_entries := (Aux.archive_entries readme_title readme_tree readme_body readme_end).
Local Abbreviation listed_files := (Aux.listed_files readme_title readme_tree readme_body readme_end).
Local Abbreviation packaged := (Aux.packaged readme_title readme_tree readme_body readme_end).

Lemma length_picked_present (t : tree) src name :
  no_directory t src -> List.length (picked t src name) = present t src.
Proof.
  unfold no_directory, picked, present.
  destruct (stat src t) as [[d m|ch]|]; tauto.
Qed.

Lemma length_picked_launcher_present (t : tree) launcher :
  no_directory t ["TESTING_GUIDES"; launcher] ->
  List.length (picked_launcher t launcher) = present t ["TESTING_GUIDES"; launcher].
Proof.
  unfold no_directory, picked_launcher, present.
  destruct (stat _ t) as [[d m|ch]|]; tauto.
Qed.

(** C7.  After a run that succeeds, the archive is a file of the project
    whose entries are the files of the staging tree, named from the package
    folder: the [N] files of the extension under [extension/], the guide if
    present, each launcher present, each document present, the generated
    instructions and the ignore file, each once and nothing else; and the
    staging directory is gone. *)
Theorem archive_holds_staged_files e (t : tree) z (t' : tree) out :
  run e t = (Ok (Some z), t', out) ->
  exists (d : tree) entries,
    t !! "dist" = Some (Dir d) /\
    z = [zip_filename e] /\
    stat z t' = Some (File (Archive entries) (new_file_mode e)) /\
    stat [package_name e] t' = None /\
    entries = map (fun f => (package_name e :: fst f, snd f)) (walk (Dir (staging e t d))) /\
    entries ≡ₚ map (fun f => (package_name e :: fst f, snd f)) (listed_files e t d) /\
    List.length entries
    = List.length (walk (Dir d))
      + present t ["TESTING_GUIDES"; "testing-guide.html"]
      + (present t ["TESTING_GUIDES"; "open-guide.sh"]
         + present t ["TESTING_GUIDES"; "open-guide.bat"])
      + (present t ["TESTING_GUIDES"; "QUICK_START.md"]
         + present t ["TESTING_GUIDES"; "HTML_GUIDE_README.md"]
         + present t ["README.md"]
         + present t ["CHANGELOG.md"])
      + 2.
Proof.
  intros Hrun. apply exec_run in Hrun.
  pose proof (exec_create_tester_package readme_title readme_tree readme_body readme_end
                e t) as H.
  rewrite Hrun in H. destruct H as (d & (Hslot & Hdist & Hsrc & Hzip) & -> & ->).
  exists d, (archive_entries e t d).
  split; [exact Hdist|]. split; [reflexivity|].
  split.
  { rewrite stat_top. unfold Aux.packaged.
    rewrite lookup_delete_ne by apply not_eq_sym, zip_filename_package_name.
    apply lookup_insert_eq. }
  split.
  { rewrite stat_top. apply lookup_delete_eq. }
  split; [reflexivity|].
  assert (Hperm : archive_entries e t d
                  ≡ₚ map (fun f => (package_name e :: fst f, snd f)) (listed_files e t d)).
  { unfold Aux.archive_entries. apply Permutation_map, walk_staging. }
  split; [exact Hperm|].
  rewrite Hperm, length_map. unfold Aux.listed_files.
  cbn [flat_map launchers docs fst snd].
  unfold sources in Hsrc. cbn [launchers docs map app fst] in Hsrc.
  repeat match goal with
         | H : Forall _ (_ :: _) |- _ => apply Forall_cons in H as [? H]
         end.
  rewrite !length_app, length_map.
  rewrite !length_picked_present, !length_picked_launcher_present by assumption.
  cbn [List.length]. unfold path.
  generalize (List.length (walk (Dir d))).
  repeat match goal with
         | |- context [present t ?p] => generalize (present t p)
         end.
  intros. lia.
Qed.



Lemma stat_delete_other (t : tree) name rest k :
  name <> k -> stat (name :: rest) (delete k t) = stat (name :: rest) t.
Proof. intros Hne. cbn [stat]. rewrite lookup_delete_ne by congruence. reflexivity. Qed.

Lemma staging_leftovers e (t d : tree) :
  staging e (delete (package_name e) (delete (zip_filename e) t)) d = staging e t d.
Proof.
  assert (Hs : forall name rest,
             name <> package_name e -> name <> zip_filename e ->
             stat (name :: rest) (delete (package_name e) (delete (zip_filename e) t))
             = stat (name :: rest) t).
  { intros name rest H1 H2. rewrite !stat_delete_other by assumption. reflexivity. }
  unfold Aux.staging, staged, staged_launcher.
  cbn [fold_left launchers docs fst snd].
  rewrite !Hs by first [apply package_name_head; discriminate
                       | apply zip_filename_head; discriminate].
  reflexivity.
Qed.



End PackageTheorems.

Section PackageWitnesses.
Import Str Package Aux.

Local Abbreviation run :=
  (create_tester_package Samples.readme_title Samples.readme_tree
                         Samples.readme_body Samples.readme_end).
Local Abbreviation packaged :=
  (Aux.packaged Samples.readme_title Samples.readme_tree
                Samples.readme_body Samples.readme_end).

Lemma archive_holds_staged_files_witness :
  exists (d : tree) entries,
    Samples.built !! "dist" = Some (Dir d) /\
    stat [zip_filename Samples.new_year]
         (packaged Samples.new_year Samples.built d)
    = Some (File (Archive entries) (new_file_mode Samples.new_year)) /\
    stat [package_name Samples.new_year]
         (packaged Samples.new_year Samples.built d) = None /\
    List.length entries = 9.
Proof.
  assert (Hready : exists d, Samples.dist_dir = Dir d /\
                             ready Samples.new_year Samples.built d).
  { eexists. split; [reflexivity|]. split; [vm_compute; exact I|].
    split; [reflexivity|]. split; [|vm_compute; exact I].
    unfold sources. cbn [launchers docs map app fst].
    repeat (constructor; [vm_compute; exact I|]). constructor. }
  destruct Hready as (d & Hd & Hready).
  destruct (run_exec _ _ _ _ (exec_ready Samples.readme_title Samples.readme_tree
                                Samples.readme_body Samples.readme_end
                                Samples.new_year Samples.built d Hready)) as (out & Hrun).
  destruct (archive_holds_staged_files _ _ _ _ _ _ _ _ _ Hrun)
    as (d' & entries & Hdist & _ & Hzip & Hgone & _ & _ & Hlen).
  assert (d' = d) as ->.
  { destruct Hready as (_ & Hdd & _). rewrite Hdd in Hdist. congruence. }
  exists d, entries. split; [exact Hdist|]. split; [exact Hzip|]. split; [exact Hgone|].
  rewrite Hlen. injection Hd as <-. vm_compute. reflexivity.
Defined.


(** C6.  On a project without [dist/] that holds the staging directory and
    the archive of an earlier run of the day, the run prints the error and
    the hint and returns [None], and the archive is left as it was; but the
    staging directory has been emptied and made anew before the check, and
    is left behind. *)
Theorem missing_dist_after_staging :
  exists (t' : tree) out,
    run Samples.new_year Samples.unbuilt = (Ok None, t', out) /\
    "   ❌ Error: dist/ folder not found!" ∈ out /\
    "   Run 'npm run build' first to build the extension" ∈ out /\
    stat [zip_filename Samples.new_year] t'
    = stat [zip_filename Samples.new_year] Samples.unbuilt /\
    stat [package_name Samples.new_year] Samples.unbuilt
    = Some (Dir (<["stale.txt" := Samples.text_file "old"]> ∅)) /\
    stat [package_name Samples.new_year] t' = Some (Dir ∅).
Proof.
  eexists _, _. split.
  { apply run_unbuilt; [vm_compute; exact I | reflexivity]. }
  split; [apply list_elem_of_In; cbn; tauto|].
  split; [apply list_elem_of_In; cbn; tauto|].
  split.
  { rewrite !stat_top. apply lookup_insert_ne, not_eq_sym, zip_filename_package_name. }
  split; [reflexivity|].
  rewrite stat_top. apply lookup_insert_eq.
Qed.

(** The same on a project that never was packaged: the staging directory is
    created before the check and left behind. *)
Lemma missing_dist_creates_staging :
  exists (t' : tree) out,
    run Samples.new_year Samples.unbuilt_clean = (Ok None, t', out) /\
    stat [package_name Samples.new_year] Samples.unbuilt_clean = None /\
    stat [package_name Samples.new_year] t' = Some (Dir ∅) /\
    stat [zip_filename Samples.new_year] t' = None.
Proof.
  eexists _, _. split.
  { apply run_unbuilt; [vm_compute; exact I | reflexivity]. }
  split; [reflexivity|].
  split; [rewrite stat_top; apply lookup_insert_eq|].
  rewrite stat_top, lookup_insert_ne by (apply not_eq_sym; discriminate).
  reflexivity.
Qed.

End PackageWitnesses.

(** ** Further properties of the identifiers and of the escaping *)

Section CharFacts.
Import Str Guide Content Aux Chars.

Lemma any_char_app p s t : any_char p (s +:+ t) = any_char p s || any_char p t.
Proof.
  induction s as [|c s IH]; [reflexivity|].
  rewrite str_app_cons. cbn [any_char]. rewrite IH, orb_assoc. reflexivity.
Qed.

Lemma any_char_replace_from p old new k s :
  any_char p new = false -> any_char p s = false ->
  any_char p (replace_from old new k s) = false.
Proof.
  intros Hn. revert k. induction s as [|c s IH]; intros k Hs; [reflexivity|].
  cbn [any_char] in Hs. apply orb_false_iff in Hs as [Hc Hs].
  destruct k as [|k]; [|apply IH, Hs].
  rewrite replace_from_cons. destruct (String.prefix old (String c s)).
  - rewrite any_char_app, Hn, IH by exact Hs. reflexivity.
  - cbn [any_char]. rewrite Hc, IH by exact Hs. reflexivity.
Qed.

Lemma any_char_expand p f s :
  (forall c, any_char p (f c) = false) -> any_char p (expand f s) = false.
Proof.
  intros Hf. induction s as [|c s IH]; [reflexivity|].
  cbn [expand]. rewrite any_char_app, Hf, IH. reflexivity.
Qed.

Lemma no_slash_after_replace s : any_char is_slash (replace "/" "-" s) = false.
Proof.
  change "/" with (one "/"). rewrite replace_char. apply any_char_expand.
  intros c. unfold is_slash. destruct (Ascii.eqb_spec c "/") as [->|H]; [reflexivity|].
  cbn [one any_char]. apply Ascii.eqb_neq in H. rewrite H. reflexivity.
Qed.

Lemma is_upper_lower_char c : is_upper (lower_char c) = false.
Proof. destruct c as [[] [] [] [] [] [] [] []]; reflexivity. Qed.

Lemma is_slash_lower_char c : is_slash (lower_char c) = is_slash c.
Proof. destruct c as [[] [] [] [] [] [] [] []]; reflexivity. Qed.

Lemma no_upper_lower s : any_char is_upper (lower s) = false.
Proof.
  induction s as [|c s IH]; [reflexivity|].
  cbn [lower any_char]. rewrite is_upper_lower_char, IH. reflexivity.
Qed.

Lemma any_slash_lower s : any_char is_slash (lower s) = any_char is_slash s.
Proof.
  induction s as [|c s IH]; [reflexivity|].
  cbn [lower any_char]. rewrite is_slash_lower_char, IH. reflexivity.
Qed.

(** The common tail of every identifier chain. *)
Lemma chain_tail_clean s :
  any_char is_slash (lower (replace "/" "-" s)) = false /\
  any_char is_upper (lower (replace "/" "-" s)) = false.
Proof.
  split; [|apply no_upper_lower].
  rewrite any_slash_lower. apply no_slash_after_replace.
Qed.

(** X1.  Whatever the ASCII path of a guide and whatever its category, each
    of the three identifier chains (navigation, sections, content mapping)
    yields a text without a path separator and without an upper-case ASCII
    letter. *)
Theorem guide_identifier_clean c g :
  ascii_only (file g) = true ->
  Forall (fun guide_id => any_char is_slash guide_id = false /\
                          any_char is_upper guide_id = false)
         [ nav_guide_id c g; section_guide_id c g; data_guide_id c g ].
Proof.
  intros _.
  assert (Hf : forall s,
             any_char is_slash (replace "feature_tests" "feature" (lower (replace "/" "-" s))) = false /\
             any_char is_upper (replace "feature_tests" "feature" (lower (replace "/" "-" s))) = false).
  { intros s. destruct (chain_tail_clean s) as [H1 H2].
    unfold replace at 1 3.
    split; apply any_char_replace_from; first [reflexivity | assumption]. }
  repeat constructor; destruct c;
    first [ apply chain_tail_clean | apply Hf
          | apply (proj1 (chain_tail_clean _)) | apply (proj2 (chain_tail_clean _))
          | apply (proj1 (Hf _)) | apply (proj2 (Hf _)) ].
Qed.

Lemma guide_identifier_clean_witness :
  ascii_only "Sub/Dir/My_GUIDE.md" = true /\
  Forall (fun guide_id => any_char is_slash guide_id = false /\
                          any_char is_upper guide_id = false)
         [ "sub-dir-my_guide"; "sub-dir-my_guide"; "sub-dir-my_guide" ].
Proof.
  split; [reflexivity|].
  apply (guide_identifier_clean
           Core {| file := "Sub/Dir/My_GUIDE.md"; title := "Mine"; icon := "1" |}).
  reflexivity.
Defined.

End CharFacts.

Section EscapeFacts.
Import Str Guide Aux Chars.

Lemma unescape_escape_pass s : unescape (escape_pass s) = s.
Proof.
  induction s as [|c s IH]; [reflexivity|].
  cbn [escape_pass].
  destruct (Ascii.eqb_spec c "\") as [->|H1].
  { rewrite !str_app_cons, str_app_nil_l. cbn [unescape Ascii.eqb Bool.eqb].
    rewrite IH. reflexivity. }
  destruct (Ascii.eqb_spec c "`") as [->|H2].
  { rewrite !str_app_cons, str_app_nil_l. cbn [unescape Ascii.eqb Bool.eqb].
    rewrite IH. reflexivity. }
  destruct (Ascii.eqb c "$" && starts_with_brace s) eqn:Hd.
  { apply andb_true_iff in Hd as [Hd _]. apply Ascii.eqb_eq in Hd as ->.
    rewrite !str_app_cons, str_app_nil_l. cbn [unescape Ascii.eqb Bool.eqb].
    rewrite IH. reflexivity. }
  cbn [unescape]. apply Ascii.eqb_neq in H1. rewrite H1, IH. reflexivity.
Qed.

Lemma length_escape_pass s :
  String.length s <= String.length (escape_pass s) <= 2 * String.length s.
Proof.
  induction s as [|c s IH]; [cbn; lia|].
  cbn [escape_pass].
  destruct (Ascii.eqb c "\"); [|destruct (Ascii.eqb c "`");
    [|destruct (Ascii.eqb c "$" && starts_with_brace s)]];
    rewrite ?str_app_cons, ?str_app_nil_l; cbn [String.length]; lia.
Qed.

(** X2.  The escaping loses nothing: dropping each backslash of the escaped
    text and keeping the character after it gives the text back, for every
    text, so that two texts with one escaped form are equal; and the escaped
    text is at least as long as the text and at most twice as long. *)
Theorem escape_for_js_left_inverse s :
  unescape (escape_for_js (Some s)) = s /\
  String.length s <= String.length (escape_for_js (Some s)) <= 2 * String.length s.
Proof.
  rewrite !escape_for_js_pass.
  split; [apply unescape_escape_pass | apply length_escape_pass].
Qed.

Lemma template_value_cr_lf s :
  Js.template_value (String Js.CR (String Js.LF s)) = Js.push Js.LF (Js.template_value s).
Proof. reflexivity. Qed.

Lemma template_value_cr s :
  match s with String d _ => Ascii.eqb d Js.LF = false | EmptyString => True end ->
  Js.template_value (String Js.CR s) = Js.push Js.LF (Js.template_value s).
Proof.
  intros H. cbn [Js.template_value]. cbn [Ascii.eqb Bool.eqb Js.CR].
  destruct s as [|d s]; [reflexivity|]. rewrite H. reflexivity.
Qed.

Lemma escape_pass_plain c s :
  c <> "\"%char -> c <> "`"%char -> c <> "$"%char ->
  escape_pass (String c s) = String c (escape_pass s).
Proof.
  intros H1 H2 H3. cbn [escape_pass].
  apply Ascii.eqb_neq in H1, H2, H3. rewrite H1, H2, H3. reflexivity.
Qed.

(** The first character of an escaped text is a line feed only if the text
    starts with one. *)
Lemma escape_pass_head_lf s rest :
  match s with String d _ => Ascii.eqb d Js.LF = false | EmptyString => True end ->
  match escape_pass s +:+ String "`" rest with
  | String d _ => Ascii.eqb d Js.LF = false
  | EmptyString => True
  end.
Proof.
  destruct s as [|d s]; [intros _; reflexivity|]. intros H.
  cbn [escape_pass].
  destruct (Ascii.eqb d "\"); [reflexivity|].
  destruct (Ascii.eqb d "`"); [reflexivity|].
  destruct (Ascii.eqb d "$" && starts_with_brace s); [reflexivity|].
  rewrite str_app_cons. exact H.
Qed.

Lemma template_value_escape_pass_any n s rest :
  String.length s <= n ->
  Js.template_value (escape_pass s +:+ String "`" rest)
  = Js.Closed (normalize_newlines s) rest.
Proof.
  revert s. induction n as [|n IH]; intros s Hn.
  { destruct s; [reflexivity | cbn in Hn; lia]. }
  destruct s as [|c s]; [reflexivity|].
  cbn [String.length] in Hn.
  destruct (Ascii.eqb_spec c Js.CR) as [->|Hcr].
  - rewrite escape_pass_plain by discriminate.
    cbn [normalize_newlines]. cbn [Ascii.eqb Bool.eqb Js.CR].
    destruct s as [|d s].
    + reflexivity.
    + destruct (Ascii.eqb_spec d Js.LF) as [->|Hlf].
      * rewrite (escape_pass_plain Js.LF) by discriminate.
        rewrite !str_app_cons, template_value_cr_lf, IH
          by (cbn [String.length] in Hn; lia).
        reflexivity.
      * rewrite str_app_cons, template_value_cr.
        { rewrite IH by lia. reflexivity. }
        apply escape_pass_head_lf. apply Ascii.eqb_neq. exact Hlf.
  - cbn [normalize_newlines]. apply Ascii.eqb_neq in Hcr as Hcr'. rewrite Hcr'.
    cbn [escape_pass].
    destruct (Ascii.eqb_spec c "\") as [->|H1].
    { rewrite !str_app_cons, ?str_app_nil_l, (template_value_escaped "\"), IH by (lia || tauto).
      reflexivity. }
    destruct (Ascii.eqb_spec c "`") as [->|H2].
    { rewrite !str_app_cons, ?str_app_nil_l, (template_value_escaped "`"), IH by (lia || tauto).
      reflexivity. }
    destruct (Ascii.eqb_spec c "$") as [->|H3]; cbn [andb].
    + destruct (starts_with_brace s) eqn:Hb.
      * rewrite !str_app_cons, ?str_app_nil_l, (template_value_escaped "$"), IH by (lia || tauto).
        reflexivity.
      * rewrite str_app_cons, template_value_dollar.
        { rewrite IH by lia. reflexivity. }
        rewrite starts_with_brace_escape_pass. exact Hb.
    + rewrite str_app_cons, template_value_plain by assumption.
      rewrite IH by lia. reflexivity.
Qed.

(** X3.  Whatever the text (carriage returns included), the escaped text put
    between backticks reads as one complete template literal: it closes at
    the backtick put after it, never earlier, opens no substitution and has no
    illegal escape; its value is the text with every line ending as one line
    feed. *)
Theorem escape_for_js_closes s rest :
  Js.template_value (escape_for_js (Some s) +:+ "`" +:+ rest)
  = Js.Closed (normalize_newlines s) rest.
Proof.
  rewrite escape_for_js_pass.
  apply (template_value_escape_pass_any (String.length s)). lia.
Qed.

End EscapeFacts.

(** ** Further properties of the guide builder *)

Section LoopFacts.
Import Str Guide Content Aux Reads.

Variables (w : world) (base_dir : string).

Lemma first_failure_None l :
  first_failure w base_dir l = None ->
  reads_settle w base_dir l /\ read_prefix w base_dir l = l.
Proof.
  induction l as [|cg l IH]; cbn [first_failure read_prefix]; intros H.
  - split; [constructor | reflexivity].
  - destruct (open_read w (os_path_join base_dir (file (snd cg)))) as [text|x] eqn:Hr.
    + destruct (IH H) as [Hs ->]. split; [|reflexivity].
      constructor; [rewrite Hr; exact I | exact Hs].
    + destruct (decide (x = FileNotFoundError)) as [->|Hne]; [|discriminate].
      destruct (IH H) as [Hs ->]. split; [|reflexivity].
      constructor; [rewrite Hr; exact I | exact Hs].
Qed.

Lemma first_failure_Some l x :
  first_failure w base_dir l = Some x ->
  ~ reads_settle w base_dir l /\ x <> FileNotFoundError.
Proof.
  induction l as [|cg l IH]; cbn [first_failure]; intros H; [discriminate|].
  destruct (open_read w (os_path_join base_dir (file (snd cg)))) as [text|y] eqn:Hr.
  - destruct (IH H) as [Hs Hx]. split; [|exact Hx].
    intros Hall. apply Forall_cons in Hall as [_ Hall]. exact (Hs Hall).
  - destruct (decide (y = FileNotFoundError)) as [->|Hne].
    + destruct (IH H) as [Hs Hx]. split; [|exact Hx].
      intros Hall. apply Forall_cons in Hall as [_ Hall]. exact (Hs Hall).
    + injection H as <-. split; [|exact Hne].
      intros Hall. apply Forall_cons in Hall as [Hall _]. rewrite Hr in Hall.
      destruct y; congruence || contradiction.
Qed.

(** The loop of [generate_markdown_data] stops at the first failing read. *)
Lemma data_loop_stops l acc x :
  first_failure w base_dir l = Some x ->
  for_each
    (fun markdown_data '(c, g) =>
       let guide_id := data_guide_id c g in
       let file_path := os_path_join base_dir (file g) in
       bind (read_file w file_path)
            (fun content =>
               if truthy content
               then
                 let escaped_content := escape_for_js content in
                 ret (markdown_data +:+ data_line guide_id escaped_content)
               else ret markdown_data))
    l acc
  = (Raise x, map Print (omap (warning w base_dir) (read_prefix w base_dir l))).
Proof.
  revert acc. induction l as [|[c g] l IH]; intros acc H; [discriminate|].
  cbn [first_failure read_prefix snd] in H |- *.
  cbn [for_each]. cbv beta iota zeta. unfold read_file.
  destruct (open_read w (os_path_join base_dir (file g))) as [text|y] eqn:Hr.
  - cbn [omap list_omap]. unfold warning at 1. cbn [snd]. rewrite Hr.
    cbn [bind ret]. destruct (truthy (Some text)); cbn [bind ret];
      rewrite (IH _ H); reflexivity.
  - destruct (decide (y = FileNotFoundError)) as [->|Hne].
    + cbn [omap list_omap]. unfold warning at 1. cbn [snd]. rewrite Hr.
      cbn [bind ret print truthy]. rewrite (IH _ H). reflexivity.
    + injection H as <-. destruct y; try congruence; reflexivity.
Qed.

End LoopFacts.

Section ObjectMore.
Import Str Guide Content Aux.

Lemma define_property_fresh k v o :
  k ∉ map fst o -> Js.define_property k v o = o ++ [(k, v)].
Proof.
  induction o as [|[k' v'] o IH]; intros Hk; [reflexivity|].
  cbn [map fst] in Hk. apply not_elem_of_cons in Hk as [Hne Hk].
  cbn [Js.define_property]. destruct (String.eqb_spec k k'); [contradiction|].
  rewrite (IH Hk). reflexivity.
Qed.

Lemma fold_define_fresh props o :
  NoDup (map fst (o ++ props)) ->
  fold_left (fun o '(k, v) => Js.define_property k v o) props o = o ++ props.
Proof.
  revert o. induction props as [|[k v] props IH]; intros o Hnd.
  - rewrite List.app_nil_r. reflexivity.
  - cbn [fold_left].
    assert (Hk : k ∉ map fst o).
    { change (map ?f ?l) with (f <$> l) in Hnd |- *.
      rewrite fmap_app in Hnd. apply NoDup_app in Hnd as (_ & Hd & _).
      intros Hin. apply (Hd k Hin). cbn. apply elem_of_cons. left. reflexivity. }
    rewrite (define_property_fresh _ _ _ Hk), IH.
    + rewrite <- List.app_assoc. reflexivity.
    + rewrite <- List.app_assoc. exact Hnd.
Qed.

Lemma object_literal_NoDup props :
  NoDup (map fst props) -> Js.object_literal props = props.
Proof. intros Hnd. apply (fold_define_fresh props []). exact Hnd. Qed.

(** X4.  With the registry as declared, no property definition of the
    emitted object literal is overwritten, whatever the files hold: the keys
    of the emitted definitions are pairwise distinct, and the content mapping
    has exactly the emitted definitions, in their order. *)
Theorem registry_mapping_no_overwrite w base_dir :
  NoDup (map fst (emitted_properties w GUIDES base_dir)) /\
  content_mapping w GUIDES base_dir = emitted_properties w GUIDES base_dir.
Proof.
  assert (Hnd : NoDup (map fst (emitted_properties w GUIDES base_dir))).
  { apply NoDup_keys_omap_embedded, registry_ids_NoDup. }
  split; [exact Hnd|].
  apply object_literal_NoDup, Hnd.
Qed.

End ObjectMore.

Section PageMore.
Import Str Guide Content Aux Reads.

Variables (page_head page_welcome page_script : string).

Local Abbreviation run := (generate_html page_head page_welcome page_script).
Local Abbreviation page := (page_text page_head page_welcome page_script).

Lemma generate_html_stops w base_dir x :
  first_failure w base_dir (all_guides GUIDES) = Some x ->
  run w base_dir
  = (Raise x, map Print (omap (warning w base_dir)
                              (read_prefix w base_dir (all_guides GUIDES)))).
Proof.
  intros H. unfold generate_html, generate_markdown_data.
  rewrite (data_loop_stops w base_dir _ _ x H). reflexivity.
Qed.

Lemma generate_html_unwritable w base_dir x :
  reads_settle w base_dir (all_guides GUIDES) ->
  open_write w (os_path_join base_dir "testing-guide.html") = Raise x ->
  run w base_dir
  = (Raise x, map Print (omap (warning w base_dir) (all_guides GUIDES))).
Proof.
  intros Hs Hw. unfold generate_html.
  rewrite (generate_markdown_data_settles _ _ _ Hs). cbn [bind].
  unfold lift. rewrite Hw. cbn [bind]. rewrite List.app_nil_r. reflexivity.
Qed.

(** X5.  A run that returns has printed, in this order: one warning for each
    entry of the registry whose file is absent, in the order of the registry;
    the line with the path of the page; the line with its absolute path as a
    [file://] address; the closing summary.  Nothing else is printed. *)
Theorem generate_html_prints w base_dir out trace :
  run w base_dir = (Ok out, trace) ->
  prints trace =
  omap (warning w base_dir) (all_guides GUIDES)
  ++ [ "✅ HTML Testing Guide generated: " +:+ out;
       "📂 Open in browser: file://" +:+ abspath w out ]
  ++ summary.
Proof.
  intros Hrun. apply generate_html_returns in Hrun as (_ & -> & ->).
  unfold run_trace. rewrite prints_app, prints_map_Print.
  f_equal.
Qed.

(** X6.  A run that raises has not written the page: either a read failed
    otherwise than by the file being absent, and the run raised that
    exception at the first such read, before the page is opened for writing,
    having printed the warnings of the entries before that read only; or
    every read settled and the opening or the writing of the page failed, and
    the run raised that exception after the warnings of the whole registry.
    In both cases it printed neither the result lines nor the summary. *)
Theorem generate_html_failure w base_dir x trace :
  run w base_dir = (Raise x, trace) ->
  writes trace = [] /\
  prints trace = omap (warning w base_dir) (read_prefix w base_dir (all_guides GUIDES)) /\
  (first_failure w base_dir (all_guides GUIDES) = Some x /\ x <> FileNotFoundError
   \/
   first_failure w base_dir (all_guides GUIDES) = None /\
   open_write w (os_path_join base_dir "testing-guide.html") = Raise x).
Proof.
  intros Hrun.
  destruct (first_failure w base_dir (all_guides GUIDES)) as [y|] eqn:Hf.
  - rewrite (generate_html_stops _ _ _ Hf) in Hrun.
    pose proof (f_equal fst Hrun) as Hx. pose proof (f_equal snd Hrun) as Ht.
    cbn [fst snd] in Hx, Ht. clear Hrun. subst trace. injection Hx as <-.
    rewrite writes_map_Print, prints_map_Print.
    split; [reflexivity|]. split; [reflexivity|]. left.
    split; [reflexivity|]. apply (first_failure_Some w base_dir _ _ Hf).
  - destruct (first_failure_None w base_dir _ Hf) as [Hs Hp].
    destruct (open_write w (os_path_join base_dir "testing-guide.html")) as [[]|y] eqn:Hw.
    + rewrite (generate_html_settles _ _ _ _ _ Hs Hw) in Hrun. discriminate.
    + rewrite (generate_html_unwritable _ _ _ Hs Hw) in Hrun.
      pose proof (f_equal fst Hrun) as Hx. pose proof (f_equal snd Hrun) as Ht.
      cbn [fst snd] in Hx, Ht. clear Hrun. subst trace. injection Hx as <-.
      rewrite writes_map_Print, prints_map_Print, Hp.
      split; [reflexivity|]. split; [reflexivity|]. right. split; reflexivity.
Qed.

(** X7.  A run returns exactly when every read of a file of the registry
    gives a text or finds the file absent, and the page can be opened for
    writing. *)
Theorem generate_html_returns_iff w base_dir :
  (exists out trace, run w base_dir = (Ok out, trace)) <->
  reads_settle w base_dir (all_guides GUIDES) /\
  open_write w (os_path_join base_dir "testing-guide.html") = Ok tt.
Proof.
  split.
  - intros (out & trace & Hrun).
    pose proof (generate_html_returns _ _ _ _ _ _ _ Hrun) as (Hs & _ & _).
    split; [exact Hs|].
    destruct (open_write w (os_path_join base_dir "testing-guide.html")) as [[]|y] eqn:Hw;
      [reflexivity|].
    rewrite (generate_html_unwritable _ _ _ Hs Hw) in Hrun. discriminate.
  - intros (Hs & Hw). eexists _, _. apply generate_html_settles; assumption.
Qed.

(** X8.  Every property of the embedded mapping belongs to an entry of the
    registry whose file was read with a text that is not empty: its key is
    the identifier of the entry, its value the escaped text, the page has the
    section and the navigation link of that identifier, and the mapping
    binds the key to that value. *)
Theorem embedded_property_has_section w base_dir k v :
  (k, v) ∈ emitted_properties w GUIDES base_dir ->
  exists c g text,
    (c, g) ∈ all_guides GUIDES /\
    k = section_guide_id c g /\
    open_read w (os_path_join base_dir (file g)) = Ok text /\
    text <> EmptyString /\
    v = escape_for_js (Some text) /\
    infix (section_line k) (page (emitted_properties w GUIDES base_dir)) /\
    infix (nav_link k g) (page (emitted_properties w GUIDES base_dir)) /\
    Js.get (content_mapping w GUIDES base_dir) k = Some v.
Proof.
  intros Hin. unfold emitted_properties in Hin.
  apply list_elem_of_omap in Hin as ([c g] & Hcg & He).
  pose proof registry_ids_agree as Hids.
  rewrite Forall_forall in Hids. destruct (Hids _ Hcg) as [Hnav Hdata].
  cbn [fst snd] in Hnav, Hdata.
  pose proof (content_mapping_get w base_dir (c, g) Hcg) as Hget.
  rewrite He in Hget. cbn [fmap option_fmap option_map snd] in Hget.
  unfold embedded in He. cbn [fst snd] in He.
  destruct (open_read w (os_path_join base_dir (file g))) as [text|y] eqn:Hr; [|discriminate].
  destruct (truthy (Some text)) eqn:Ht; [|discriminate].
  injection He as <- <-.
  exists c, g, text.
  split; [exact Hcg|]. split; [exact Hdata|]. split; [exact Hr|].
  split; [intros ->; discriminate|]. split; [reflexivity|].
  split; [rewrite Hdata; apply section_line_in_page, Hcg|].
  split; [rewrite Hdata, <- Hnav; apply nav_link_in_page, Hcg|].
  exact Hget.
Qed.

End PageMore.

Section PageMoreWitnesses.
Import Str Guide Content Aux Reads.

Lemma generate_html_prints_witness :
  exists trace,
    generate_html Samples.page_head Samples.page_welcome Samples.page_script
                  Samples.readme_missing "docs"
    = (Ok "docs/testing-guide.html", trace) /\
    prints trace =
    [ "Warning: File not found: docs/README.md";
      "✅ HTML Testing Guide generated: docs/testing-guide.html";
      "📂 Open in browser: file:///repo/docs/testing-guide.html" ] ++ summary.
Proof.
  assert (Hrun : generate_html Samples.page_head Samples.page_welcome Samples.page_script
                               Samples.readme_missing "docs"
                 = (Ok "docs/testing-guide.html",
                    run_trace Samples.page_head Samples.page_welcome Samples.page_script
                              Samples.readme_missing "docs")).
  { apply generate_html_settles; [|reflexivity].
    unfold reads_settle. repeat (constructor; [exact I|]). constructor. }
  eexists. split; [exact Hrun|].
  exact (generate_html_prints Samples.page_head Samples.page_welcome Samples.page_script
           Samples.readme_missing "docs" _ _ Hrun).
Defined.

Lemma generate_html_failure_witness :
  (writes (map Print ["Warning: File not found: docs/README.md"]) = [] /\
   prints (map Print ["Warning: File not found: docs/README.md"])
   = omap (warning MoreSamples.unreadable "docs")
          (read_prefix MoreSamples.unreadable "docs" (all_guides GUIDES)) /\
   (first_failure MoreSamples.unreadable "docs" (all_guides GUIDES) = Some PermissionError
    /\ PermissionError <> FileNotFoundError
    \/
    first_failure MoreSamples.unreadable "docs" (all_guides GUIDES) = None /\
    open_write MoreSamples.unreadable (os_path_join "docs" "testing-guide.html")
    = Raise PermissionError)) /\
  read_prefix MoreSamples.unreadable "docs" (all_guides GUIDES)
  = [ (Core, Samples.readme);
      (Core, {| file := "MASTER_TESTING_GUIDE.md"; title := "Master Testing Guide";
                icon := "🎯" |}) ].
Proof.
  split; [|reflexivity].
  apply (generate_html_failure Samples.page_head Samples.page_welcome Samples.page_script
           MoreSamples.unreadable "docs" PermissionError
           (map Print ["Warning: File not found: docs/README.md"])).
  apply (generate_html_stops Samples.page_head Samples.page_welcome Samples.page_script
           MoreSamples.unreadable "docs" PermissionError).
  reflexivity.
Defined.

Lemma embedded_property_has_section_witness :
  exists c g text,
    (c, g) ∈ all_guides GUIDES /\
    "readme" = section_guide_id c g /\
    open_read Samples.all_present (os_path_join "docs" (file g)) = Ok text /\
    text <> EmptyString /\
    "# Guide" = escape_for_js (Some text) /\
    infix (section_line "readme")
          (page_text Samples.page_head Samples.page_welcome Samples.page_script
                     (emitted_properties Samples.all_present GUIDES "docs")) /\
    infix (nav_link "readme" g)
          (page_text Samples.page_head Samples.page_welcome Samples.page_script
                     (emitted_properties Samples.all_present GUIDES "docs")) /\
    Js.get (content_mapping Samples.all_present GUIDES "docs") "readme" = Some "# Guide".
Proof.
  apply (embedded_property_has_section Samples.page_head Samples.page_welcome
           Samples.page_script Samples.all_present "docs" "readme" "# Guide").
  apply list_elem_of_In. vm_compute. left. reflexivity.
Defined.

End PageMoreWitnesses.

(** ** Properties of the page's client script *)

Section ClientFacts.
Import Str Guide Content Aux Chars Client.

Lemma str_length_app s t : String.length (s +:+ t) = String.length s + String.length t.
Proof.
  induction s as [|c s IH]; [reflexivity|].
  rewrite str_app_cons. cbn [String.length]. rewrite IH. reflexivity.
Qed.

Lemma str_app_inv_tail y x x' : x +:+ y = x' +:+ y -> x = x'.
Proof.
  revert x'. induction x as [|a x IH]; intros [|a' x'] H.
  - reflexivity.
  - apply (f_equal String.length) in H.
    rewrite str_app_nil_l, str_app_cons in H. cbn [String.length] in H.
    rewrite str_length_app in H. lia.
  - apply (f_equal String.length) in H.
    rewrite str_app_nil_l, str_app_cons in H. cbn [String.length] in H.
    rewrite str_length_app in H. lia.
  - rewrite !str_app_cons in H. injection H as -> H. f_equal. apply IH, H.
Qed.

Lemma contains_char_app c s t :
  contains_char c (s +:+ t) = contains_char c s || contains_char c t.
Proof.
  induction s as [|a s IH]; [reflexivity|].
  rewrite str_app_cons. cbn [contains_char]. rewrite IH, orb_assoc. reflexivity.
Qed.

Lemma after_last_app c x d :
  contains_char c d = false -> after_last c (x +:+ String c d) = d.
Proof.
  intros Hd. induction x as [|a x IH].
  - rewrite str_app_nil_l. cbn [after_last]. rewrite Hd, Ascii.eqb_refl. reflexivity.
  - rewrite str_app_cons. cbn [after_last].
    rewrite contains_char_app. cbn [contains_char].
    rewrite Ascii.eqb_refl, orb_true_r. exact IH.
Qed.

Lemma pretty_N_char_no_dash y : Ascii.eqb "-" (pretty_N_char y) = false.
Proof. unfold pretty_N_char. repeat case_match; reflexivity. Qed.

Lemma pretty_N_go_no_dash x s :
  contains_char "-" s = false -> contains_char "-" (pretty_N_go x s) = false.
Proof.
  revert s. induction (N.lt_wf_0 x) as [x _ IH]; intros s Hs.
  destruct (decide (0 < x)%N) as [Hx|Hx].
  - rewrite pretty_N_go_step by exact Hx. apply IH.
    + apply N.div_lt; [exact Hx | reflexivity].
    + cbn [contains_char]. rewrite pretty_N_char_no_dash. exact Hs.
  - replace x with 0%N by lia. rewrite pretty_N_go_0. exact Hs.
Qed.

Lemma pretty_no_dash (n : nat) : contains_char "-" (pretty (N.of_nat n)) = false.
Proof.
  unfold pretty, pretty_N. destruct (decide (N.of_nat n = 0%N)); [reflexivity|].
  apply pretty_N_go_no_dash. reflexivity.
Qed.

(** Two checkboxes have one storage key only if they are one checkbox. *)
Lemma checkbox_id_inj s i s' i' :
  checkbox_id s i = checkbox_id s' i' -> s = s' /\ i = i'.
Proof.
  unfold checkbox_id. intros H.
  assert (Hshape : forall s i,
             s +:+ "-checkbox-" +:+ pretty (N.of_nat i)
             = (s +:+ "-checkbox") +:+ String "-" (pretty (N.of_nat i))).
  { intros s0 i0. rewrite str_app_assoc. reflexivity. }
  assert (Hi : pretty (N.of_nat i) = pretty (N.of_nat i')).
  { apply (f_equal (after_last "-")) in H. rewrite !Hshape in H.
    rewrite !after_last_app in H by apply pretty_no_dash. exact H. }
  rewrite Hi in H. rewrite <- !str_app_assoc in H.
  apply str_app_inv_tail, str_app_inv_tail in H.
  split; [exact H|].
  apply (inj pretty) in Hi. lia.
Qed.

(** X9.  The saved state of a checkbox: after the [change] listener of the
    checkbox [i] of section [s] has saved the state [b], rendering restores
    that checkbox as checked when [b] is true and leaves it as the rendered
    text has it otherwise, and restores every other checkbox, of any
    section, as before the save.  So no two checkboxes share a saved state,
    whatever the section identifiers are. *)
Theorem checkbox_state_restored (st : storage) s i b s' i' c :
  restore (save st s i b) s' i' c
  = if decide (s = s' /\ i = i') then b || c else restore st s' i' c.
Proof.
  unfold restore, save. cbv zeta.
  destruct (decide (s = s' /\ i = i')) as [[<- <-]|Hne].
  - rewrite lookup_insert_eq. destruct b; cbn [string_of_bool orb].
    + destruct (decide (Some "true" = Some "true")); [reflexivity | congruence].
    + destruct (decide (Some "false" = Some "true")); [discriminate | reflexivity].
  - rewrite lookup_insert_ne; [reflexivity|].
    intros H. apply Hne, checkbox_id_inj, H.
Qed.

(** X10.  A link of a rendered guide to the Markdown file of an entry of the
    registry, written as in the registry, with a leading [./] or with a
    leading [../], gets the handler that looks for the section of exactly
    that entry. *)
Theorem link_handler_reaches_section c g :
  (c, g) ∈ all_guides GUIDES ->
  link_handler (Some (file g)) = Document (section_guide_id c g) /\
  link_handler (Some ("./" +:+ file g)) = Document (section_guide_id c g) /\
  link_handler (Some ("../" +:+ file g)) = Document (section_guide_id c g).
Proof.
  revert c g.
  assert (Hall : Forall (fun cg =>
             link_handler (Some (file (snd cg))) = Document (section_guide_id (fst cg) (snd cg)) /\
             link_handler (Some ("./" +:+ file (snd cg))) = Document (section_guide_id (fst cg) (snd cg)) /\
             link_handler (Some ("../" +:+ file (snd cg))) = Document (section_guide_id (fst cg) (snd cg)))
           (all_guides GUIDES)).
  { apply (Forall_forallb _
             (fun cg =>
                let reaches href :=
                  match link_handler (Some href) with
                  | Document t => String.eqb t (section_guide_id (fst cg) (snd cg))
                  | _ => false
                  end in
                reaches (file (snd cg)) && reaches ("./" +:+ file (snd cg))
                && reaches ("../" +:+ file (snd cg)))).
    - intros cg H. cbv zeta in H.
      apply andb_true_iff in H as [H H3]. apply andb_true_iff in H as [H1 H2].
      repeat split.
      + destruct (link_handler (Some (file (snd cg)))); try discriminate.
        apply String.eqb_eq in H1. congruence.
      + destruct (link_handler (Some ("./" +:+ file (snd cg)))); try discriminate.
        apply String.eqb_eq in H2. congruence.
      + destruct (link_handler (Some ("../" +:+ file (snd cg)))); try discriminate.
        apply String.eqb_eq in H3. congruence.
    - vm_compute. reflexivity. }
  intros c g Hin. rewrite Forall_forall in Hall. exact (Hall (c, g) Hin).
Qed.

Lemma link_handler_reaches_section_witness :
  link_handler (Some "FEATURE_TESTS/01_TAB_ARCHITECTURE.md")
  = Document "feature-01_tab_architecture" /\
  link_handler (Some "./FEATURE_TESTS/01_TAB_ARCHITECTURE.md")
  = Document "feature-01_tab_architecture" /\
  link_handler (Some "../FEATURE_TESTS/01_TAB_ARCHITECTURE.md")
  = Document "feature-01_tab_architecture".
Proof.
  apply (link_handler_reaches_section Feature Samples.tab_architecture).
  apply list_elem_of_In. vm_compute. do 10 right. left. reflexivity.
Defined.

End ClientFacts.

(** ** Further properties of the package assembler *)

Section Failures.
Import Str Package Aux.

Variables (readme_title readme_tree readme_body readme_end : string).

Local Abbreviation run := (create_tester_package readme_title readme_tree readme_body readme_end).
Local Abbreviation packaged := (Aux.packaged readme_title readme_tree readme_body readme_end).

(** The package name is taken by a file. *)
Lemma exec_name_taken e (t : tree) dz mz :
  t !! package_name e = Some (File dz mz) ->
  exec (run e) t = (Raise NotADirectoryError, t).
Proof.
  intros Hslot. unfold create_tester_package.
  rewrite exec_bind, exec_print. cbv beta iota.
  rewrite exec_bind, exec_print. cbv beta iota.
  rewrite exec_fresh_staging, Hslot. reflexivity.
Qed.

(** [dist] is a file. *)
Lemma exec_dist_file e (t : tree) dd md :
  slot_for_dir t (package_name e) -> t !! "dist" = Some (File dd md) ->
  exec (run e) t = (Raise NotADirectoryError, <[package_name e := Dir ∅]> t).
Proof.
  intros Hslot Hdist.
  assert (Hd : "dist" <> package_name e) by (apply package_name_head; discriminate).
  unfold create_tester_package. cbn [app].
  rewrite exec_bind, exec_print. cbv beta iota.
  rewrite exec_bind, exec_print. cbv beta iota.
  rewrite exec_fresh_staging, match_slot_for_dir by exact Hslot.
  rewrite exec_bind, exec_print. cbv beta iota.
  rewrite exec_bind, exec_path_exists_outside by exact Hd.
  rewrite stat_top, Hdist. cbv beta iota. cbn [negb].
  rewrite exec_bind, exec_copytree_staged, stat_top, Hdist
    by first [exact Hd | apply lookup_empty].
  reflexivity.
Qed.

(** On a built project the run can only stop at a directory found where a
    file is looked for, and then leaves the staging directory behind. *)
Lemma exec_built_raises e (t d : tree) :
  slot_for_dir t (package_name e) ->
  t !! "dist" = Some (Dir d) ->
  match exec (run e) t with
  | (Raise x, u) =>
      x = IsADirectoryError /\ exists S : tree, u = <[package_name e := Dir S]> t
  | (Ok _, _) => True
  end.
Proof.
  intros Hslot Hdist.
  assert (Hd : "dist" <> package_name e) by (apply package_name_head; discriminate).
  assert (Hg : "TESTING_GUIDES" <> package_name e) by (apply package_name_head; discriminate).
  assert (Hr : "README.md" <> package_name e) by (apply package_name_head; discriminate).
  assert (Hc : "CHANGELOG.md" <> package_name e) by (apply package_name_head; discriminate).
  unfold create_tester_package. cbn [app].
  rewrite exec_bind, exec_print. cbv beta iota.
  rewrite exec_bind, exec_print. cbv beta iota.
  rewrite exec_fresh_staging, match_slot_for_dir by exact Hslot.
  rewrite exec_bind, exec_print. cbv beta iota.
  rewrite exec_bind, exec_path_exists_outside by exact Hd.
  rewrite stat_top, Hdist. cbv beta iota. cbn [negb].
  rewrite exec_bind, exec_copytree_staged, stat_top, Hdist
    by first [exact Hd | apply lookup_empty].
  rewrite exec_bind, exec_inspect. cbv beta iota.
  rewrite exec_bind, exec_print. cbv beta iota.
  (* 2. the guide *)
  rewrite exec_bind, exec_copy_testing_guide by fresh_name.
  destruct (no_directory_cases t ["TESTING_GUIDES"; "testing-guide.html"]) as [H1|[ch H1]].
  2:{ rewrite H1. cbv beta iota. split; [reflexivity | eexists; reflexivity]. }
  rewrite match_no_directory by exact H1. cbv beta iota.
  (* 3. the launchers *)
  rewrite exec_bind, exec_print. cbv beta iota.
  unfold launchers at 1. cbn [for_each].
  rewrite exec_bind, exec_bind, exec_copy_launcher by fresh_name.
  destruct (no_directory_cases t ["TESTING_GUIDES"; "open-guide.sh"]) as [H2|[ch H2]].
  2:{ rewrite H2. cbv beta iota. split; [reflexivity | eexists; reflexivity]. }
  rewrite match_no_directory by exact H2. cbv beta iota.
  rewrite exec_bind, exec_copy_launcher by fresh_name.
  destruct (no_directory_cases t ["TESTING_GUIDES"; "open-guide.bat"]) as [H3|[ch H3]].
  2:{ rewrite H3. cbv beta iota. split; [reflexivity | eexists; reflexivity]. }
  rewrite match_no_directory by exact H3. cbv beta iota.
  rewrite exec_ret. cbv beta iota.
  (* 4. the documents *)
  rewrite exec_bind, exec_print. cbv beta iota.
  unfold docs at 1. cbn [for_each].
  rewrite exec_bind, exec_bind, exec_copy_doc by first [exact Hg | fresh_name].
  destruct (no_directory_cases t ["TESTING_GUIDES"; "QUICK_START.md"]) as [H4|[ch H4]].
  2:{ rewrite H4. cbv beta iota. split; [reflexivity | eexists; reflexivity]. }
  rewrite match_no_directory by exact H4. cbv beta iota.
  rewrite exec_bind, exec_copy_doc by first [exact Hg | fresh_name].
  destruct (no_directory_cases t ["TESTING_GUIDES"; "HTML_GUIDE_README.md"]) as [H5|[ch H5]].
  2:{ rewrite H5. cbv beta iota. split; [reflexivity | eexists; reflexivity]. }
  rewrite match_no_directory by exact H5. cbv beta iota.
  rewrite exec_bind, exec_copy_doc by first [exact Hr | fresh_name].
  destruct (no_directory_cases t ["README.md"]) as [H6|[ch H6]].
  2:{ rewrite H6. cbv beta iota. split; [reflexivity | eexists; reflexivity]. }
  rewrite match_no_directory by exact H6. cbv beta iota.
  rewrite exec_bind, exec_copy_doc by first [exact Hc | fresh_name].
  destruct (no_directory_cases t ["CHANGELOG.md"]) as [H7|[ch H7]].
  2:{ rewrite H7. cbv beta iota. split; [reflexivity | eexists; reflexivity]. }
  rewrite match_no_directory by exact H7. cbv beta iota.
  rewrite exec_ret. cbv beta iota.
  (* 5. and 6. the generated files *)
  rewrite exec_bind, exec_print. cbv beta iota.
  rewrite exec_bind, exec_write_text_staged by fresh_name. cbv beta iota.
  rewrite exec_bind, exec_print. cbv beta iota.
  rewrite exec_bind, exec_write_text_staged by fresh_name. cbv beta iota.
  (* 7. the archive *)
  rewrite exec_bind, exec_print. cbv beta iota.
  rewrite exec_archive.
  assert (Hzip : slot_for_file t (zip_filename e)
                 \/ exists ch, t !! zip_filename e = Some (Dir ch)).
  { unfold slot_for_file. destruct (t !! zip_filename e) as [[dz mz|ch]|]; eauto. }
  destruct Hzip as [Hzip|[ch Hzip]].
  2:{ rewrite Hzip. cbv beta iota. split; [reflexivity | eexists; reflexivity]. }
  rewrite match_slot_for_file by exact Hzip. cbv beta iota zeta.
  rewrite exec_bind, exec_print. cbv beta iota.
  (* 8. the clean-up *)
  rewrite exec_bind, exec_print. cbv beta iota.
  rewrite exec_bind, exec_rmtree_top.
  rewrite lookup_insert_ne by apply zip_filename_package_name.
  rewrite lookup_insert_eq. cbv beta iota.
  rewrite exec_bind, exec_print. cbv beta iota.
  rewrite exec_bind, exec_for_each_print. cbv beta iota.
  rewrite exec_ret. exact I.
Qed.

(** Why a run raises, and what it leaves. *)
Lemma exec_raise_cases e (t : tree) x u :
  exec (run e) t = (Raise x, u) ->
  (x = NotADirectoryError /\ u = t /\ ~ slot_for_dir t (package_name e)) \/
  (x = NotADirectoryError /\ u = <[package_name e := Dir ∅]> t /\
   slot_for_dir t (package_name e) /\ exists dd md, t !! "dist" = Some (File dd md)) \/
  (x = IsADirectoryError /\ (exists S : tree, u = <[package_name e := Dir S]> t) /\
   slot_for_dir t (package_name e) /\ (exists d : tree, t !! "dist" = Some (Dir d)) /\
   ~ (Forall (no_directory t) sources /\ slot_for_file t (zip_filename e))).
Proof.
  intros Hrun.
  destruct (t !! package_name e) as [[dz mz|old]|] eqn:Hp.
  { rewrite (exec_name_taken e t dz mz Hp) in Hrun. injection Hrun as <- <-.
    left. split; [reflexivity|]. split; [reflexivity|].
    unfold slot_for_dir. rewrite Hp. tauto. }
  all: assert (Hslot : slot_for_dir t (package_name e))
         by (unfold slot_for_dir; rewrite Hp; exact I).
  all: right.
  all: destruct (t !! "dist") as [[dd md|d]|] eqn:Hdist.
  all: try (rewrite (exec_dist_file e t dd md Hslot Hdist) in Hrun; injection Hrun as <- <-;
            left; split; [reflexivity|]; split; [reflexivity|];
            split; [exact Hslot | eauto]).
  all: try (rewrite (exec_unbuilt readme_title readme_tree readme_body readme_end
                       e t Hslot Hdist) in Hrun; discriminate).
  all: right.
  all: pose proof (exec_built_raises e t d Hslot Hdist) as H1.
  all: pose proof (exec_built readme_title readme_tree readme_body readme_end
                     e t d Hslot Hdist) as H2.
  all: rewrite Hrun in H1, H2; destruct H1 as [-> HS].
  all: split; [reflexivity|]; split; [exact HS|]; split; [exact Hslot|].
  all: split; [eauto | exact H2].
Qed.



(** X13.  Whatever a run comes to, it changes the project in two places at
    most, the staging directory and the archive: every other entry of the
    project root is after the run what it was before. *)
Theorem create_tester_package_frame e (t : tree) name :
  name <> package_name e -> name <> zip_filename e ->
  snd (exec (run e) t) !! name = t !! name.
Proof.
  intros Hp Hz.
  pose proof (exec_create_tester_package readme_title readme_tree readme_body readme_end
                e t) as H.
  destruct (exec (run e) t) as [[[z|]|x] u] eqn:Hrun; cbn [snd].
  - destruct H as (d & _ & _ & ->). unfold Aux.packaged.
    rewrite lookup_delete_ne, lookup_insert_ne by congruence. reflexivity.
  - destruct H as (_ & _ & ->). rewrite lookup_insert_ne by congruence. reflexivity.
  - destruct (exec_raise_cases e t x u Hrun)
      as [(_ & -> & _) | [(_ & -> & _) | (_ & (S & ->) & _)]].
    + reflexivity.
    + rewrite lookup_insert_ne by congruence. reflexivity.
    + rewrite lookup_insert_ne by congruence. reflexivity.
Qed.

End Failures.

Section Launchers.
Import Str Package Aux.

Variables (readme_title readme_tree readme_body readme_end : string).

Local Abbreviation run := (create_tester_package readme_title readme_tree readme_body readme_end).
Local Abbreviation packaged := (Aux.packaged readme_title readme_tree readme_body readme_end).
Local Abbreviation archive_entries := (Aux.archive_entries readme_title readme_tree readme_body readme_end).
Local Abbreviation listed_files := (Aux.listed_files readme_title readme_tree readme_body readme_end).

Lemma launcher_listed e (t d : tree) launcher dl ml :
  launcher ∈ launchers ->
  stat ["TESTING_GUIDES"; launcher] t = Some (File dl ml) ->
  ([package_name e; launcher], (dl, if endswith launcher ".sh" then 493%N else ml))
  ∈ archive_entries e t d.
Proof.
  intros Hin Hs. unfold Aux.archive_entries.
  change (map ?f ?l) with (f <$> l). apply list_elem_of_fmap.
  exists ([launcher], (dl, if endswith launcher ".sh" then 493%N else ml)).
  split; [reflexivity|].
  rewrite walk_staging. unfold Aux.listed_files.
  apply elem_of_app. right. apply elem_of_app. right. apply elem_of_app. left.
  apply list_elem_of_In, in_flat_map. exists launcher.
  split; [apply list_elem_of_In, Hin|].
  unfold picked_launcher. rewrite Hs. left. reflexivity.
Qed.

Lemma stat_packaged_other e (t d : tree) name rest :
  name <> package_name e -> name <> zip_filename e ->
  stat (name :: rest) (packaged e t d) = stat (name :: rest) t.
Proof.
  intros Hp Hz. unfold Aux.packaged. cbn [stat].
  rewrite lookup_delete_ne, lookup_insert_ne by congruence. reflexivity.
Qed.


End Launchers.

Section MainFacts.
Import Str Package Aux Command.

Variables (readme_title readme_tree readme_body readme_end : string).
Variable describe : exn -> string.

Local Abbreviation run := (create_tester_package readme_title readme_tree readme_body readme_end).
Local Abbreviation main := (Command.main readme_title readme_tree readme_body readme_end describe).

Lemma main_by_outcome e (t : tree) :
  main e t =
  match exec (run e) t with
  | (Ok (Some _), u) =>
      (u, printed (run e) t ++ [ "✨ Success! Package ready for distribution." ])
  | (Ok None, u) => (u, printed (run e) t)
  | (Raise x, u) =>
      (u, printed (run e) t ++ [ "❌ Error creating package: " +:+ describe x ])
  end.
Proof.
  unfold Command.main, exec, printed.
  destruct (run e t) as [[[[z|]|x] u] out]; reflexivity.
Qed.


End MainFacts.

Section MoreWitnesses.
Import Str Package Aux.

Local Abbreviation run :=
  (create_tester_package Samples.readme_title Samples.readme_tree
                         Samples.readme_body Samples.readme_end).


Lemma create_tester_package_frame_witness :
  snd (exec (run Samples.new_year) Samples.built) !! "dist" = Samples.built !! "dist".
Proof.
  apply (create_tester_package_frame
           Samples.readme_title Samples.readme_tree Samples.readme_body
           Samples.readme_end Samples.new_year Samples.built "dist").
  - apply package_name_head. discriminate.
  - apply zip_filename_head. discriminate.
Defined.



End MoreWitnesses.

Section WelcomeLinks.
Import Str Guide Client.

Lemma elem_of_existsb (h : string) (l : list string) :
  h ∈ l <-> existsb (String.eqb h) l = true.
Proof.
  rewrite existsb_exists, list_elem_of_In. split.
  - intros H. exists h. split; [exact H | apply String.eqb_refl].
  - intros (x & Hx & He). apply String.eqb_eq in He. subst x. exact Hx.
Qed.

(** X16.  Of the four quick-start links of the welcome section, only the
    first names an element of the page: the other three are spelt with
    dashes where the section identifiers, derived from the file names, keep
    the underscores; spelt with underscores each of them is the identifier
    of a section. *)
Theorem quick_start_links_resolve :
  Forall (fun target =>
            (target ∈ element_ids GUIDES <-> target = "readme") /\
            replace "-" "_" target ∈ element_ids GUIDES)
         quick_start_links.
Proof.
  unfold quick_start_links.
  constructor; [|constructor; [|constructor; [|constructor; [|constructor]]]].
  all: cbv beta; rewrite !elem_of_existsb.
  all: split; [|vm_compute; reflexivity].
  all: vm_compute.
  all: split; intros H; first [reflexivity | discriminate H].
Qed.

End WelcomeLinks.

Section Rerun.
Import Str Package Aux.

Variables (readme_title readme_tree readme_body readme_end : string).

Local Abbreviation run := (create_tester_package readme_title readme_tree readme_body readme_end).
Local Abbreviation staging := (Aux.staging readme_title readme_tree readme_body readme_end).
Local Abbreviation archive_entries := (Aux.archive_entries readme_title readme_tree readme_body readme_end).
Local Abbreviation packaged := (Aux.packaged readme_title readme_tree readme_body readme_end).

Lemma staging_packaged e (t d d' : tree) :
  staging e (packaged e t d') d = staging e t d.
Proof.
  unfold Aux.staging, staged, staged_launcher.
  cbn [fold_left launchers docs fst snd].
  rewrite !(stat_packaged_other readme_title readme_tree readme_body readme_end)
    by first [apply package_name_head; discriminate
             | apply zip_filename_head; discriminate].
  reflexivity.
Qed.

Lemma ready_packaged e (t d : tree) :
  ready e t d -> ready e (packaged e t d) d.
Proof.
  intros (_ & Hdist & Hsrc & _).
  pose proof (zip_filename_package_name e) as Hzp.
  split.
  { unfold slot_for_dir, Aux.packaged. rewrite lookup_delete_eq. exact I. }
  split.
  { unfold Aux.packaged.
    rewrite lookup_delete_ne, lookup_insert_ne
      by first [apply not_eq_sym, package_name_head; discriminate
               | apply not_eq_sym, zip_filename_head; discriminate].
    exact Hdist. }
  split.
  { eapply Forall_impl; [exact Hsrc|]. intros p Hp. unfold no_directory in *.
    destruct p as [|name rest]; [exact Hp|].
    destruct (decide (name = package_name e)) as [->|H1].
    { unfold Aux.packaged. cbn [stat]. rewrite lookup_delete_eq. exact I. }
    destruct (decide (name = zip_filename e)) as [->|H2].
    { unfold Aux.packaged. cbn [stat].
      rewrite lookup_delete_ne, lookup_insert_eq by congruence.
      destruct rest; exact I. }
    rewrite (stat_packaged_other readme_title readme_tree readme_body readme_end)
      by assumption.
    exact Hp. }
  unfold slot_for_file, Aux.packaged.
  rewrite lookup_delete_ne, lookup_insert_eq by congruence. exact I.
Qed.


End Rerun.

Section RerunWitness.
Import Str Package Aux.


End RerunWitness.
